(** * novastock: workspace membership, catalog and procurement rules

    A shallow embedding of the data-access layer of the novastock
    application (TypeScript services over a hosted PostgreSQL store) and of
    the derived-state computations of its pages, with the properties the
    specification states about them.

    Conventions.
    - [uuid]: row identifiers are drawn by [gen_random_uuid()]; the store
      model draws them from a counter, so a drawn identifier is one no row
      carries yet.
    - integer columns and integer-valued JS numbers are [Z]; [unit_price]
      ([DECIMAL(10,2)], a JS number on the client) is an exact rational [Q],
      so the arithmetic is decimal arithmetic without binary rounding.
    - timestamps are [Z]; [now()] reads the store's clock.
    - a call to the store answers [{ data, error }]; a call may also be made
      to fail from outside (policy denial, transport): the [faults] script
      of the backend lists, call by call, the failures forced on it. *)

From Stdlib Require Import List ZArith QArith String Bool Lia Permutation.
From Stdlib Require SpecFloat.
Import ListNotations.

Local Open Scope Z_scope.
Local Open Scope bool_scope.

(** ** Identifiers, roles, errors *)

Definition uuid := nat.
Bind Scope nat_scope with uuid.
Definition timestamp := Z.

(** [CREATE TYPE public.workspace_role AS ENUM ('admin', 'member')] *)
Inductive WorkspaceRole := admin | member.

Definition WorkspaceRole_eqb (a b : WorkspaceRole) : bool :=
  match a, b with
  | admin, admin | member, member => true
  | _, _ => false
  end.

(** [CREATE TYPE public.purchase_order_status AS ENUM (...)] *)
Inductive PurchaseOrderStatus :=
  draft | submitted | approved | ordered | received | cancelled.

(** Error codes of the store as the client sees them in [error.code]. *)
Inductive pg_code :=
| foreign_key_violation        (* 23503 *)
| unique_violation             (* 23505 *)
| numeric_value_out_of_range   (* 22003 *)
| insufficient_privilege       (* 42501 *)
| PGRST116                     (* .single(): not exactly one row *)
| other_code (code : string).

(** What a service hands back as [error]: the store's error object, or a
    JS [Error] built by the service itself. *)
Inductive Err :=
| PostgrestError (code : pg_code)
| Error (message : string).

(** The error taxonomy of section 7 of the specification. The services
    declare none of it (they pass the store's error on unchanged):
    [category] reads it off the store's code where the specification ties
    a category to a store failure. A blocked deletion of a referenced row
    and a unique-constraint violation are conflicts; no code stands for an
    expiry. *)
Inductive ErrorCategory :=
| ValidationError | AuthorizationError | ConflictError
| NotFoundError | ExpiredError | ExternalServiceError.

Definition category (e : Err) : option ErrorCategory :=
  match e with
  | PostgrestError foreign_key_violation => Some ConflictError
  | PostgrestError unique_violation => Some ConflictError
  | PostgrestError numeric_value_out_of_range => Some ValidationError
  | PostgrestError insufficient_privilege => Some AuthorizationError
  | PostgrestError PGRST116 => Some NotFoundError
  | _ => None
  end.

(** ** Rows *)

Module Workspace.
Record t := {
  id : uuid;
  name : string;
  created_by : option uuid;
  created_at : timestamp;
  updated_at : timestamp }.
End Workspace.

Module WorkspaceMember.
Record t := {
  id : uuid;
  workspace_id : uuid;
  user_id : uuid;
  role : WorkspaceRole;
  joined_at : timestamp }.
End WorkspaceMember.

Module WorkspaceInvitation.
Record t := {
  id : uuid;
  workspace_id : uuid;
  email : string;
  role : WorkspaceRole;
  invited_by : option uuid;
  created_at : timestamp;
  expires_at : timestamp }.
End WorkspaceInvitation.

Module Supplier.
Record t := {
  id : uuid;
  workspace_id : uuid;
  company_name : string;
  email : option string;
  phone : option string;
  website : option string;
  address : option string;
  created_at : timestamp;
  updated_at : timestamp }.
End Supplier.

Module InventoryItem.
Record t := {
  id : uuid;
  workspace_id : uuid;
  supplier_id : option uuid;
  name : string;
  sku : option string;
  description : option string;
  quantity : Z;
  min_quantity : Z;
  unit_price : option Q;
  created_at : timestamp;
  updated_at : timestamp }.
End InventoryItem.

Module PurchaseOrder.
Record t := {
  id : uuid;
  workspace_id : uuid;
  supplier_id : uuid;
  status : PurchaseOrderStatus;
  notes : option string;
  order_date : option timestamp;
  expected_date : option timestamp;
  created_by : option uuid;
  created_at : timestamp;
  updated_at : timestamp }.
End PurchaseOrder.

Module PurchaseOrderItem.
Record t := {
  id : uuid;
  purchase_order_id : uuid;
  inventory_item_id : option uuid;
  item_name : string;
  quantity : Z;
  unit_price : option Q;
  created_at : timestamp }.
End PurchaseOrderItem.

(** ** The store *)

Record Store := {
  auth_users : list uuid;
  workspaces : list Workspace.t;
  workspace_members : list WorkspaceMember.t;
  workspace_invitations : list WorkspaceInvitation.t;
  suppliers : list Supplier.t;
  inventory_items : list InventoryItem.t;
  purchase_orders : list PurchaseOrder.t;
  purchase_order_items : list PurchaseOrderItem.t;
  now : timestamp;
  next_uuid : uuid }.

(** [{ data, error }] *)
Module Response.
Record t (A : Type) := { data : option A; error : option Err }.
Arguments data {A} _.
Arguments error {A} _.
End Response.

Definition success {A} (a : A) : Response.t A :=
  {| Response.data := Some a; Response.error := None |}.
Definition failure {A} (e : Err) : Response.t A :=
  {| Response.data := None; Response.error := Some e |}.

Record Backend := { db : Store; faults : list (option Err) }.

(** A computation against the backend. *)
Definition Call (A : Type) := Backend -> A * Backend.

Definition ret {A} (a : A) : Call A := fun b => (a, b).
Definition bind {A B} (c : Call A) (k : A -> Call B) : Call B :=
  fun b => let (a, b') := c b in k a b'.

Declare Scope call_scope.
Delimit Scope call_scope with call.
Notation "'await' x <- c ;; k" := (bind c (fun x => k))
  (at level 100, x name, c at next level, k at level 200, right associativity) : call_scope.

(** One statement sent to the store: the next entry of the script decides
    whether it is made to fail; otherwise the statement runs, and either
    the store rejects it (no effect) or it takes effect. *)
Definition request {A} (stmt : Store -> Err + (A * Store)) : Call (Response.t A) :=
  fun b =>
    match faults b with
    | Some e :: rest => (failure e, {| db := db b; faults := rest |})
    | script =>
        match stmt (db b) with
        | inl e => (failure e, {| db := db b; faults := tl script |})
        | inr (a, s) => (success a, {| db := s; faults := tl script |})
        end
    end.

(** [.single()]: exactly one row, or error PGRST116 with [data = null]. *)
Definition single {A} (rows : list A) : Err + A :=
  match rows with
  | [row] => inr row
  | _ => inl (PostgrestError PGRST116)
  end.

(** ** Tables: columns, defaults, constraints

    From the two migrations: the defaults a row gets on insert
    ([gen_random_uuid()], [now()]), the foreign keys with their
    [ON DELETE] actions, the unique constraints, and the
    [update_updated_at_column] trigger of the tables that have it. *)

Definition with_next_uuid (n : uuid) (s : Store) : Store :=
  {| auth_users := auth_users s; workspaces := workspaces s;
     workspace_members := workspace_members s;
     workspace_invitations := workspace_invitations s;
     suppliers := suppliers s; inventory_items := inventory_items s;
     purchase_orders := purchase_orders s;
     purchase_order_items := purchase_order_items s;
     now := now s; next_uuid := n |}.

Definition with_workspaces (v : list Workspace.t) (s : Store) : Store :=
  {| auth_users := auth_users s; workspaces := v;
     workspace_members := workspace_members s;
     workspace_invitations := workspace_invitations s;
     suppliers := suppliers s; inventory_items := inventory_items s;
     purchase_orders := purchase_orders s;
     purchase_order_items := purchase_order_items s;
     now := now s; next_uuid := next_uuid s |}.

Definition with_workspace_members (v : list WorkspaceMember.t) (s : Store) : Store :=
  {| auth_users := auth_users s; workspaces := workspaces s;
     workspace_members := v;
     workspace_invitations := workspace_invitations s;
     suppliers := suppliers s; inventory_items := inventory_items s;
     purchase_orders := purchase_orders s;
     purchase_order_items := purchase_order_items s;
     now := now s; next_uuid := next_uuid s |}.

Definition with_workspace_invitations (v : list WorkspaceInvitation.t) (s : Store) : Store :=
  {| auth_users := auth_users s; workspaces := workspaces s;
     workspace_members := workspace_members s;
     workspace_invitations := v;
     suppliers := suppliers s; inventory_items := inventory_items s;
     purchase_orders := purchase_orders s;
     purchase_order_items := purchase_order_items s;
     now := now s; next_uuid := next_uuid s |}.

Definition with_suppliers (v : list Supplier.t) (s : Store) : Store :=
  {| auth_users := auth_users s; workspaces := workspaces s;
     workspace_members := workspace_members s;
     workspace_invitations := workspace_invitations s;
     suppliers := v; inventory_items := inventory_items s;
     purchase_orders := purchase_orders s;
     purchase_order_items := purchase_order_items s;
     now := now s; next_uuid := next_uuid s |}.

Definition with_inventory_items (v : list InventoryItem.t) (s : Store) : Store :=
  {| auth_users := auth_users s; workspaces := workspaces s;
     workspace_members := workspace_members s;
     workspace_invitations := workspace_invitations s;
     suppliers := suppliers s; inventory_items := v;
     purchase_orders := purchase_orders s;
     purchase_order_items := purchase_order_items s;
     now := now s; next_uuid := next_uuid s |}.

Definition with_purchase_orders (v : list PurchaseOrder.t) (s : Store) : Store :=
  {| auth_users := auth_users s; workspaces := workspaces s;
     workspace_members := workspace_members s;
     workspace_invitations := workspace_invitations s;
     suppliers := suppliers s; inventory_items := inventory_items s;
     purchase_orders := v;
     purchase_order_items := purchase_order_items s;
     now := now s; next_uuid := next_uuid s |}.

Definition with_purchase_order_items (v : list PurchaseOrderItem.t) (s : Store) : Store :=
  {| auth_users := auth_users s; workspaces := workspaces s;
     workspace_members := workspace_members s;
     workspace_invitations := workspace_invitations s;
     suppliers := suppliers s; inventory_items := inventory_items s;
     purchase_orders := purchase_orders s;
     purchase_order_items := v;
     now := now s; next_uuid := next_uuid s |}.

(** [REFERENCES auth.users(id)] on a nullable column. *)
Definition references_auth_user (s : Store) (u : option uuid) : bool :=
  match u with
  | None => true
  | Some u => existsb (Nat.eqb u) (auth_users s)
  end.

Definition has_workspace (s : Store) (wid : uuid) : bool :=
  existsb (fun w => Nat.eqb (Workspace.id w) wid) (workspaces s).

Definition has_supplier (s : Store) (sid : uuid) : bool :=
  existsb (fun x => Nat.eqb (Supplier.id x) sid) (suppliers s).

Definition has_purchase_order (s : Store) (oid : uuid) : bool :=
  existsb (fun o => Nat.eqb (PurchaseOrder.id o) oid) (purchase_orders s).

Definition has_inventory_item (s : Store) (iid : uuid) : bool :=
  existsb (fun i => Nat.eqb (InventoryItem.id i) iid) (inventory_items s).

(** The membership rows of a user in a workspace
    ([WHERE workspace_id = .. AND user_id = ..]). *)
Definition memberships (s : Store) (wid uid : uuid) : list WorkspaceMember.t :=
  filter (fun m => Nat.eqb (WorkspaceMember.workspace_id m) wid
                   && Nat.eqb (WorkspaceMember.user_id m) uid)
         (workspace_members s).

(** The three functions the row policies are written with. *)
Definition get_user_workspace_role (s : Store) (p_workspace_id p_user_id : uuid)
  : option WorkspaceRole :=
  match memberships s p_workspace_id p_user_id with
  | m :: _ => Some (WorkspaceMember.role m)
  | [] => None
  end.

Definition is_workspace_member (s : Store) (p_workspace_id p_user_id : uuid) : bool :=
  match memberships s p_workspace_id p_user_id with
  | _ :: _ => true
  | [] => false
  end.

Definition is_workspace_admin (s : Store) (p_workspace_id p_user_id : uuid) : bool :=
  existsb (fun m => WorkspaceRole_eqb (WorkspaceMember.role m) admin)
          (memberships s p_workspace_id p_user_id).

(** [INSERT INTO workspaces (name, created_by) ... RETURNING *] *)
Definition insert_workspace (name : string) (created_by : option uuid)
  : Store -> Err + (Workspace.t * Store) :=
  fun s =>
    if references_auth_user s created_by then
      let row := {| Workspace.id := next_uuid s;
                    Workspace.name := name;
                    Workspace.created_by := created_by;
                    Workspace.created_at := now s;
                    Workspace.updated_at := now s |} in
      inr (row, with_next_uuid (S (next_uuid s))
                  (with_workspaces (workspaces s ++ [row]) s))
    else inl (PostgrestError foreign_key_violation).

(** [INSERT INTO workspace_members (workspace_id, user_id, role)]:
    [UNIQUE (workspace_id, user_id)], then the two foreign keys. *)
Definition insert_workspace_member (workspace_id user_id : uuid) (role : WorkspaceRole)
  : Store -> Err + (unit * Store) :=
  fun s =>
    match memberships s workspace_id user_id with
    | _ :: _ => inl (PostgrestError unique_violation)
    | [] =>
        if has_workspace s workspace_id && references_auth_user s (Some user_id) then
          let row := {| WorkspaceMember.id := next_uuid s;
                        WorkspaceMember.workspace_id := workspace_id;
                        WorkspaceMember.user_id := user_id;
                        WorkspaceMember.role := role;
                        WorkspaceMember.joined_at := now s |} in
          inr (tt, with_next_uuid (S (next_uuid s))
                     (with_workspace_members (workspace_members s ++ [row]) s))
        else inl (PostgrestError foreign_key_violation)
    end.

(** [inventory_items.supplier_id ... ON DELETE SET NULL]: the action is an
    UPDATE of the referencing row, so the table's
    [update_inventory_items_updated_at] trigger ([BEFORE UPDATE ... FOR EACH
    ROW], [NEW.updated_at = now()]) runs on it. *)
Definition set_supplier_null (t : timestamp) (i : InventoryItem.t) : InventoryItem.t :=
  {| InventoryItem.id := InventoryItem.id i;
     InventoryItem.workspace_id := InventoryItem.workspace_id i;
     InventoryItem.supplier_id := None;
     InventoryItem.name := InventoryItem.name i;
     InventoryItem.sku := InventoryItem.sku i;
     InventoryItem.description := InventoryItem.description i;
     InventoryItem.quantity := InventoryItem.quantity i;
     InventoryItem.min_quantity := InventoryItem.min_quantity i;
     InventoryItem.unit_price := InventoryItem.unit_price i;
     InventoryItem.created_at := InventoryItem.created_at i;
     InventoryItem.updated_at := t |}.

Definition on_supplier_delete (gone : uuid -> bool) (t : timestamp) (i : InventoryItem.t)
  : InventoryItem.t :=
  match InventoryItem.supplier_id i with
  | Some sid => if gone sid then set_supplier_null t i else i
  | None => i
  end.

(** [purchase_order_items.inventory_item_id ... ON DELETE SET NULL]
    (this table has no update trigger). *)
Definition on_inventory_item_delete (gone : uuid -> bool) (li : PurchaseOrderItem.t)
  : PurchaseOrderItem.t :=
  match PurchaseOrderItem.inventory_item_id li with
  | Some iid =>
      if gone iid then
        {| PurchaseOrderItem.id := PurchaseOrderItem.id li;
           PurchaseOrderItem.purchase_order_id := PurchaseOrderItem.purchase_order_id li;
           PurchaseOrderItem.inventory_item_id := None;
           PurchaseOrderItem.item_name := PurchaseOrderItem.item_name li;
           PurchaseOrderItem.quantity := PurchaseOrderItem.quantity li;
           PurchaseOrderItem.unit_price := PurchaseOrderItem.unit_price li;
           PurchaseOrderItem.created_at := PurchaseOrderItem.created_at li |}
      else li
  | None => li
  end.

(** [purchase_orders.supplier_id ... ON DELETE RESTRICT] *)
Definition supplier_in_use (s : Store) (gone : uuid -> bool) : bool :=
  existsb (fun o => gone (PurchaseOrder.supplier_id o)) (purchase_orders s).

(** [DELETE FROM suppliers WHERE id = sid] *)
Definition delete_supplier (sid : uuid) : Store -> Err + (unit * Store) :=
  fun s =>
    if has_supplier s sid then
      if supplier_in_use s (Nat.eqb sid) then
        inl (PostgrestError foreign_key_violation)
      else
        inr (tt,
             with_inventory_items
               (map (on_supplier_delete (Nat.eqb sid) (now s)) (inventory_items s))
               (with_suppliers
                  (filter (fun x => negb (Nat.eqb (Supplier.id x) sid)) (suppliers s)) s))
    else inr (tt, s).

(** [DELETE FROM workspaces WHERE id = wid]: every table of the workspace
    references it [ON DELETE CASCADE]; the suppliers removed that way
    detach the inventory items that point at them, the inventory items
    removed detach order lines, the orders removed take their lines along.
    [RESTRICT] is checked once the cascades are done, when the orders of
    the workspace are gone: a supplier of the workspace blocks the statement
    when a purchase order of another workspace refers to it. *)
Definition delete_workspace (wid : uuid) : Store -> Err + (unit * Store) :=
  fun s =>
    if has_workspace s wid then
      let supplier_gone := fun sid =>
        existsb (fun x => Nat.eqb (Supplier.id x) sid && Nat.eqb (Supplier.workspace_id x) wid)
                (suppliers s) in
      let item_gone := fun iid =>
        existsb (fun i => Nat.eqb (InventoryItem.id i) iid
                          && Nat.eqb (InventoryItem.workspace_id i) wid)
                (inventory_items s) in
      let order_gone := fun oid =>
        existsb (fun o => Nat.eqb (PurchaseOrder.id o) oid
                          && Nat.eqb (PurchaseOrder.workspace_id o) wid)
                (purchase_orders s) in
      let orders_kept :=
        filter (fun o => negb (Nat.eqb (PurchaseOrder.workspace_id o) wid))
               (purchase_orders s) in
      if supplier_in_use (with_purchase_orders orders_kept s) supplier_gone then
        inl (PostgrestError foreign_key_violation)
      else
        inr (tt,
             {| auth_users := auth_users s;
                workspaces :=
                  filter (fun w => negb (Nat.eqb (Workspace.id w) wid)) (workspaces s);
                workspace_members :=
                  filter (fun m => negb (Nat.eqb (WorkspaceMember.workspace_id m) wid))
                         (workspace_members s);
                workspace_invitations :=
                  filter (fun i => negb (Nat.eqb (WorkspaceInvitation.workspace_id i) wid))
                         (workspace_invitations s);
                suppliers :=
                  filter (fun x => negb (Nat.eqb (Supplier.workspace_id x) wid)) (suppliers s);
                inventory_items :=
                  map (on_supplier_delete supplier_gone (now s))
                      (filter (fun i => negb (Nat.eqb (InventoryItem.workspace_id i) wid))
                              (inventory_items s));
                purchase_orders := orders_kept;
                purchase_order_items :=
                  map (on_inventory_item_delete item_gone)
                      (filter (fun li => negb (order_gone (PurchaseOrderItem.purchase_order_id li)))
                              (purchase_order_items s));
                now := now s;
                next_uuid := next_uuid s |})
    else inr (tt, s).

(** [SELECT * FROM workspace_invitations WHERE id = ..] with [.single()] *)
Definition select_invitation (invitationId : uuid)
  : Store -> Err + (WorkspaceInvitation.t * Store) :=
  fun s =>
    match single (filter (fun i => Nat.eqb (WorkspaceInvitation.id i) invitationId)
                         (workspace_invitations s)) with
    | inl e => inl e
    | inr i => inr (i, s)
    end.

(** [DELETE FROM workspace_invitations WHERE id = ..] *)
Definition delete_invitation (invitationId : uuid) : Store -> Err + (unit * Store) :=
  fun s =>
    inr (tt,
         with_workspace_invitations
           (filter (fun i => negb (Nat.eqb (WorkspaceInvitation.id i) invitationId))
                   (workspace_invitations s)) s).

(** [SELECT role FROM workspace_members WHERE workspace_id = .. AND
    user_id = ..] with [.single()] *)
Definition select_member_role (workspaceId userId : uuid)
  : Store -> Err + (WorkspaceRole * Store) :=
  fun s =>
    match single (map WorkspaceMember.role (memberships s workspaceId userId)) with
    | inl e => inl e
    | inr r => inr (r, s)
    end.

(** ** workspaceService *)

Module workspaceService.

(** [{ workspace, error }], [{ role, error }], [{ error }] *)
Module WorkspaceResult.
Record t := { workspace : option Workspace.t; error : option Err }.
End WorkspaceResult.

Module RoleResult.
Record t := { role : option WorkspaceRole; error : option Err }.
End RoleResult.

Module ErrorResult.
Record t := { error : option Err }.
End ErrorResult.

Local Open Scope call_scope.

Definition createWorkspace (name : string) (userId : uuid) : Call WorkspaceResult.t :=
  await r <- request (insert_workspace name (Some userId)) ;;
  match Response.error r, Response.data r with
  | None, Some workspace =>
      await m <- request (insert_workspace_member (Workspace.id workspace) userId admin) ;;
      match Response.error m with
      | Some memberError =>
          await _ <- request (delete_workspace (Workspace.id workspace)) ;;
          ret {| WorkspaceResult.workspace := None; WorkspaceResult.error := Some memberError |}
      | None => ret {| WorkspaceResult.workspace := Some workspace; WorkspaceResult.error := None |}
      end
  | workspaceError, _ => ret {| WorkspaceResult.workspace := None; WorkspaceResult.error := workspaceError |}
  end.

Definition getUserRole (workspaceId userId : uuid) : Call RoleResult.t :=
  await r <- request (select_member_role workspaceId userId) ;;
  ret {| RoleResult.role := Response.data r; RoleResult.error := Response.error r |}.

Definition acceptInvitation (invitationId userId : uuid) : Call ErrorResult.t :=
  await r <- request (select_invitation invitationId) ;;
  match Response.error r, Response.data r with
  | None, Some invitation =>
      await m <- request (insert_workspace_member
                            (WorkspaceInvitation.workspace_id invitation) userId
                            (WorkspaceInvitation.role invitation)) ;;
      match Response.error m with
      | Some memberError => ret {| ErrorResult.error := Some memberError |}
      | None =>
          await _ <- request (delete_invitation invitationId) ;;
          ret {| ErrorResult.error := None |}
      end
  | Some fetchError, _ => ret {| ErrorResult.error := Some fetchError |}
  | None, None => ret {| ErrorResult.error := Some (Error "Invitation not found") |}
  end.

End workspaceService.

(** ** Services that throw

    [supplierService], [inventoryService] and [purchaseOrderService] throw
    the store's error instead of returning it: their promise is rejected. *)

Inductive Promise (A : Type) :=
| Resolved (value : A)
| Rejected (reason : Err).
Arguments Resolved {A} _.
Arguments Rejected {A} _.

(** [INTEGER]: a value outside the 32-bit range is refused. *)
Definition int4 (n : Z) : bool := (-2147483648 <=? n) && (n <=? 2147483647).

(** [DECIMAL(10, 2)]: the value is rounded to two decimals (half away from
    zero) and refused when it then needs more than ten digits. *)
Definition round_half_away (n d : Z) : Z := Z.sgn n * ((2 * Z.abs n + d) / (2 * d)).

Definition decimal_10_2 (q : Q) : Err + Q :=
  let cents := round_half_away (Qnum q * 100) (Zpos (Qden q)) in
  if Z.abs cents <? 10000000000 then inr (cents # 100)
  else inl (PostgrestError numeric_value_out_of_range).

Definition decimal_10_2_opt (q : option Q) : Err + option Q :=
  match q with
  | None => inr None
  | Some q => match decimal_10_2 q with inl e => inl e | inr v => inr (Some v) end
  end.

Module purchaseOrderService.

Record CreatePurchaseOrderData := {
  workspace_id : uuid;
  supplier_id : uuid;
  status : option PurchaseOrderStatus;
  notes : option string;
  order_date : option timestamp;
  expected_date : option timestamp;
  created_by : option uuid }.

Record CreatePurchaseOrderItemData := {
  purchase_order_id : uuid;
  inventory_item_id : option uuid;
  item_name : string;
  quantity : Z;
  unit_price : option Q }.

(** The elements of the [items] argument of [createReorderPurchaseOrder];
    [None] is a property that is absent ([undefined]). *)
Record ReorderItem := {
  reorder_inventory_item_id : option uuid;
  reorder_item_name : string;
  reorder_quantity : Z;
  reorder_unit_price : option Q }.

(** The row an accepted [INSERT INTO purchase_orders] adds
    ([status ... DEFAULT 'draft']). *)
Definition purchase_order_row (s : Store) (orderData : CreatePurchaseOrderData)
  : PurchaseOrder.t :=
  {| PurchaseOrder.id := next_uuid s;
     PurchaseOrder.workspace_id := workspace_id orderData;
     PurchaseOrder.supplier_id := supplier_id orderData;
     PurchaseOrder.status := match status orderData with Some st => st | None => draft end;
     PurchaseOrder.notes := notes orderData;
     PurchaseOrder.order_date := order_date orderData;
     PurchaseOrder.expected_date := expected_date orderData;
     PurchaseOrder.created_by := created_by orderData;
     PurchaseOrder.created_at := now s;
     PurchaseOrder.updated_at := now s |}.

Definition insert_purchase_order (orderData : CreatePurchaseOrderData)
  : Store -> Err + (PurchaseOrder.t * Store) :=
  fun s =>
    if has_workspace s (workspace_id orderData)
       && has_supplier s (supplier_id orderData)
       && references_auth_user s (created_by orderData)
    then
      let row := purchase_order_row s orderData in
      inr (row, with_next_uuid (S (next_uuid s))
                  (with_purchase_orders (purchase_orders s ++ [row]) s))
    else inl (PostgrestError foreign_key_violation).

(** The row an accepted [INSERT INTO purchase_order_items] adds, when the
    values fit their columns. *)
Definition purchase_order_item_row (s : Store) (itemData : CreatePurchaseOrderItemData)
  : Err + PurchaseOrderItem.t :=
  if int4 (quantity itemData) then
    match decimal_10_2_opt (unit_price itemData) with
    | inl e => inl e
    | inr price =>
        inr {| PurchaseOrderItem.id := next_uuid s;
               PurchaseOrderItem.purchase_order_id := purchase_order_id itemData;
               PurchaseOrderItem.inventory_item_id := inventory_item_id itemData;
               PurchaseOrderItem.item_name := item_name itemData;
               PurchaseOrderItem.quantity := quantity itemData;
               PurchaseOrderItem.unit_price := price;
               PurchaseOrderItem.created_at := now s |}
    end
  else inl (PostgrestError numeric_value_out_of_range).

Definition insert_purchase_order_item (itemData : CreatePurchaseOrderItemData)
  : Store -> Err + (PurchaseOrderItem.t * Store) :=
  fun s =>
    match purchase_order_item_row s itemData with
    | inl e => inl e
    | inr row =>
        if has_purchase_order s (purchase_order_id itemData)
           && match inventory_item_id itemData with
              | Some iid => has_inventory_item s iid
              | None => true
              end
        then inr (row, with_next_uuid (S (next_uuid s))
                         (with_purchase_order_items (purchase_order_items s ++ [row]) s))
        else inl (PostgrestError foreign_key_violation)
    end.

Local Open Scope call_scope.

(** [if (error) throw error; return data;] *)
Definition throw_or_data {A} (r : Response.t A) : Promise (option A) :=
  match Response.error r with
  | Some e => Rejected e
  | None => Resolved (Response.data r)
  end.

Definition createPurchaseOrder (orderData : CreatePurchaseOrderData)
  : Call (Promise (option PurchaseOrder.t)) :=
  await r <- request (insert_purchase_order orderData) ;;
  ret (throw_or_data r).

Definition addPurchaseOrderItem (itemData : CreatePurchaseOrderItemData)
  : Call (Promise (option PurchaseOrderItem.t)) :=
  await r <- request (insert_purchase_order_item itemData) ;;
  ret (throw_or_data r).

(** [for (const item of items) { await addPurchaseOrderItem({ ... }) }]:
    the first rejected insert ends the loop and rejects the caller's
    promise; reading [order.id] of a null order throws. *)
Fixpoint add_items (order : option PurchaseOrder.t) (items : list ReorderItem)
  : Call (Promise unit) :=
  match items with
  | [] => ret (Resolved tt)
  | item :: rest =>
      match order with
      | None => ret (Rejected (Error "TypeError: order is null"))
      | Some o =>
          await r <- addPurchaseOrderItem
                       {| purchase_order_id := PurchaseOrder.id o;
                          inventory_item_id := reorder_inventory_item_id item;
                          item_name := reorder_item_name item;
                          quantity := reorder_quantity item;
                          unit_price := reorder_unit_price item |} ;;
          match r with
          | Rejected e => ret (Rejected e)
          | Resolved _ => add_items order rest
          end
      end
  end.

Definition createReorderPurchaseOrder (workspaceId supplierId : uuid)
  (items : list ReorderItem) (userId : option uuid)
  : Call (Promise (option PurchaseOrder.t)) :=
  await created <- createPurchaseOrder
                     {| workspace_id := workspaceId;
                        supplier_id := supplierId;
                        status := Some draft;
                        notes := None;
                        order_date := None;
                        expected_date := None;
                        created_by := userId |} ;;
  match created with
  | Rejected e => ret (Rejected e)
  | Resolved order =>
      await added <- add_items order items ;;
      match added with
      | Rejected e => ret (Rejected e)
      | Resolved _ => ret (Resolved order)
      end
  end.

End purchaseOrderService.

Module supplierService.

Local Open Scope call_scope.

Definition deleteSupplier (supplierId : uuid) : Call (Promise unit) :=
  await r <- request (delete_supplier supplierId) ;;
  match Response.error r with
  | Some e => ret (Rejected e)
  | None => ret (Resolved tt)
  end.

End supplierService.

(** ** Low stock *)

(** [item.quantity <= item.min_quantity] *)
Definition isLowStock (item : InventoryItem.t) : bool :=
  InventoryItem.quantity item <=? InventoryItem.min_quantity item.

Module inventoryService.

(** [getLowStockItems]: the rows come from the store ([answer] is its reply
    to the query, whose server-side [lte] operand is not a column value and
    is left to the store); the service throws the reply's error, and
    otherwise keeps, of [data || []], the rows that are low on stock. *)
Definition getLowStockItems (answer : Response.t (list InventoryItem.t))
  : Promise (list InventoryItem.t) :=
  match Response.error answer with
  | Some e => Rejected e
  | None =>
      Resolved (filter isLowStock
                       (match Response.data answer with Some rows => rows | None => [] end))
  end.

End inventoryService.

Module Dashboard.

(** [const lowStock = items.filter(...)], [lowStockCount: lowStock.length],
    [setLowStockItems(lowStock.slice(0, 5))] *)
Definition lowStock (items : list InventoryItem.t) : list InventoryItem.t :=
  filter isLowStock items.

Definition lowStockCount (items : list InventoryItem.t) : nat := List.length (lowStock items).

Definition lowStockItems (items : list InventoryItem.t) : list InventoryItem.t :=
  firstn 5 (lowStock items).

End Dashboard.

(** ** Numbers of the client

    A number of the client is an IEEE-754 double: not a number, an
    infinity, or a finite value, kept here as the rational it stands for.
    Every operation rounds its exact result to the nearest double (53 bits
    of significand, a tie going to the even one, least exponent -1074) and
    overflows to an infinity from [2^1024] on. The sign of zero is not
    kept: nothing here divides by a zero that was computed. *)

Module Number.

Inductive t :=
| NaN
| Infinity (positive : bool)
| Finite (q : Q).

(** [2^e] *)
Definition pow2 (e : Z) : Q :=
  match e with
  | Z0 => 1
  | Zpos p => inject_Z (2 ^ Zpos p)
  | Zneg p => 1 # (2 ^ p)
  end.

(** For [a > 0], the [k] with [2^k <= a < 2^(k+1)]. *)
Definition floor_log2 (a : Q) : Z :=
  let k := Z.log2 (Qnum a) - Z.log2 (Zpos (Qden a)) in
  if Qle_bool (pow2 k) a then k else k - 1.

(** The nearest integer, a tie going to the even one. *)
Definition nearest_even (a : Q) : Z :=
  let f := Qnum a / Zpos (Qden a) in
  match Qcompare (a - inject_Z f) (1 # 2) with
  | Lt => f
  | Gt => f + 1
  | Eq => if Z.even f then f else f + 1
  end.

(** For [a > 0], the nearest multiple of [2^e], where [e] leaves 53 bits
    to the significand and is at least -1074. *)
Definition nearest (a : Q) : Q :=
  let e := Z.max (floor_log2 a - 52) (-1074) in
  Qred (inject_Z (nearest_even (a / pow2 e)) * pow2 e).

(** The double an exact result is rounded to. *)
Definition round (x : Q) : t :=
  match Qnum (Qred x) with
  | Z0 => Finite 0
  | Zpos n =>
      let r := nearest (Zpos n # Qden (Qred x)) in
      if Qle_bool (pow2 1024) r then Infinity true else Finite r
  | Zneg n =>
      let r := nearest (Zpos n # Qden (Qred x)) in
      if Qle_bool (pow2 1024) r then Infinity false else Finite (- r)
  end.

(** The number an integer, or a decimal of the store or of an input
    field, is read as. *)
Definition of_Z (n : Z) : t := round (inject_Z n).

Definition of_decimal (q : Q) : t := round q.

(** [a + b] *)
Definition add (a b : t) : t :=
  match a, b with
  | NaN, _ | _, NaN => NaN
  | Infinity s, Infinity s' => if Bool.eqb s s' then Infinity s else NaN
  | Infinity s, Finite _ | Finite _, Infinity s => Infinity s
  | Finite p, Finite q => round (p + q)
  end.

(** [a * b] *)
Definition mul (a b : t) : t :=
  match a, b with
  | NaN, _ | _, NaN => NaN
  | Infinity s, Infinity s' => Infinity (Bool.eqb s s')
  | Infinity s, Finite q | Finite q, Infinity s =>
      match Qcompare q 0 with
      | Eq => NaN
      | Gt => Infinity s
      | Lt => Infinity (negb s)
      end
  | Finite p, Finite q => round (p * q)
  end.

(** [a / b] *)
Definition div (a b : t) : t :=
  match a, b with
  | NaN, _ | _, NaN => NaN
  | Infinity _, Infinity _ => NaN
  | Infinity s, Finite q =>
      match Qcompare q 0 with
      | Lt => Infinity (negb s)
      | _ => Infinity s
      end
  | Finite _, Infinity _ => Finite 0
  | Finite p, Finite q =>
      match Qcompare q 0 with
      | Eq =>
          match Qcompare p 0 with
          | Eq => NaN
          | Gt => Infinity true
          | Lt => Infinity false
          end
      | _ => round (p / q)
      end
  end.

(** [Math.min(a, b)], [Math.max(a, b)]: [NaN] when an argument is. *)
Definition min (a b : t) : t :=
  match a, b with
  | NaN, _ | _, NaN => NaN
  | Infinity false, _ | _, Infinity false => Infinity false
  | Infinity true, x | x, Infinity true => x
  | Finite p, Finite q => Finite (if Qle_bool p q then p else q)
  end.

Definition max (a b : t) : t :=
  match a, b with
  | NaN, _ | _, NaN => NaN
  | Infinity true, _ | _, Infinity true => Infinity true
  | Infinity false, x | x, Infinity false => x
  | Finite p, Finite q => Finite (if Qle_bool p q then q else p)
  end.


End Number.

(** The doubles as the Standard Library specifies them ([SpecFloat], with
    a precision of 53 bits and [emax] 1024), to compare [Number] with. *)
Module Binary64.

Definition of_spec (f : SpecFloat.spec_float) : Number.t :=
  match f with
  | SpecFloat.S754_zero _ => Number.Finite 0
  | SpecFloat.S754_infinity negative => Number.Infinity (negb negative)
  | SpecFloat.S754_nan => Number.NaN
  | SpecFloat.S754_finite negative m e =>
      Number.Finite (Qred ((if negative then -1 else 1) * inject_Z (Zpos m) * Number.pow2 e))
  end.

Definition of_Z (n : Z) : SpecFloat.spec_float :=
  SpecFloat.binary_normalize 53 1024 n 0 false.

Definition quotient (n d : Z) : SpecFloat.spec_float :=
  SpecFloat.SFdiv 53 1024 (of_Z n) (of_Z d).

Definition same (a b : Number.t) : bool :=
  match a, b with
  | Number.Finite p, Number.Finite q => Qeq_bool p q
  | Number.Infinity s, Number.Infinity s' => Bool.eqb s s'
  | Number.NaN, Number.NaN => true
  | _, _ => false
  end.

(** For the doubles [a] and [b] nearest to two fractions: the quotient
    that gives [a], and the product, sum and quotient of [a] and [b], are
    the same in both. *)
Definition agree (x y : Z * Z) : bool :=
  let a := quotient (fst x) (snd x) in
  let b := quotient (fst y) (snd y) in
  same (of_spec a) (Number.div (Number.of_Z (fst x)) (Number.of_Z (snd x)))
  && same (of_spec (SpecFloat.SFmul 53 1024 a b)) (Number.mul (of_spec a) (of_spec b))
  && same (of_spec (SpecFloat.SFadd 53 1024 a b)) (Number.add (of_spec a) (of_spec b))
  && same (of_spec (SpecFloat.SFdiv 53 1024 a b)) (Number.div (of_spec a) (of_spec b)).

(** Fractions that round and that do not, a tie, zero, and values next to
    the least and the greatest double. *)
Definition samples : list (Z * Z) :=
  [(1, 10); (3, 10); (1, 3); (250, 100); (5, 1); (-7, 3); (100, 1);
   (9007199254740993, 1); (18014398509481985, 4); (0, 1); (1, 0); (0, 0);
   (2 ^ 1024 - 2 ^ 970, 1); (2 ^ 1024 - 2 ^ 970 - 1, 1); (1, 2 ^ 1074);
   (3, 2 ^ 1075); (1, 2 ^ 1075)].

End Binary64.

(** ** Purchase-order form *)

Module PurchaseOrderModal.

Record OrderItem := {
  inventory_item_id : option uuid;
  item_name : string;
  quantity : Z;
  unit_price : option Q }.

(** [price || undefined], [price || 0]: an absent price and the price 0 are
    both falsy. *)
Definition or_undefined (price : option Q) : option Q :=
  match price with
  | Some p => if Qeq_bool p 0 then None else Some p
  | None => None
  end.

Definition or_zero (price : option Q) : Q :=
  match or_undefined price with
  | Some p => p
  | None => 0%Q
  end.

(** The order lines the form opens with for a preselected item. *)
Definition prefill (preselectedItem : InventoryItem.t) : list OrderItem :=
  [ {| inventory_item_id := Some (InventoryItem.id preselectedItem);
       item_name := InventoryItem.name preselectedItem;
       quantity := Z.max 1 (InventoryItem.min_quantity preselectedItem
                            - InventoryItem.quantity preselectedItem);
       unit_price := or_undefined (InventoryItem.unit_price preselectedItem) |} ].

Definition with_quantity (q : Z) (item : OrderItem) : OrderItem :=
  {| inventory_item_id := inventory_item_id item;
     item_name := item_name item;
     quantity := q;
     unit_price := unit_price item |}.

(** [updated[index].quantity = Math.max(1, qty)]; [None] when there is no
    line at [index] (the assignment throws). *)
Fixpoint updateItemQty (orderItems : list OrderItem) (index : nat) (qty : Z)
  : option (list OrderItem) :=
  match orderItems, index with
  | [], _ => None
  | item :: rest, O => Some (with_quantity (Z.max 1 qty) item :: rest)
  | item :: rest, S i =>
      match updateItemQty rest i qty with
      | Some rest' => Some (item :: rest')
      | None => None
      end
  end.

(** [(item.unit_price || 0) * item.quantity], a product of two doubles *)
Definition lineAmount (item : OrderItem) : Number.t :=
  Number.mul (Number.of_decimal (or_zero (unit_price item))) (Number.of_Z (quantity item)).

(** [orderItems.reduce((sum, item) => sum + (item.unit_price || 0) *
    item.quantity, 0)] *)
Definition totalAmount (orderItems : list OrderItem) : Number.t :=
  fold_left (fun sum item => Number.add sum (lineAmount item)) orderItems (Number.Finite 0).

End PurchaseOrderModal.




(** ** Reorder-email form *)

Module ReorderEmailModal.

(** [item ? Math.max(1, item.min_quantity * 2 - item.quantity) : 10] *)
Definition suggestedQty (item : option InventoryItem.t) : Z :=
  match item with
  | Some item =>
      Z.max 1 (InventoryItem.min_quantity item * 2 - InventoryItem.quantity item)
  | None => 10
  end.

(** [useState(10)] *)
Definition initialReorderQuantity : Z := 10.

(** [setReorderQuantity(parseInt(e.target.value) || 1)]; [None] is [NaN]. *)
Definition onQuantityChange (parsed : option Z) : Z :=
  match parsed with
  | Some n => if n =? 0 then 1 else n
  | None => 1
  end.

(** The two numbers of the request body sent to the text generator. *)
Record RequestBody := { currentQuantity : Z; reorderQuantity : Z }.

Definition requestBody (item : InventoryItem.t) (reorderQuantityState : Z) : RequestBody :=
  {| currentQuantity := InventoryItem.quantity item;
     reorderQuantity := reorderQuantityState |}.

End ReorderEmailModal.

(** ** Workspace context *)

Module WorkspaceContext.

Local Open Scope call_scope.

(** [fetchUserRole]: the value handed to [setCurrentUserRole]. *)
Definition fetchUserRole (currentWorkspace : option Workspace.t) (user : option uuid)
  : Call (option WorkspaceRole) :=
  match currentWorkspace, user with
  | Some w, Some u =>
      await r <- workspaceService.getUserRole (Workspace.id w) u ;;
      ret (workspaceService.RoleResult.role r)
  | _, _ => ret None
  end.

(** [const isAdmin = currentUserRole === 'admin'] *)
Definition isAdmin (currentUserRole : option WorkspaceRole) : bool :=
  match currentUserRole with
  | Some admin => true
  | _ => false
  end.

End WorkspaceContext.

(** * What the properties are stated with *)

(** [kept_in_order l' l]: [l'] is [l] with some elements dropped, the
    others in the order they have in [l]. *)
Inductive kept_in_order {A : Type} : list A -> list A -> Prop :=
| kept_none : kept_in_order [] []
| kept_take : forall x l' l, kept_in_order l' l -> kept_in_order (x :: l') (x :: l)
| kept_drop : forall x l' l, kept_in_order l' l -> kept_in_order l' (x :: l).

(** The store invariant: what the constraints of the schema keep true of
    every store the statements above produce. Identifiers of workspaces
    are ones already drawn, and every [workspace_id] names a workspace. *)
Definition store_ok (s : Store) : bool :=
  forallb (fun w => Nat.ltb (Workspace.id w) (next_uuid s)) (workspaces s)
  && forallb (fun m => has_workspace s (WorkspaceMember.workspace_id m)) (workspace_members s)
  && forallb (fun i => has_workspace s (WorkspaceInvitation.workspace_id i))
             (workspace_invitations s)
  && forallb (fun x => has_workspace s (Supplier.workspace_id x)) (suppliers s)
  && forallb (fun i => has_workspace s (InventoryItem.workspace_id i)) (inventory_items s)
  && forallb (fun o => has_workspace s (PurchaseOrder.workspace_id o)) (purchase_orders s).

(** Everything but the identifier counter. *)
Definition same_rows (s s' : Store) : Prop :=
  with_next_uuid (next_uuid s) s' = s.

(** The workspace row and the store after an accepted workspace insert. *)
Definition new_workspace (s : Store) (name : string) (userId : uuid) : Workspace.t :=
  {| Workspace.id := next_uuid s;
     Workspace.name := name;
     Workspace.created_by := Some userId;
     Workspace.created_at := now s;
     Workspace.updated_at := now s |}.

Definition admin_membership (s : Store) (userId : uuid) : WorkspaceMember.t :=
  {| WorkspaceMember.id := S (next_uuid s);
     WorkspaceMember.workspace_id := next_uuid s;
     WorkspaceMember.user_id := userId;
     WorkspaceMember.role := admin;
     WorkspaceMember.joined_at := now s |}.

Definition after_workspace_insert (s : Store) (name : string) (userId : uuid) : Store :=
  with_next_uuid (S (next_uuid s))
    (with_workspaces (workspaces s ++ [new_workspace s name userId]) s).

(** A small store to run the services on: one workspace (10) with its
    admin (user 1), a pending invitation (12) for a second user that
    expired at 700 (the clock reads 1000), one supplier (13) and one
    inventory item (14) bought from it. *)

Module Acme.

Definition workspace_row : Workspace.t :=
  {| Workspace.id := 10; Workspace.name := "Acme";
     Workspace.created_by := Some 1%nat;
     Workspace.created_at := 0; Workspace.updated_at := 0 |}.

Definition admin_row : WorkspaceMember.t :=
  {| WorkspaceMember.id := 11; WorkspaceMember.workspace_id := 10;
     WorkspaceMember.user_id := 1; WorkspaceMember.role := admin;
     WorkspaceMember.joined_at := 0 |}.

Definition invitation_row : WorkspaceInvitation.t :=
  {| WorkspaceInvitation.id := 12; WorkspaceInvitation.workspace_id := 10;
     WorkspaceInvitation.email := "bo@example.com";
     WorkspaceInvitation.role := member;
     WorkspaceInvitation.invited_by := Some 1%nat;
     WorkspaceInvitation.created_at := 95;
     WorkspaceInvitation.expires_at := 700 |}.

Definition supplier_row : Supplier.t :=
  {| Supplier.id := 13; Supplier.workspace_id := 10;
     Supplier.company_name := "Bolts Ltd";
     Supplier.email := None; Supplier.phone := None;
     Supplier.website := None; Supplier.address := None;
     Supplier.created_at := 50; Supplier.updated_at := 50 |}.

Definition widget : InventoryItem.t :=
  {| InventoryItem.id := 14; InventoryItem.workspace_id := 10;
     InventoryItem.supplier_id := Some 13%nat;
     InventoryItem.name := "Widget"; InventoryItem.sku := None;
     InventoryItem.description := None;
     InventoryItem.quantity := 2; InventoryItem.min_quantity := 5;
     InventoryItem.unit_price := Some (250 # 100);
     InventoryItem.created_at := 60; InventoryItem.updated_at := 100 |}.

Definition store : Store :=
  {| auth_users := [1; 2]%nat;
     workspaces := [workspace_row];
     workspace_members := [admin_row];
     workspace_invitations := [invitation_row];
     suppliers := [supplier_row];
     inventory_items := [widget];
     purchase_orders := [];
     purchase_order_items := [];
     now := 1000;
     next_uuid := 20 |}.

Definition backend (script : list (option Err)) : Backend :=
  {| db := store; faults := script |}.

Definition denied : Err := PostgrestError insufficient_privilege.

Definition five_widgets : purchaseOrderService.ReorderItem :=
  {| purchaseOrderService.reorder_inventory_item_id := Some 14%nat;
     purchaseOrderService.reorder_item_name := "Widget";
     purchaseOrderService.reorder_quantity := 5;
     purchaseOrderService.reorder_unit_price := Some (250 # 100) |}.

Definition too_many_nuts : purchaseOrderService.ReorderItem :=
  {| purchaseOrderService.reorder_inventory_item_id := None;
     purchaseOrderService.reorder_item_name := "Nut";
     purchaseOrderService.reorder_quantity := 3000000000;
     purchaseOrderService.reorder_unit_price := None |}.

Definition draft_order : PurchaseOrder.t :=
  {| PurchaseOrder.id := 20; PurchaseOrder.workspace_id := 10;
     PurchaseOrder.supplier_id := 13; PurchaseOrder.status := draft;
     PurchaseOrder.notes := None; PurchaseOrder.order_date := None;
     PurchaseOrder.expected_date := None;
     PurchaseOrder.created_by := Some 1%nat;
     PurchaseOrder.created_at := 1000; PurchaseOrder.updated_at := 1000 |}.


(** The store once the supplier has an order. *)
Definition reordered (script : list (option Err)) : Backend :=
  {| db := db (snd (purchaseOrderService.createReorderPurchaseOrder 10 13 [five_widgets]
                      (Some 1%nat) (backend [])));
     faults := script |}.

End Acme.

(** The specification's sentence: a call with an empty name fails with a
    validation error and creates no workspace row. *)
Definition empty_name_refused (b : Backend) (userId : uuid) : Prop :=
  let run := workspaceService.createWorkspace "" userId b in
  option_map category (workspaceService.WorkspaceResult.error (fst run))
  = Some (Some ValidationError)
  /\ workspaces (db (snd run)) = workspaces (db b).

(** The membership row [acceptInvitation] asks the store to add. *)
Definition invited_membership (s : Store) (invitation : WorkspaceInvitation.t) (userId : uuid)
  : WorkspaceMember.t :=
  {| WorkspaceMember.id := next_uuid s;
     WorkspaceMember.workspace_id := WorkspaceInvitation.workspace_id invitation;
     WorkspaceMember.user_id := userId;
     WorkspaceMember.role := WorkspaceInvitation.role invitation;
     WorkspaceMember.joined_at := now s |}.

Definition after_member_insert (s : Store) (row : WorkspaceMember.t) : Store :=
  with_next_uuid (S (next_uuid s))
    (with_workspace_members (workspace_members s ++ [row]) s).

Definition without_invitation (invitationId : uuid) (s : Store) : Store :=
  with_workspace_invitations
    (filter (fun i => negb (Nat.eqb (WorkspaceInvitation.id i) invitationId))
            (workspace_invitations s)) s.

(** The specification's sentence on expiry: accepting an invitation whose
    [expires_at] is earlier than the current time fails with an expiry
    error and inserts no membership row. *)
Definition expired_invitation_refused (b : Backend) (invitationId userId : uuid) : Prop :=
  forall invitation,
    In invitation (workspace_invitations (db b)) ->
    WorkspaceInvitation.id invitation = invitationId ->
    WorkspaceInvitation.expires_at invitation < now (db b) ->
    option_map category
      (workspaceService.ErrorResult.error
         (fst (workspaceService.acceptInvitation invitationId userId b)))
    = Some (Some ExpiredError)
    /\ workspace_members (db (snd (workspaceService.acceptInvitation invitationId userId b)))
       = workspace_members (db b).

(** An inventory item with its [supplier_id] replaced and nothing else. *)
Definition with_supplier_id (v : option uuid) (i : InventoryItem.t) : InventoryItem.t :=
  {| InventoryItem.id := InventoryItem.id i;
     InventoryItem.workspace_id := InventoryItem.workspace_id i;
     InventoryItem.supplier_id := v;
     InventoryItem.name := InventoryItem.name i;
     InventoryItem.sku := InventoryItem.sku i;
     InventoryItem.description := InventoryItem.description i;
     InventoryItem.quantity := InventoryItem.quantity i;
     InventoryItem.min_quantity := InventoryItem.min_quantity i;
     InventoryItem.unit_price := InventoryItem.unit_price i;
     InventoryItem.created_at := InventoryItem.created_at i;
     InventoryItem.updated_at := InventoryItem.updated_at i |}.

(** The specification's sentence on detaching: after the supplier an item
    refers to is deleted, the item is there with [supplier_id] null and
    every other field as it was. *)
Definition detached_otherwise_unchanged (b : Backend) (supplierId : uuid) : Prop :=
  forall item,
    In item (inventory_items (db b)) ->
    InventoryItem.supplier_id item = Some supplierId ->
    In (with_supplier_id None item)
       (inventory_items (db (snd (supplierService.deleteSupplier supplierId b)))).

(** [row] is the order line stored for [item] in order [o]: the item's
    fields, the price as the column rounds it. *)
Definition line_of (o : PurchaseOrder.t) (item : purchaseOrderService.ReorderItem)
           (row : PurchaseOrderItem.t) : Prop :=
  PurchaseOrderItem.purchase_order_id row = PurchaseOrder.id o
  /\ PurchaseOrderItem.inventory_item_id row
     = purchaseOrderService.reorder_inventory_item_id item
  /\ PurchaseOrderItem.item_name row = purchaseOrderService.reorder_item_name item
  /\ PurchaseOrderItem.quantity row = purchaseOrderService.reorder_quantity item
  /\ decimal_10_2_opt (purchaseOrderService.reorder_unit_price item)
     = inr (PurchaseOrderItem.unit_price row).

(** Whether the store accepts the order row: the workspace, the supplier
    and the user it names exist. *)
Definition order_accepted (s : Store) (workspaceId supplierId : uuid)
           (userId : option uuid) : bool :=
  has_workspace s workspaceId && has_supplier s supplierId && references_auth_user s userId.

(** Whether the store accepts a line for [item]: quantity and price fit
    their columns and the inventory item it names, if any, exists. *)
Definition line_fits (s : Store) (item : purchaseOrderService.ReorderItem) : bool :=
  int4 (purchaseOrderService.reorder_quantity item)
  && match decimal_10_2_opt (purchaseOrderService.reorder_unit_price item) with
     | inr _ => true
     | inl _ => false
     end
  && match purchaseOrderService.reorder_inventory_item_id item with
     | Some iid => has_inventory_item s iid
     | None => true
     end.

(** How many leading elements of [items] get their line when the inserts
    are sent one after the other under [script]: the first insert that is
    made to fail, or that the store refuses, is the last one sent. *)
Fixpoint lines_added (s : Store) (script : list (option Err))
         (items : list purchaseOrderService.ReorderItem) : nat :=
  match items with
  | [] => 0
  | item :: rest =>
      match hd None script with
      | Some _ => 0
      | None => if line_fits s item then S (lines_added s (tl script) rest) else 0
      end
  end.

(** * Further operations of the services *)

(** ** workspaceService: members, invitations, workspaces *)

(** [expires_at ... DEFAULT (now() + interval '7 days')]; timestamps count
    seconds. *)
Definition seven_days : Z := 7 * 24 * 60 * 60.

(** The invitations of an address to a workspace
    ([UNIQUE (workspace_id, email)]). *)
Definition invitations_for (s : Store) (wid : uuid) (email : string)
  : list WorkspaceInvitation.t :=
  filter (fun i => Nat.eqb (WorkspaceInvitation.workspace_id i) wid
                   && String.eqb (WorkspaceInvitation.email i) email)
         (workspace_invitations s).

(** [INSERT INTO workspace_invitations (workspace_id, email, role,
    invited_by) ... RETURNING *] *)
Definition insert_invitation (workspace_id : uuid) (email : string)
           (role : WorkspaceRole) (invited_by : option uuid)
  : Store -> Err + (WorkspaceInvitation.t * Store) :=
  fun s =>
    match invitations_for s workspace_id email with
    | _ :: _ => inl (PostgrestError unique_violation)
    | [] =>
        if has_workspace s workspace_id && references_auth_user s invited_by then
          let row := {| WorkspaceInvitation.id := next_uuid s;
                        WorkspaceInvitation.workspace_id := workspace_id;
                        WorkspaceInvitation.email := email;
                        WorkspaceInvitation.role := role;
                        WorkspaceInvitation.invited_by := invited_by;
                        WorkspaceInvitation.created_at := now s;
                        WorkspaceInvitation.expires_at := now s + seven_days |} in
          inr (row, with_next_uuid (S (next_uuid s))
                      (with_workspace_invitations (workspace_invitations s ++ [row]) s))
        else inl (PostgrestError foreign_key_violation)
    end.

Definition with_role (r : WorkspaceRole) (m : WorkspaceMember.t) : WorkspaceMember.t :=
  {| WorkspaceMember.id := WorkspaceMember.id m;
     WorkspaceMember.workspace_id := WorkspaceMember.workspace_id m;
     WorkspaceMember.user_id := WorkspaceMember.user_id m;
     WorkspaceMember.role := r;
     WorkspaceMember.joined_at := WorkspaceMember.joined_at m |}.

Definition is_membership (wid uid : uuid) (m : WorkspaceMember.t) : bool :=
  Nat.eqb (WorkspaceMember.workspace_id m) wid && Nat.eqb (WorkspaceMember.user_id m) uid.

(** [UPDATE workspace_members SET role = .. WHERE workspace_id = .. AND
    user_id = .. RETURNING *] with [.single()]: when the statement does not
    return exactly one row, the answer is error PGRST116 and the update is
    not kept. *)
Definition update_member_role (wid uid : uuid) (r : WorkspaceRole)
  : Store -> Err + (WorkspaceMember.t * Store) :=
  fun s =>
    match memberships s wid uid with
    | [m] =>
        inr (with_role r m,
             with_workspace_members
               (map (fun x => if is_membership wid uid x then with_role r x else x)
                    (workspace_members s)) s)
    | _ => inl (PostgrestError PGRST116)
    end.

(** [DELETE FROM workspace_members WHERE workspace_id = .. AND user_id = ..] *)
Definition delete_member (wid uid : uuid) : Store -> Err + (unit * Store) :=
  fun s =>
    inr (tt,
         with_workspace_members
           (filter (fun m => negb (is_membership wid uid m)) (workspace_members s)) s).

(** [SELECT * FROM workspaces WHERE id = ..] with [.single()] *)
Definition select_workspace (workspaceId : uuid) : Store -> Err + (Workspace.t * Store) :=
  fun s =>
    match single (filter (fun w => Nat.eqb (Workspace.id w) workspaceId) (workspaces s)) with
    | inl e => inl e
    | inr w => inr (w, s)
    end.

(** The functions of [workspaceService] that read a workspace back, delete
    it, and manage its members and invitations. *)
Module workspaceAdmin.

(** [{ member, error }], [{ invitation, error }] *)
Module MemberResult.
Record t := { member : option WorkspaceMember.t; error : option Err }.
End MemberResult.

Module InvitationResult.
Record t := { invitation : option WorkspaceInvitation.t; error : option Err }.
End InvitationResult.

Local Open Scope call_scope.

Definition getWorkspace (workspaceId : uuid) : Call workspaceService.WorkspaceResult.t :=
  await r <- request (select_workspace workspaceId) ;;
  ret {| workspaceService.WorkspaceResult.workspace := Response.data r;
         workspaceService.WorkspaceResult.error := Response.error r |}.

Definition deleteWorkspace (workspaceId : uuid) : Call workspaceService.ErrorResult.t :=
  await r <- request (delete_workspace workspaceId) ;;
  ret {| workspaceService.ErrorResult.error := Response.error r |}.

Definition updateMemberRole (workspaceId userId : uuid) (role : WorkspaceRole)
  : Call MemberResult.t :=
  await r <- request (update_member_role workspaceId userId role) ;;
  ret {| MemberResult.member := Response.data r; MemberResult.error := Response.error r |}.

Definition removeMember (workspaceId userId : uuid) : Call workspaceService.ErrorResult.t :=
  await r <- request (delete_member workspaceId userId) ;;
  ret {| workspaceService.ErrorResult.error := Response.error r |}.

Definition createInvitation (workspaceId : uuid) (email : string) (role : WorkspaceRole)
           (invitedBy : uuid) : Call InvitationResult.t :=
  await r <- request (insert_invitation workspaceId email role (Some invitedBy)) ;;
  ret {| InvitationResult.invitation := Response.data r;
         InvitationResult.error := Response.error r |}.

Definition deleteInvitation (invitationId : uuid) : Call workspaceService.ErrorResult.t :=
  await r <- request (delete_invitation invitationId) ;;
  ret {| workspaceService.ErrorResult.error := Response.error r |}.

End workspaceAdmin.

(** A purchase order of another workspace that refers to a supplier of
    workspace [wid]: the schema does not tie an order's supplier to the
    order's workspace. *)
Definition foreign_order_of_supplier (s : Store) (wid : uuid) (o : PurchaseOrder.t) : bool :=
  negb (Nat.eqb (PurchaseOrder.workspace_id o) wid)
  && existsb (fun x => Nat.eqb (Supplier.id x) (PurchaseOrder.supplier_id o)
                       && Nat.eqb (Supplier.workspace_id x) wid)
             (suppliers s).

(** At most one membership row per workspace and user
    ([UNIQUE (workspace_id, user_id)]). *)
Definition members_unique (s : Store) : Prop :=
  forall wid uid, (List.length (memberships s wid uid) <= 1)%nat.

(** Identifiers of invitations are ones already drawn. *)
Definition invitation_ids_drawn (s : Store) : bool :=
  forallb (fun i => Nat.ltb (WorkspaceInvitation.id i) (next_uuid s)) (workspace_invitations s).

(** ** purchaseOrderService, inventoryService and supplierService: the
    other writes *)

(** [DELETE FROM purchase_orders WHERE id = ..]:
    [purchase_order_items.purchase_order_id ... ON DELETE CASCADE]. *)
Definition delete_purchase_order (orderId : uuid) : Store -> Err + (unit * Store) :=
  fun s =>
    if has_purchase_order s orderId then
      inr (tt,
           with_purchase_order_items
             (filter (fun li => negb (Nat.eqb (PurchaseOrderItem.purchase_order_id li) orderId))
                     (purchase_order_items s))
             (with_purchase_orders
                (filter (fun o => negb (Nat.eqb (PurchaseOrder.id o) orderId))
                        (purchase_orders s)) s))
    else inr (tt, s).

(** [DELETE FROM purchase_order_items WHERE id = ..] *)
Definition delete_purchase_order_item (itemId : uuid) : Store -> Err + (unit * Store) :=
  fun s =>
    inr (tt,
         with_purchase_order_items
           (filter (fun li => negb (Nat.eqb (PurchaseOrderItem.id li) itemId))
                   (purchase_order_items s)) s).

(** [DELETE FROM inventory_items WHERE id = ..]:
    [purchase_order_items.inventory_item_id ... ON DELETE SET NULL]. *)
Definition delete_inventory_item (itemId : uuid) : Store -> Err + (unit * Store) :=
  fun s =>
    if has_inventory_item s itemId then
      inr (tt,
           with_purchase_order_items
             (map (on_inventory_item_delete (Nat.eqb itemId)) (purchase_order_items s))
             (with_inventory_items
                (filter (fun i => negb (Nat.eqb (InventoryItem.id i) itemId))
                        (inventory_items s)) s))
    else inr (tt, s).

(** [SELECT * FROM suppliers WHERE id = ..] with [.single()] *)
Definition select_supplier (supplierId : uuid) : Store -> Err + (Supplier.t * Store) :=
  fun s =>
    match single (filter (fun x => Nat.eqb (Supplier.id x) supplierId) (suppliers s)) with
    | inl e => inl e
    | inr x => inr (x, s)
    end.

(** [createSupplier] and [getSupplier] of [supplierService]. *)
Module supplierWrites.

Record CreateSupplierData := {
  workspace_id : uuid;
  company_name : string;
  email : option string;
  phone : option string;
  website : option string;
  address : option string }.

(** [INSERT INTO suppliers (...) ... RETURNING *] *)
Definition insert_supplier (supplierData : CreateSupplierData)
  : Store -> Err + (Supplier.t * Store) :=
  fun s =>
    if has_workspace s (workspace_id supplierData) then
      let row := {| Supplier.id := next_uuid s;
                    Supplier.workspace_id := workspace_id supplierData;
                    Supplier.company_name := company_name supplierData;
                    Supplier.email := email supplierData;
                    Supplier.phone := phone supplierData;
                    Supplier.website := website supplierData;
                    Supplier.address := address supplierData;
                    Supplier.created_at := now s;
                    Supplier.updated_at := now s |} in
      inr (row, with_next_uuid (S (next_uuid s))
                  (with_suppliers (suppliers s ++ [row]) s))
    else inl (PostgrestError foreign_key_violation).

Local Open Scope call_scope.

Definition createSupplier (supplierData : CreateSupplierData)
  : Call (Promise (option Supplier.t)) :=
  await r <- request (insert_supplier supplierData) ;;
  ret (purchaseOrderService.throw_or_data r).

Definition getSupplier (supplierId : uuid) : Call (Promise (option Supplier.t)) :=
  await r <- request (select_supplier supplierId) ;;
  ret (purchaseOrderService.throw_or_data r).

End supplierWrites.

(** The deletes of [purchaseOrderService] and [inventoryService]. *)
Module orderWrites.

Local Open Scope call_scope.

(** [if (error) throw error;] *)
Definition throw_or_done {A} (r : Response.t A) : Promise unit :=
  match Response.error r with
  | Some e => Rejected e
  | None => Resolved tt
  end.

Definition deletePurchaseOrder (orderId : uuid) : Call (Promise unit) :=
  await r <- request (delete_purchase_order orderId) ;;
  ret (throw_or_done r).

Definition removePurchaseOrderItem (itemId : uuid) : Call (Promise unit) :=
  await r <- request (delete_purchase_order_item itemId) ;;
  ret (throw_or_done r).

Definition deleteInventoryItem (itemId : uuid) : Call (Promise unit) :=
  await r <- request (delete_inventory_item itemId) ;;
  ret (throw_or_done r).

End orderWrites.

(** Identifiers of suppliers and purchase orders are ones already drawn,
    and every order line refers to a drawn order identifier. *)
Definition procurement_ids_drawn (s : Store) : bool :=
  forallb (fun x => Nat.ltb (Supplier.id x) (next_uuid s)) (suppliers s)
  && forallb (fun o => Nat.ltb (PurchaseOrder.id o) (next_uuid s)) (purchase_orders s)
  && forallb (fun li => Nat.ltb (PurchaseOrderItem.purchase_order_id li) (next_uuid s))
             (purchase_order_items s).

(** A store without its purchase orders, order lines and counter. *)
Definition outside_procurement (s : Store) : Store :=
  with_next_uuid 0 (with_purchase_order_items [] (with_purchase_orders [] s)).

(** Identifiers of order lines are ones already drawn. *)
Definition line_ids_drawn (s : Store) : bool :=
  forallb (fun li => Nat.ltb (PurchaseOrderItem.id li) (next_uuid s)) (purchase_order_items s).

(** An order line apart from its reference to an inventory item. *)
Definition line_apart_from_item (li : PurchaseOrderItem.t)
  : uuid * uuid * string * Z * option Q * timestamp :=
  (PurchaseOrderItem.id li, PurchaseOrderItem.purchase_order_id li,
   PurchaseOrderItem.item_name li, PurchaseOrderItem.quantity li,
   PurchaseOrderItem.unit_price li, PurchaseOrderItem.created_at li).

Definition refers_to_item (itemId : uuid) (li : PurchaseOrderItem.t) : bool :=
  match PurchaseOrderItem.inventory_item_id li with
  | Some iid => Nat.eqb iid itemId
  | None => false
  end.

(** ** Pages and forms: what the claims' functions sit next to *)

Module Team.

(** The role the menu entry of a member passes to [handleRoleChange]:
    [member.role === 'admin' ? 'member' : 'admin']. *)
Definition menuRole (m : WorkspaceMember.t) : WorkspaceRole :=
  if WorkspaceRole_eqb (WorkspaceMember.role m) admin then member else admin.

End Team.

(** The other handlers of the order lines in [PurchaseOrderModal]. *)
Module OrderLines.

Import PurchaseOrderModal.

(** [array.filter((x, i) => keep(x, i))], the index counted from [i]. *)
Fixpoint filter_index {A} (keep : A -> nat -> bool) (i : nat) (l : list A) : list A :=
  match l with
  | [] => []
  | x :: rest =>
      if keep x i then x :: filter_index keep (S i) rest
      else filter_index keep (S i) rest
  end.

(** [orderItems.filter((_, i) => i !== index)] *)
Definition removeItem (orderItems : list OrderItem) (index : nat) : list OrderItem :=
  filter_index (fun _ i => negb (Nat.eqb i index)) 0 orderItems.

(** [parseInt(e.target.value) || 1]: [None] is [NaN]. *)
Definition enteredQty (parsed : option Z) : Z :=
  match parsed with
  | Some n => if n =? 0 then 1 else n
  | None => 1
  end.

Section AddItem.

(** [String.prototype.trim]. *)
Variable trim : string -> string.

(** [if (!newItemName.trim()) return;
     setOrderItems([...orderItems, { item_name, quantity, unit_price }])] *)
Definition addItem (orderItems : list OrderItem) (newItemName : string) (newItemQty : Z)
           (newItemPrice : option Q) : list OrderItem :=
  if String.eqb (trim newItemName) EmptyString then orderItems
  else orderItems ++ [ {| inventory_item_id := None;
                          item_name := newItemName;
                          quantity := newItemQty;
                          unit_price := newItemPrice |} ].

End AddItem.

End OrderLines.

(** Every line of the form asks for at least one unit. *)
Definition quantities_at_least_one (orderItems : list PurchaseOrderModal.OrderItem) : Prop :=
  Forall (fun item => 1 <= PurchaseOrderModal.quantity item) orderItems.

Module DashboardCards.

(** [Math.max(0, Math.min(100, (item.quantity / item.min_quantity) * 100))] *)
Definition stockPercentage (item : InventoryItem.t) : Number.t :=
  Number.max (Number.Finite 0)
    (Number.min (Number.Finite 100)
       (Number.mul (Number.div (Number.of_Z (InventoryItem.quantity item))
                               (Number.of_Z (InventoryItem.min_quantity item)))
                   (Number.Finite 100))).

(** [lowStockItems.length === 0]: the card reads "All stocked up!". *)
Definition allStockedUp (items : list InventoryItem.t) : bool :=
  Nat.eqb (List.length (Dashboard.lowStockItems items)) 0.

(** [urgent: (stats?.lowStockCount ?? 0) > 0], once the items are loaded. *)
Definition urgent (items : list InventoryItem.t) : bool :=
  Nat.ltb 0 (Dashboard.lowStockCount items).

End DashboardCards.

(** The list of the inventory page. *)
Module Inventory.

Section Search.

(** [item.name.toLowerCase().includes(searchQuery.toLowerCase()) || ...]:
    whether the item matches the text searched for. *)
Variable matchesSearch : InventoryItem.t -> bool.

Definition filteredItems (showLowStock : bool) (items : list InventoryItem.t)
  : list InventoryItem.t :=
  filter (fun item =>
            let matchesLowStock := if showLowStock then isLowStock item else true in
            matchesSearch item && matchesLowStock)
         items.

End Search.

(** [items.filter((item) => item.quantity <= item.min_quantity).length] *)
Definition lowStockCount (items : list InventoryItem.t) : nat :=
  List.length (filter isLowStock items).

End Inventory.

(** [WorkspaceProvider]: which workspace is the current one after
    [refreshWorkspaces]. *)
Module WorkspaceProvider.

Record State := {
  workspaces : list Workspace.t;
  currentWorkspace : option Workspace.t }.

(** [fetchedWorkspaces] is what [getUserWorkspaces] answered ([None] for
    null), [savedWorkspaceId] what [localStorage.getItem] gave. *)
Definition refreshWorkspaces (user : option uuid)
           (fetchedWorkspaces : option (list Workspace.t))
           (savedWorkspaceId : option uuid) : State :=
  match user with
  | None => {| workspaces := []; currentWorkspace := None |}
  | Some _ =>
      match fetchedWorkspaces with
      | Some (first :: rest) =>
          let savedWorkspace :=
            find (fun w => match savedWorkspaceId with
                           | Some id => Nat.eqb (Workspace.id w) id
                           | None => false
                           end) (first :: rest) in
          {| workspaces := first :: rest;
             currentWorkspace := match savedWorkspace with
                                 | Some w => Some w
                                 | None => Some first
                                 end |}
      | _ => {| workspaces := []; currentWorkspace := None |}
      end
  end.

End WorkspaceProvider.

(** ** The edge function [generate-reorder-email] *)

Module generateReorderEmail.

(** A value as [JSON.parse] gives it; the members of an object are in the
    order of the text, and a name may occur more than once. *)
#[warnings="-register-all"] Inductive Json :=
| JNull
| JBool (b : bool)
| JNumber (n : Number.t)
| JString (s : string)
| JArray (elements : list Json)
| JObject (members : list (string * Json)).

(** What the handler meets: the request, the configured key, and what the
    text generator's gateway does when asked. [json] is what [req.json()]
    resolves with, [None] when it rejects (no body, or not JSON). *)
Record Request := {
  method : string;
  json : option Json }.

(** [fetch] rejects, or answers with a status and a body; [None] when
    [response.json()] rejects. *)
Inductive Gateway :=
| Rejects
| Answers (status : Z) (data : option Json).

(** The body of the response: nothing, [{ email }] or [{ error }]; the
    text of an error that was caught is not modelled. *)
Inductive Body :=
| NoBody
| Email (content : Json)
| RateLimitExceeded
| CreditsExhausted
| Caught.

Record Response := {
  status : Z;
  body : Body;
  fetched : bool }.

(** [response.ok] *)
Definition ok (status : Z) : bool := (200 <=? status) && (status <=? 299).

(** [!value] of a string that may be undefined *)
Definition falsy (value : option string) : bool :=
  match value with
  | Some text => String.eqb text EmptyString
  | None => true
  end.

(** The property [key] of a parsed object: of two members with one name the
    later one counts. [None] is undefined. *)
Fixpoint get (key : string) (members : list (string * Json)) : option Json :=
  match members with
  | [] => None
  | (name, value) :: rest =>
      match get key rest with
      | Some later => Some later
      | None => if String.eqb name key then Some value else None
      end
  end.

(** [value.key] for a value other than [null], and a [key] that no
    prototype has: undefined unless the value is an object with that
    member. *)
Definition member (key : string) (value : Json) : option Json :=
  match value with
  | JObject members => get key members
  | _ => None
  end.

(** A value in a condition; [None] is undefined. *)
Definition truthy (value : option Json) : bool :=
  match value with
  | None => false
  | Some JNull => false
  | Some (JBool b) => b
  | Some (JNumber Number.NaN) => false
  | Some (JNumber (Number.Infinity _)) => true
  | Some (JNumber (Number.Finite q)) => negb (Qeq_bool q 0)
  | Some (JString s) => negb (String.eqb s EmptyString)
  | Some (JArray _) => true
  | Some (JObject _) => true
  end.

Definition is_number (value : Json) : bool :=
  match value with
  | JNumber _ => true
  | _ => false
  end.

(** Converting a parsed value to a string or to a number throws for an
    object with a member named [toString] (the member is not a function,
    and [valueOf] returns the object), and for an array one of whose
    elements it throws for ([join] converts each element but [null]). *)
Fixpoint conversion_throws (value : Json) : bool :=
  match value with
  | JArray elements => existsb conversion_throws elements
  | JObject members => existsb (fun m => String.eqb (fst m) "toString") members
  | _ => false
  end.

(** What the destructuring binds. *)
Record ReorderEmailRequest := {
  itemName : option Json;
  currentQuantity : option Json;
  reorderQuantity : option Json;
  supplierName : option Json;
  supplierEmail : option Json;
  sku : option Json;
  unitPrice : option Json;
  companyName : option Json;
  senderName : option Json }.

(** [name = "..."] in the pattern: the default stands in for undefined,
    not for [null]. *)
Definition or_default (value : option Json) (default : string) : option Json :=
  match value with
  | Some v => Some v
  | None => Some (JString default)
  end.

(** [const { itemName, ..., senderName = "Procurement Team" } = body];
    [None] when it throws, which it does for [null]. *)
Definition destructure (body : Json) : option ReorderEmailRequest :=
  match body with
  | JNull => None
  | _ =>
      Some {| itemName := member "itemName" body;
              currentQuantity := member "currentQuantity" body;
              reorderQuantity := member "reorderQuantity" body;
              supplierName := member "supplierName" body;
              supplierEmail := member "supplierEmail" body;
              sku := member "sku" body;
              unitPrice := member "unitPrice" body;
              companyName := or_default (member "companyName" body) "Our Company";
              senderName := or_default (member "senderName" body) "Procurement Team" |}
  end.

(** [`${value}`] throws *)
Definition interpolation_throws (value : option Json) : bool :=
  match value with
  | Some v => conversion_throws v
  | None => false
  end.

(** Building [userPrompt] throws: an interpolated value cannot be
    converted, or [unitPrice] is truthy and has no [toFixed], which only
    numbers have. The text itself is not modelled. *)
Definition userPrompt_throws (r : ReorderEmailRequest) : bool :=
  interpolation_throws (itemName r)
  || (truthy (sku r) && interpolation_throws (sku r))
  || interpolation_throws (currentQuantity r)
  || interpolation_throws (reorderQuantity r)
  || (truthy (unitPrice r)
      && match unitPrice r with
         | Some price => negb (is_number price) || interpolation_throws (reorderQuantity r)
         | None => false
         end)
  || interpolation_throws (supplierName r)
  || (truthy (supplierEmail r) && interpolation_throws (supplierEmail r))
  || interpolation_throws (senderName r)
  || interpolation_throws (companyName r).

(** [value?.key] and [value?.[0]]: undefined for undefined and [null]. *)
Definition optional (value : option Json) (access : Json -> option Json) : option Json :=
  match value with
  | None => None
  | Some JNull => None
  | Some v => access v
  end.

(** [value[0]]: the first element of an array, the member ["0"] of an
    object, the first character of a string. *)
Definition first (value : Json) : option Json :=
  match value with
  | JArray (element :: _) => Some element
  | JObject members => get "0" members
  | JString (String c _) => Some (JString (String c EmptyString))
  | _ => None
  end.

(** [data.choices?.[0]?.message?.content]; the outer [None] when it
    throws, which it does for [null]. *)
Definition emailContent (data : Json) : option (option Json) :=
  match data with
  | JNull => None
  | _ => Some (optional (optional (optional (member "choices" data) first)
                                  (member "message"))
                        (member "content"))
  end.

Definition caught (fetched : bool) : Response :=
  {| status := 500; body := Caught; fetched := fetched |}.

(** From [if (!response.ok)] on. *)
Definition relay (gatewayStatus : Z) (data : option Json) : Response :=
  if negb (ok gatewayStatus) then
    if gatewayStatus =? 429 then
      {| status := 429; body := RateLimitExceeded; fetched := true |}
    else if gatewayStatus =? 402 then
      {| status := 402; body := CreditsExhausted; fetched := true |}
    else caught true
  else
    match data with
    | None => caught true
    | Some parsed =>
        match emailContent parsed with
        | None => caught true
        | Some content =>
            if truthy content then
              match content with
              | Some value => {| status := 200; body := Email value; fetched := true |}
              | None => caught true
              end
            else caught true
        end
    end.

Definition serve (LOVABLE_API_KEY : option string) (req : Request) (gateway : Gateway)
  : Response :=
  if String.eqb (method req) "OPTIONS" then
    {| status := 200; body := NoBody; fetched := false |}
  else if falsy LOVABLE_API_KEY then caught false
  else
    match json req with
    | None => caught false
    | Some body =>
        match destructure body with
        | None => caught false
        | Some request =>
            if userPrompt_throws request then caught false
            else
              match gateway with
              | Rejects => caught true
              | Answers gatewayStatus data => relay gatewayStatus data
              end
        end
    end.

End generateReorderEmail.

(** * Properties *)

(** ** Requests *)

Lemma request_faulted {A} (stmt : Store -> Err + (A * Store)) (b : Backend)
      (e : Err) (rest : list (option Err)) :
  faults b = Some e :: rest ->
  request stmt b = (failure e, {| db := db b; faults := rest |}).
Proof. intros H. unfold request. rewrite H. reflexivity. Qed.

Lemma request_run {A} (stmt : Store -> Err + (A * Store)) (b : Backend) :
  hd None (faults b) = None ->
  request stmt b
  = match stmt (db b) with
    | inl e => (failure e, {| db := db b; faults := tl (faults b) |})
    | inr (a, s) => (success a, {| db := s; faults := tl (faults b) |})
    end.
Proof.
  intros H. unfold request.
  destruct (faults b) as [|[e|] rest]; simpl in *; try discriminate; reflexivity.
Qed.

(** Either way a request answers with an error and no data, or with data
    and no error. *)
Lemma request_cases {A} (stmt : Store -> Err + (A * Store)) (b : Backend) :
  (exists e, request stmt b = (failure e, {| db := db b; faults := tl (faults b) |}))
  \/ (exists a s,
         stmt (db b) = inr (a, s)
         /\ hd None (faults b) = None
         /\ request stmt b = (success a, {| db := s; faults := tl (faults b) |})).
Proof.
  unfold request.
  destruct (faults b) as [|[e|] rest]; simpl.
  - destruct (stmt (db b)) as [e|[a s]]; [left|right]; eauto.
  - left; eauto.
  - destruct (stmt (db b)) as [e|[a s]]; [left|right]; eauto.
Qed.

Lemma request_error {A} (stmt : Store -> Err + (A * Store)) (b : Backend) (e : Err) :
  Response.error (fst (request stmt b)) = Some e ->
  request stmt b = (failure e, {| db := db b; faults := tl (faults b) |}).
Proof.
  destruct (request_cases stmt b) as [[e' H]|[a [s [_ [_ H]]]]]; rewrite H; cbn.
  - intros E. inversion E. reflexivity.
  - discriminate.
Qed.

Lemma request_data {A} (stmt : Store -> Err + (A * Store)) (b : Backend) (a : A) :
  Response.data (fst (request stmt b)) = Some a ->
  exists s,
    stmt (db b) = inr (a, s)
    /\ request stmt b = (success a, {| db := s; faults := tl (faults b) |}).
Proof.
  destruct (request_cases stmt b) as [[e' H]|[a' [s [Hs [_ H]]]]]; rewrite H; cbn.
  - discriminate.
  - intros E. inversion E. subst a'. exists s. split; [exact Hs|reflexivity].
Qed.

(** ** Low stock (catalog) *)

Lemma filter_kept_in_order {A : Type} (p : A -> bool) (l : list A) :
  kept_in_order (filter p l) l.
Proof.
  induction l as [|x l IH]; simpl.
  - constructor.
  - destruct (p x); constructor; exact IH.
Qed.

Lemma isLowStock_iff (item : InventoryItem.t) :
  isLowStock item = true
  <-> InventoryItem.quantity item <= InventoryItem.min_quantity item.
Proof. unfold isLowStock. apply Z.leb_le. Qed.

Lemma lowStock_In (items : list InventoryItem.t) (item : InventoryItem.t) :
  In item (Dashboard.lowStock items)
  <-> In item items /\ InventoryItem.quantity item <= InventoryItem.min_quantity item.
Proof.
  unfold Dashboard.lowStock. rewrite filter_In, isLowStock_iff. reflexivity.
Qed.

Lemma lowStock_Permutation (items items' : list InventoryItem.t) :
  Permutation items items' ->
  Permutation (Dashboard.lowStock items) (Dashboard.lowStock items').
Proof.
  unfold Dashboard.lowStock.
  induction 1 as [|x l l' _ IH|x y l|l l' l'' _ IH1 _ IH2]; simpl.
  - constructor.
  - destruct (isLowStock x); [constructor|]; exact IH.
  - destruct (isLowStock x), (isLowStock y);
      try apply Permutation_refl; apply perm_swap.
  - eapply Permutation_trans; eassumption.
Qed.

(** C2. An item is low on stock exactly when [quantity <= min_quantity]:
    the predicate reads these two fields only (two items that agree on
    them agree on it, whatever their supplier), the set of low-stock items
    of a list does not depend on the order the list is in, and filtering by
    it, in the dashboard and in [getLowStockItems], keeps the surviving
    items in their input order. *)
Theorem low_stock_is_quantity_le_min_and_filter_keeps_order :
  (forall item,
      isLowStock item = true
      <-> InventoryItem.quantity item <= InventoryItem.min_quantity item)
  /\ (forall item item',
         InventoryItem.quantity item = InventoryItem.quantity item' ->
         InventoryItem.min_quantity item = InventoryItem.min_quantity item' ->
         isLowStock item = isLowStock item')
  /\ (forall t item,
         isLowStock (set_supplier_null t item) = isLowStock item)
  /\ (forall items items',
         Permutation items items' ->
         Permutation (Dashboard.lowStock items) (Dashboard.lowStock items'))
  /\ (forall items,
         kept_in_order (Dashboard.lowStock items) items
         /\ forall item,
              In item (Dashboard.lowStock items)
              <-> In item items
                  /\ InventoryItem.quantity item <= InventoryItem.min_quantity item)
  /\ (forall rows,
         inventoryService.getLowStockItems (success rows)
         = Resolved (Dashboard.lowStock rows)).
Proof.
  split; [exact isLowStock_iff|].
  split; [intros item item' Hq Hm; unfold isLowStock; rewrite Hq, Hm; reflexivity|].
  split; [reflexivity|].
  split; [exact lowStock_Permutation|].
  split; [|reflexivity].
  intros items. split.
  - apply filter_kept_in_order.
  - apply lowStock_In.
Qed.

(** ** Order total and suggested quantities (procurement) *)


(** *** Rounding *)

Lemma round_Qeq (x y : Q) : (x == y)%Q -> Number.round x = Number.round y.
Proof. intros H. unfold Number.round. rewrite (Qred_complete x y H). reflexivity. Qed.

Lemma round_not_NaN (x : Q) : Number.round x <> Number.NaN.
Proof.
  unfold Number.round. destruct (Qnum (Qred x)); [discriminate| |];
    destruct (Qle_bool _ _); discriminate.
Qed.


Lemma Qred_integer (n : Z) : Qred (n # 1) = n # 1.
Proof.
  unfold Qred. cbn [Qnum Qden].
  pose proof (Z.ggcd_gcd n 1) as Hg.
  pose proof (Z.ggcd_correct_divisors n 1) as Hd.
  destruct (Z.ggcd n 1) as [g [aa bb]]. cbn in *.
  rewrite Z.gcd_1_r in Hg. subst g. destruct Hd as [Ha Hb].
  rewrite !Z.mul_1_l in *. subst aa. rewrite <- Hb. reflexivity.
Qed.

Lemma nearest_even_integer (a : Q) (n : Z) :
  (a == inject_Z n)%Q -> Number.nearest_even a = n.
Proof.
  intros H. unfold Number.nearest_even.
  assert (Hf : Qnum a / Zpos (Qden a) = n).
  { unfold Qeq, inject_Z in H. cbn [Qnum Qden] in H. rewrite Z.mul_1_r in H.
    rewrite H. apply Z.div_mul. discriminate. }
  rewrite Hf.
  replace (Qcompare (a - inject_Z n) (1 # 2)) with Lt; [reflexivity|].
  symmetry. apply Qlt_alt. rewrite H. unfold Qminus. rewrite Qplus_opp_r. reflexivity.
Qed.

(** An integer of fewer than 54 bits is a double as it stands. *)
Lemma nearest_integer (p : positive) :
  Zpos p < 2 ^ 53 -> Number.nearest (Zpos p # 1) = Zpos p # 1.
Proof.
  intros Hp. unfold Number.nearest.
  assert (Hlog : Number.floor_log2 (Zpos p # 1) = Z.log2 (Zpos p)).
  { unfold Number.floor_log2. cbn [Qnum Qden]. change (Z.log2 1) with 0.
    rewrite Z.sub_0_r.
    pose proof (Z.log2_spec (Zpos p) eq_refl) as [Hlo _].
    pose proof (Z.log2_nonneg (Zpos p)) as Hnn.
    replace (Qle_bool (Number.pow2 (Z.log2 (Zpos p))) (Zpos p # 1)) with true; [reflexivity|].
    symmetry. apply Qle_bool_iff.
    destruct (Z.log2 (Zpos p)) as [|k|k] eqn:E; cbn [Number.pow2].
    - unfold Qle. cbn. lia.
    - unfold Qle, inject_Z. cbn [Qnum Qden]. lia.
    - lia. }
  rewrite Hlog.
  assert (Hl : 0 <= Z.log2 (Zpos p) <= 52).
  { split; [apply Z.log2_nonneg|].
    assert (Z.log2 (Zpos p) < 53); [|lia].
    apply Z.log2_lt_pow2; lia. }
  rewrite Z.max_l by lia.
  rewrite <- (Qred_integer (Zpos p)) at 2.
  destruct (Z.log2 (Zpos p) - 52) as [|k|k] eqn:E; [| lia |]; cbn [Number.pow2].
  - rewrite (nearest_even_integer _ (Zpos p)).
    + apply Qred_complete. unfold Qeq, Qmult, inject_Z. cbn [Qnum Qden]. lia.
    + unfold Qeq, Qdiv, Qmult, Qinv, inject_Z. cbn [Qnum Qden]. lia.
  - rewrite (nearest_even_integer _ (Zpos p * Zpos (2 ^ k))).
    + apply Qred_complete. unfold Qeq, Qmult, inject_Z. cbn [Qnum Qden]. lia.
    + unfold Qeq, Qdiv, Qmult, Qinv, inject_Z. cbn [Qnum Qden]. lia.
Qed.

Lemma of_Z_exact (n : Z) : Z.abs n < 2 ^ 53 -> Number.of_Z n = Number.Finite (inject_Z n).
Proof.
  intros Hn. unfold Number.of_Z, Number.round, inject_Z.
  rewrite Qred_integer. cbn [Qnum Qden].
  assert (Hbig : 2 ^ 53 < 2 ^ 1024) by (apply Z.pow_lt_mono_r; lia).
  destruct n as [|p|p]; [reflexivity| |];
    rewrite nearest_integer by (cbn in Hn; lia);
    (replace (Qle_bool (Number.pow2 1024) (Zpos p # 1)) with false; [reflexivity|]);
    symmetry; apply not_true_is_false; intros H; apply Qle_bool_iff in H;
    unfold Qle, Number.pow2, inject_Z in H; cbn [Qnum Qden] in H; cbn in Hn; lia.
Qed.

(** The rounding of [Number] is that of the Standard Library's
    specification of doubles, on the samples. *)
Example Number_agrees_with_SpecFloat :
  forallb (fun x => forallb (Binary64.agree x) Binary64.samples) Binary64.samples = true.
Proof. vm_compute. reflexivity. Qed.

(** 0.1 * 3 and 1 / 3 * 100 as [SpecFloat] computes them. *)
Example three_tenths_by_SpecFloat :
  Binary64.of_spec (SpecFloat.SFmul 53 1024 (Binary64.quotient 1 10) (Binary64.of_Z 3))
  = Number.Finite (1351079888211149 # 4503599627370496)
  /\ Binary64.of_spec (SpecFloat.SFmul 53 1024 (Binary64.quotient 1 3) (Binary64.of_Z 100))
     = Number.Finite (2345624805922133 # 70368744177664).
Proof. split; vm_compute; reflexivity. Qed.

(** *** The total of the order form *)



Lemma prefill_quantity (item : InventoryItem.t) :
  map PurchaseOrderModal.quantity (PurchaseOrderModal.prefill item)
  = [Z.max 1 (InventoryItem.min_quantity item - InventoryItem.quantity item)].
Proof. reflexivity. Qed.

Lemma updateItemQty_prefill (item : InventoryItem.t) (qty : Z) :
  option_map (map PurchaseOrderModal.quantity)
             (PurchaseOrderModal.updateItemQty (PurchaseOrderModal.prefill item) 0 qty)
  = Some [Z.max 1 qty].
Proof. reflexivity. Qed.

(** C8. The quantity suggested for an inventory item is
    [max(1, min_quantity - quantity)] in the line the purchase-order form
    opens with, and [max(1, min_quantity*2 - quantity)] in the reorder-email
    form. Both are values computed from the item by the forms (the item is
    not written), both are at least 1, and neither binds the user: editing
    the line replaces the prefilled quantity by any quantity of at least 1,
    and the quantity sent for the email is the one in the form's state,
    which starts at 10 and follows what is typed. *)
Theorem suggested_reorder_quantities (item : InventoryItem.t) :
  map PurchaseOrderModal.quantity (PurchaseOrderModal.prefill item)
  = [Z.max 1 (InventoryItem.min_quantity item - InventoryItem.quantity item)]
  /\ ReorderEmailModal.suggestedQty (Some item)
     = Z.max 1 (InventoryItem.min_quantity item * 2 - InventoryItem.quantity item)
  /\ Forall (fun q => 1 <= q)
            (ReorderEmailModal.suggestedQty (Some item)
             :: map PurchaseOrderModal.quantity (PurchaseOrderModal.prefill item))
  /\ (forall qty,
         1 <= qty ->
         option_map (map PurchaseOrderModal.quantity)
                    (PurchaseOrderModal.updateItemQty (PurchaseOrderModal.prefill item) 0 qty)
         = Some [qty])
  /\ (forall typed,
         typed <> 0 ->
         ReorderEmailModal.reorderQuantity
           (ReorderEmailModal.requestBody item (ReorderEmailModal.onQuantityChange (Some typed)))
         = typed)
  /\ ReorderEmailModal.reorderQuantity
       (ReorderEmailModal.requestBody item ReorderEmailModal.initialReorderQuantity)
     = 10.
Proof.
  split; [apply prefill_quantity|].
  split; [reflexivity|].
  split.
  { rewrite prefill_quantity. simpl. repeat constructor; lia. }
  split.
  { intros qty Hq. rewrite updateItemQty_prefill. f_equal. f_equal. lia. }
  split; [|reflexivity].
  intros typed Ht. simpl.
  destruct (Z.eqb_spec typed 0); [contradiction|reflexivity].
Qed.

(** ** Roles (workspace membership) *)

(** C5. For a user with no membership row in a workspace, [getUserRole]
    answers no role, under whatever the store does with the call: no role
    stands in for the missing one, and [fetchUserRole] hands the context no
    role either. With no role [isAdmin] is false, and so are the store's
    own checks [is_workspace_member] and [is_workspace_admin], which every
    row policy is written with. *)
Theorem getUserRole_absent_denies (b : Backend) (workspaceId userId : uuid) :
  memberships (db b) workspaceId userId = [] ->
  workspaceService.RoleResult.role
    (fst (workspaceService.getUserRole workspaceId userId b)) = None
  /\ WorkspaceContext.isAdmin
       (workspaceService.RoleResult.role
          (fst (workspaceService.getUserRole workspaceId userId b))) = false
  /\ get_user_workspace_role (db b) workspaceId userId = None
  /\ is_workspace_member (db b) workspaceId userId = false
  /\ is_workspace_admin (db b) workspaceId userId = false
  /\ (forall w,
         Workspace.id w = workspaceId ->
         fst (WorkspaceContext.fetchUserRole (Some w) (Some userId) b) = None
         /\ WorkspaceContext.isAdmin
              (fst (WorkspaceContext.fetchUserRole (Some w) (Some userId) b)) = false)
  /\ WorkspaceContext.isAdmin None = false.
Proof.
  intros Hnone.
  assert (Hrole : workspaceService.RoleResult.role
                    (fst (workspaceService.getUserRole workspaceId userId b)) = None).
  { unfold workspaceService.getUserRole, bind, ret.
    destruct (request_cases (select_member_role workspaceId userId) b)
      as [[e H]|[r [s [Hstmt [_ H]]]]]; rewrite H; simpl; [reflexivity|].
    unfold select_member_role in Hstmt. rewrite Hnone in Hstmt. discriminate. }
  assert (Hfetch : forall w,
             Workspace.id w = workspaceId ->
             fst (WorkspaceContext.fetchUserRole (Some w) (Some userId) b) = None).
  { intros w Hw. unfold WorkspaceContext.fetchUserRole, bind, ret. rewrite Hw.
    destruct (workspaceService.getUserRole workspaceId userId b) as [r b1].
    exact Hrole. }
  rewrite Hrole.
  unfold get_user_workspace_role, is_workspace_member, is_workspace_admin.
  rewrite Hnone.
  split; [reflexivity|]. split; [reflexivity|]. split; [reflexivity|].
  split; [reflexivity|]. split; [reflexivity|]. split; [|reflexivity].
  intros w Hw. rewrite (Hfetch w Hw). split; reflexivity.
Qed.

(** ** A workspace just inserted *)

Lemma filter_all {A} (p : A -> bool) (l : list A) :
  forallb p l = true -> filter p l = l.
Proof.
  induction l as [|x l IH]; simpl; [reflexivity|].
  intros H. apply andb_true_iff in H. destruct H as [Hx Hl].
  rewrite Hx, (IH Hl). reflexivity.
Qed.

Lemma filter_none {A} (p : A -> bool) (l : list A) :
  forallb (fun x => negb (p x)) l = true -> filter p l = [].
Proof.
  induction l as [|x l IH]; simpl; [reflexivity|].
  intros H. apply andb_true_iff in H. destruct H as [Hx Hl].
  apply negb_true_iff in Hx. rewrite Hx. exact (IH Hl).
Qed.

Lemma existsb_none {A} (p : A -> bool) (l : list A) :
  forallb (fun x => negb (p x)) l = true -> existsb p l = false.
Proof.
  induction l as [|x l IH]; simpl; [reflexivity|].
  intros H. apply andb_true_iff in H. destruct H as [Hx Hl].
  apply negb_true_iff in Hx. rewrite Hx. exact (IH Hl).
Qed.

Lemma forallb_impl {A} (p q : A -> bool) (l : list A) :
  (forall x, p x = true -> q x = true) -> forallb p l = true -> forallb q l = true.
Proof.
  intros Hpq H. rewrite forallb_forall in *. auto.
Qed.

Lemma map_same {A} (f : A -> A) (l : list A) :
  (forall x, f x = x) -> map f l = l.
Proof.
  intros H. induction l as [|x l IH]; simpl; [reflexivity|].
  rewrite H, IH. reflexivity.
Qed.

Section FreshWorkspace.

Variable s : Store.
Hypothesis Hok : store_ok s = true.

Lemma workspace_ids_drawn :
  forallb (fun w => Nat.ltb (Workspace.id w) (next_uuid s)) (workspaces s) = true.
Proof.
  unfold store_ok in Hok. repeat (apply andb_true_iff in Hok; destruct Hok as [Hok ?]).
  assumption.
Qed.

Lemma known_workspace_not_next (wid : uuid) :
  has_workspace s wid = true -> Nat.eqb wid (next_uuid s) = false.
Proof.
  unfold has_workspace. intros H.
  apply existsb_exists in H. destruct H as [w [Hin Hid]].
  apply Nat.eqb_eq in Hid. subst wid.
  pose proof workspace_ids_drawn as Hd.
  rewrite forallb_forall in Hd. specialize (Hd w Hin).
  apply Nat.ltb_lt in Hd. apply Nat.eqb_neq. lia.
Qed.

Lemma rows_of_next_workspace {A} (wsid : A -> uuid) (rows : list A) :
  forallb (fun r => has_workspace s (wsid r)) rows = true ->
  forallb (fun r => negb (Nat.eqb (wsid r) (next_uuid s))) rows = true.
Proof.
  apply forallb_impl. intros r H.
  rewrite (known_workspace_not_next _ H). reflexivity.
Qed.

Lemma members_ok :
  forallb (fun m => negb (Nat.eqb (WorkspaceMember.workspace_id m) (next_uuid s)))
          (workspace_members s) = true.
Proof.
  apply rows_of_next_workspace.
  unfold store_ok in Hok. repeat (apply andb_true_iff in Hok; destruct Hok as [Hok ?]).
  assumption.
Qed.

Lemma invitations_ok :
  forallb (fun i => negb (Nat.eqb (WorkspaceInvitation.workspace_id i) (next_uuid s)))
          (workspace_invitations s) = true.
Proof.
  apply rows_of_next_workspace.
  unfold store_ok in Hok. repeat (apply andb_true_iff in Hok; destruct Hok as [Hok ?]).
  assumption.
Qed.

Lemma suppliers_ok :
  forallb (fun x => negb (Nat.eqb (Supplier.workspace_id x) (next_uuid s)))
          (suppliers s) = true.
Proof.
  apply rows_of_next_workspace.
  unfold store_ok in Hok. repeat (apply andb_true_iff in Hok; destruct Hok as [Hok ?]).
  assumption.
Qed.

Lemma inventory_items_ok :
  forallb (fun i => negb (Nat.eqb (InventoryItem.workspace_id i) (next_uuid s)))
          (inventory_items s) = true.
Proof.
  apply rows_of_next_workspace.
  unfold store_ok in Hok. repeat (apply andb_true_iff in Hok; destruct Hok as [Hok ?]).
  assumption.
Qed.

Lemma purchase_orders_ok :
  forallb (fun o => negb (Nat.eqb (PurchaseOrder.workspace_id o) (next_uuid s)))
          (purchase_orders s) = true.
Proof.
  apply rows_of_next_workspace.
  unfold store_ok in Hok. repeat (apply andb_true_iff in Hok; destruct Hok as [Hok ?]).
  assumption.
Qed.

Lemma none_of_next_workspace {A} (idof wsid : A -> uuid) (rows : list A) (x : uuid) :
  forallb (fun r => negb (Nat.eqb (wsid r) (next_uuid s))) rows = true ->
  existsb (fun r => Nat.eqb (idof r) x && Nat.eqb (wsid r) (next_uuid s)) rows = false.
Proof.
  intros H. apply existsb_none. revert H. apply forallb_impl.
  intros r Hr. apply negb_true_iff in Hr. rewrite Hr, andb_false_r. reflexivity.
Qed.

End FreshWorkspace.

Lemma on_supplier_delete_none (gone : uuid -> bool) (t : timestamp) (i : InventoryItem.t) :
  (forall sid, gone sid = false) -> on_supplier_delete gone t i = i.
Proof.
  intros H. unfold on_supplier_delete.
  destruct (InventoryItem.supplier_id i); [rewrite H|]; reflexivity.
Qed.

Lemma on_inventory_item_delete_none (gone : uuid -> bool) (li : PurchaseOrderItem.t) :
  (forall iid, gone iid = false) -> on_inventory_item_delete gone li = li.
Proof.
  intros H. unfold on_inventory_item_delete.
  destruct (PurchaseOrderItem.inventory_item_id li); [rewrite H|]; reflexivity.
Qed.

(** Deleting the workspace that was inserted last, before anything refers
    to it, gives back the rows there were before the insert. *)
Lemma delete_inserted_workspace (s : Store) (row : Workspace.t) :
  store_ok s = true ->
  Workspace.id row = next_uuid s ->
  delete_workspace (next_uuid s)
    (with_next_uuid (S (next_uuid s)) (with_workspaces (workspaces s ++ [row]) s))
  = inr (tt, with_next_uuid (S (next_uuid s)) s).
Proof.
  intros Hok Hid.
  unfold delete_workspace, has_workspace, supplier_in_use. simpl.
  rewrite existsb_app. simpl. rewrite Hid, Nat.eqb_refl, orb_true_r. simpl.
  assert (Hs : forall sid,
             existsb (fun x => Nat.eqb (Supplier.id x) sid
                               && Nat.eqb (Supplier.workspace_id x) (next_uuid s))
                     (suppliers s) = false).
  { intros sid. apply none_of_next_workspace, suppliers_ok, Hok. }
  assert (Hi : forall iid,
             existsb (fun i => Nat.eqb (InventoryItem.id i) iid
                               && Nat.eqb (InventoryItem.workspace_id i) (next_uuid s))
                     (inventory_items s) = false).
  { intros iid. apply none_of_next_workspace, inventory_items_ok, Hok. }
  assert (Ho : forall oid,
             existsb (fun o => Nat.eqb (PurchaseOrder.id o) oid
                               && Nat.eqb (PurchaseOrder.workspace_id o) (next_uuid s))
                     (purchase_orders s) = false).
  { intros oid. apply none_of_next_workspace, purchase_orders_ok, Hok. }
  rewrite existsb_none.
  2:{ apply forallb_forall. intros o _. rewrite Hs. reflexivity. }
  unfold with_next_uuid. simpl. do 2 f_equal.
  f_equal.
  - rewrite filter_app. simpl. rewrite Hid, Nat.eqb_refl. simpl.
    rewrite app_nil_r. apply filter_all.
    generalize (workspace_ids_drawn s Hok). apply forallb_impl.
    intros w Hw. apply Nat.ltb_lt in Hw. apply negb_true_iff, Nat.eqb_neq. lia.
  - apply filter_all, members_ok, Hok.
  - apply filter_all, invitations_ok, Hok.
  - apply filter_all, suppliers_ok, Hok.
  - rewrite filter_all by (apply inventory_items_ok, Hok).
    apply map_same. intros i. apply on_supplier_delete_none, Hs.
  - apply filter_all, purchase_orders_ok, Hok.
  - rewrite filter_all.
    + apply map_same. intros li. apply on_inventory_item_delete_none, Hi.
    + apply forallb_forall. intros li _. rewrite Ho. reflexivity.
Qed.

(** ** createWorkspace *)

Lemma insert_workspace_accepted (s s1 : Store) (name : string) (userId : uuid)
      (w : Workspace.t) :
  insert_workspace name (Some userId) s = inr (w, s1) ->
  references_auth_user s (Some userId) = true
  /\ w = new_workspace s name userId
  /\ s1 = after_workspace_insert s name userId.
Proof.
  unfold insert_workspace.
  destruct (references_auth_user s (Some userId)); [|discriminate].
  intros H. inversion H. auto.
Qed.

Lemma insert_admin_accepted (s s2 : Store) (name : string) (userId : uuid) :
  store_ok s = true ->
  insert_workspace_member (next_uuid s) userId admin (after_workspace_insert s name userId)
  = inr (tt, s2) ->
  s2 = with_next_uuid (S (S (next_uuid s)))
         (with_workspace_members (workspace_members s ++ [admin_membership s userId])
            (after_workspace_insert s name userId)).
Proof.
  intros Hok. unfold insert_workspace_member.
  destruct (memberships _ _ _); [|discriminate].
  destruct (_ && _); [|discriminate].
  intros H. inversion H. reflexivity.
Qed.

(** The three ways a call of [createWorkspace] can go. *)
Lemma createWorkspace_cases (s : Store) (name : string) (userId : uuid)
      (script : list (option Err)) :
  store_ok s = true ->
  let run := workspaceService.createWorkspace name userId {| db := s; faults := script |} in
  (exists e,
      fst run = {| workspaceService.WorkspaceResult.workspace := None;
                   workspaceService.WorkspaceResult.error := Some e |}
      /\ db (snd run) = s)
  \/ (exists e,
         fst run = {| workspaceService.WorkspaceResult.workspace := None;
                      workspaceService.WorkspaceResult.error := Some e |}
         /\ db (snd run)
            = match nth 2 script None with
              | Some _ => after_workspace_insert s name userId
              | None => with_next_uuid (S (next_uuid s)) s
              end)
  \/ (fst run = {| workspaceService.WorkspaceResult.workspace :=
                     Some (new_workspace s name userId);
                   workspaceService.WorkspaceResult.error := None |}
      /\ db (snd run)
         = with_next_uuid (S (S (next_uuid s)))
             (with_workspace_members (workspace_members s ++ [admin_membership s userId])
                (after_workspace_insert s name userId))).
Proof.
  intros Hok run. subst run.
  unfold workspaceService.createWorkspace, bind, ret.
  destruct (request_cases (insert_workspace name (Some userId)) {| db := s; faults := script |})
    as [[e H]|[w [s1 [Hstmt [_ H]]]]]; cbn [db faults] in *; rewrite H; simpl.
  { left. exists e. split; reflexivity. }
  apply insert_workspace_accepted in Hstmt. destruct Hstmt as [_ [Hw Hs1]]. subst w s1.
  right. change (Workspace.id (new_workspace s name userId)) with (next_uuid s).
  destruct (request_cases
              (insert_workspace_member (next_uuid s) userId admin)
              {| db := after_workspace_insert s name userId; faults := tl script |})
    as [[e H2]|[u [s2 [Hstmt2 [_ H2]]]]]; cbn [db faults] in *; rewrite H2; simpl.
  - left. exists e.
    set (b2 := {| db := after_workspace_insert s name userId; faults := tl (tl script) |}).
    assert (Hnth : hd None (faults b2) = nth 2 script None).
    { subst b2. simpl. destruct script as [|? [|? [|? ?]]]; reflexivity. }
    destruct (nth 2 script None) as [e3|] eqn:E3.
    + destruct (faults b2) as [|[e'|] rest] eqn:Ef; simpl in Hnth; try discriminate.
      rewrite (request_faulted _ b2 e' rest Ef). simpl. split; reflexivity.
    + rewrite (request_run _ b2 Hnth). subst b2. simpl.
      unfold after_workspace_insert.
      rewrite (delete_inserted_workspace s (new_workspace s name userId) Hok eq_refl).
      simpl. split; reflexivity.
  - right. destruct u.
    apply (insert_admin_accepted s s2 name userId Hok) in Hstmt2. subst s2.
    split; reflexivity.
Qed.

Lemma same_rows_refl (s : Store) : same_rows s s.
Proof. unfold same_rows. destruct s. reflexivity. Qed.

Lemma same_rows_next (s : Store) (n : uuid) : same_rows s (with_next_uuid n s).
Proof. unfold same_rows. destruct s. reflexivity. Qed.

(** The membership insert made to fail, and nothing else. *)
Lemma createWorkspace_member_insert_fails (s : Store) (name : string) (userId : uuid)
      (e : Err) (rest : list (option Err)) :
  store_ok s = true ->
  references_auth_user s (Some userId) = true ->
  hd None rest = None ->
  workspaceService.createWorkspace name userId
    {| db := s; faults := None :: Some e :: rest |}
  = ({| workspaceService.WorkspaceResult.workspace := None;
        workspaceService.WorkspaceResult.error := Some e |},
     {| db := with_next_uuid (S (next_uuid s)) s; faults := tl rest |}).
Proof.
  intros Hok Href Hrest.
  unfold workspaceService.createWorkspace, bind, ret.
  rewrite request_run by reflexivity. cbn [db faults tl].
  unfold insert_workspace. rewrite Href. cbn [success Response.error Response.data].
  cbn [Workspace.id].
  rewrite (request_faulted _ _ e rest) by reflexivity.
  cbn [failure Response.error db].
  rewrite request_run by exact Hrest. cbn [db faults].
  pose proof (delete_inserted_workspace s (new_workspace s name userId) Hok eq_refl) as Hd.
  unfold new_workspace in Hd. rewrite Hd. reflexivity.
Qed.

(** The invariant holds of a store that grew by workspaces with drawn
    identifiers and by members of workspaces it has. *)
Lemma store_ok_grows (s s' : Store)
      (new_workspaces : list Workspace.t) (new_members : list WorkspaceMember.t) :
  store_ok s = true ->
  (next_uuid s <= next_uuid s')%nat ->
  workspaces s' = workspaces s ++ new_workspaces ->
  forallb (fun w => Nat.ltb (Workspace.id w) (next_uuid s')) new_workspaces = true ->
  workspace_members s' = workspace_members s ++ new_members ->
  forallb (fun m => has_workspace s' (WorkspaceMember.workspace_id m)) new_members = true ->
  workspace_invitations s' = workspace_invitations s ->
  suppliers s' = suppliers s ->
  inventory_items s' = inventory_items s ->
  purchase_orders s' = purchase_orders s ->
  store_ok s' = true.
Proof.
  intros Hok Hnext Hws Hnew Hms Hnewm Hinv Hsup Hitems Hpo.
  assert (Hhas : forall wid, has_workspace s wid = true -> has_workspace s' wid = true).
  { intros wid H. unfold has_workspace in *. rewrite Hws, existsb_app, H. reflexivity. }
  assert (Hrows : forall {A} (wsid : A -> uuid) (rows : list A),
             forallb (fun r => has_workspace s (wsid r)) rows = true ->
             forallb (fun r => has_workspace s' (wsid r)) rows = true).
  { intros A wsid rows. apply forallb_impl. intros r. apply Hhas. }
  unfold store_ok in *.
  repeat (apply andb_true_iff in Hok; destruct Hok as [Hok ?]).
  rewrite Hws, Hms, Hinv, Hsup, Hitems, Hpo, !forallb_app, Hnew, Hnewm.
  rewrite !Hrows by assumption.
  rewrite andb_true_r. cbn [andb].
  rewrite !andb_true_r.
  revert Hok. apply forallb_impl. intros w Hw.
  apply Nat.ltb_lt in Hw. apply Nat.ltb_lt. lia.
Qed.

(** [createWorkspace] keeps the invariant, whatever is made to fail. *)
Lemma createWorkspace_keeps_store_ok (s : Store) (name : string) (userId : uuid)
      (script : list (option Err)) :
  store_ok s = true ->
  store_ok (db (snd (workspaceService.createWorkspace name userId
                       {| db := s; faults := script |}))) = true.
Proof.
  intros Hok.
  assert (Hins : store_ok (after_workspace_insert s name userId) = true).
  { apply (store_ok_grows s _ [new_workspace s name userId] []); try reflexivity.
    - exact Hok.
    - cbn. lia.
    - cbn. rewrite andb_true_r. apply Nat.leb_le. lia.
    - cbn. rewrite app_nil_r. reflexivity. }
  destruct (createWorkspace_cases s name userId script Hok)
    as [[e [_ Hdb]]|[[e [_ Hdb]]|[_ Hdb]]]; rewrite Hdb.
  - exact Hok.
  - destruct (nth 2 script None); [exact Hins|].
    apply (store_ok_grows s _ [] []); try reflexivity.
    + exact Hok.
    + cbn. lia.
    + cbn. rewrite app_nil_r. reflexivity.
    + cbn. rewrite app_nil_r. reflexivity.
  - apply (store_ok_grows s _ [new_workspace s name userId] [admin_membership s userId]);
      try reflexivity.
    + exact Hok.
    + cbn. lia.
    + cbn. rewrite andb_true_r. apply Nat.leb_le. lia.
    + cbn. rewrite andb_true_r. unfold has_workspace. cbn.
      rewrite existsb_app. cbn. rewrite Nat.eqb_refl. apply orb_true_r.
Qed.

(** [createWorkspace(name, userId)], from a store that satisfies its
    constraints, under any script of forced failures. When it returns a
    workspace it returns no error, the workspace is a new row of the store,
    and the store holds exactly one membership row of that workspace: role
    admin, user [userId]. When it returns no workspace it returns an error.
    When the membership insert is the call made to fail, the error returned
    is that insert's, and the compensating delete leaves the store with the
    rows it had before the call: no workspace without admin remains. (The
    same holds whichever call fails, as long as the compensating delete is
    not itself made to fail: its outcome is not looked at.) *)
Theorem createWorkspace_admin_membership_or_rollback
        (s : Store) (name : string) (userId : uuid) (script : list (option Err))
        (r : workspaceService.WorkspaceResult.t) (b' : Backend) :
  store_ok s = true ->
  workspaceService.createWorkspace name userId {| db := s; faults := script |} = (r, b') ->
  (forall w,
      workspaceService.WorkspaceResult.workspace r = Some w ->
      workspaceService.WorkspaceResult.error r = None
      /\ Workspace.name w = name
      /\ Workspace.created_by w = Some userId
      /\ ~ In w (workspaces s)
      /\ In w (workspaces (db b'))
      /\ exists m,
           filter (fun m => Nat.eqb (WorkspaceMember.workspace_id m) (Workspace.id w))
                  (workspace_members (db b')) = [m]
           /\ WorkspaceMember.role m = admin
           /\ WorkspaceMember.user_id m = userId
           /\ WorkspaceMember.workspace_id m = Workspace.id w)
  /\ (workspaceService.WorkspaceResult.workspace r = None ->
      (exists e, workspaceService.WorkspaceResult.error r = Some e)
      /\ (nth 2 script None = None ->
          same_rows s (db b') /\ workspaces (db b') = workspaces s))
  /\ (forall e rest,
         script = None :: Some e :: rest ->
         references_auth_user s (Some userId) = true ->
         hd None rest = None ->
         r = {| workspaceService.WorkspaceResult.workspace := None;
                workspaceService.WorkspaceResult.error := Some e |}
         /\ same_rows s (db b')
         /\ workspaces (db b') = workspaces s).
Proof.
  intros Hok Hrun.
  split; [|split].
  - intros w Hw.
    pose proof (createWorkspace_cases s name userId script Hok) as Hc.
    cbv zeta in Hc. rewrite Hrun in Hc. cbn [fst snd] in Hc.
    destruct Hc as [[e [Hr _]]|[[e [Hr _]]|[Hr Hdb]]];
      try (rewrite Hr in Hw; discriminate).
    rewrite Hr in Hw |- *. cbn in Hw. inversion Hw. subst w. clear Hw.
    rewrite Hdb. cbn.
    split; [reflexivity|]. split; [reflexivity|]. split; [reflexivity|].
    split.
    { intros Hin. pose proof (workspace_ids_drawn s Hok) as Hd.
      rewrite forallb_forall in Hd. specialize (Hd _ Hin).
      apply Nat.ltb_lt in Hd. cbn in Hd. lia. }
    split.
    { apply in_or_app. right. left. reflexivity. }
    exists (admin_membership s userId).
    rewrite filter_app. cbn. rewrite Nat.eqb_refl.
    rewrite filter_none; [repeat split; reflexivity|].
    exact (members_ok s Hok).
  - intros Hw.
    pose proof (createWorkspace_cases s name userId script Hok) as Hc.
    cbv zeta in Hc. rewrite Hrun in Hc. cbn [fst snd] in Hc.
    destruct Hc as [[e [Hr Hdb]]|[[e [Hr Hdb]]|[Hr _]]];
      try (rewrite Hr in Hw; discriminate).
    + split; [exists e; rewrite Hr; reflexivity|].
      intros _. rewrite Hdb. split; [apply same_rows_refl|reflexivity].
    + split; [exists e; rewrite Hr; reflexivity|].
      intros Hn. rewrite Hn in Hdb. rewrite Hdb.
      split; [apply same_rows_next|reflexivity].
  - intros e rest Hs Href Hrest. subst script.
    rewrite (createWorkspace_member_insert_fails s name userId e rest Hok Href Hrest) in Hrun.
    inversion Hrun. cbn [db].
    split; [reflexivity|]. split; [apply same_rows_next|reflexivity].
Qed.

Lemma createWorkspace_rollback_at_Acme :
  fst (workspaceService.createWorkspace "Branch" 2 (Acme.backend [None; Some Acme.denied]))
  = {| workspaceService.WorkspaceResult.workspace := None;
       workspaceService.WorkspaceResult.error := Some Acme.denied |}
  /\ same_rows Acme.store
       (db (snd (workspaceService.createWorkspace "Branch" 2
                   (Acme.backend [None; Some Acme.denied]))))
  /\ workspaces
       (db (snd (workspaceService.createWorkspace "Branch" 2
                   (Acme.backend [None; Some Acme.denied]))))
     = workspaces Acme.store.
Proof.
  exact (proj2 (proj2
           (createWorkspace_admin_membership_or_rollback
              Acme.store "Branch" 2 [None; Some Acme.denied]
              (fst (workspaceService.createWorkspace "Branch" 2
                      (Acme.backend [None; Some Acme.denied])))
              (snd (workspaceService.createWorkspace "Branch" 2
                      (Acme.backend [None; Some Acme.denied])))
              eq_refl eq_refl))
           Acme.denied [] eq_refl eq_refl eq_refl).
Defined.

(** ** createWorkspace and the name *)

Lemma createWorkspace_empty_name_accepted :
  workspaceService.WorkspaceResult.error
    (fst (workspaceService.createWorkspace "" 1 (Acme.backend []))) = None
  /\ map Workspace.name
         (workspaces (db (snd (workspaceService.createWorkspace "" 1 (Acme.backend [])))))
     = ["Acme"; ""]%string
  /\ ~ empty_name_refused (Acme.backend []) 1.
Proof.
  split; [reflexivity|]. split; [reflexivity|].
  unfold empty_name_refused. cbn. intros [H _]. discriminate H.
Qed.

Lemma after_insert_no_membership (s : Store) (name : string) (userId uid : uuid) :
  store_ok s = true ->
  memberships (after_workspace_insert s name userId) (next_uuid s) uid = [].
Proof.
  intros Hok. unfold memberships. cbn.
  apply filter_none. generalize (members_ok s Hok). apply forallb_impl.
  intros m Hm. apply negb_true_iff in Hm. rewrite Hm. reflexivity.
Qed.

Lemma after_insert_has_workspace (s : Store) (name : string) (userId : uuid) :
  has_workspace (after_workspace_insert s name userId) (next_uuid s) = true.
Proof.
  unfold has_workspace. cbn. rewrite existsb_app. cbn.
  rewrite Nat.eqb_refl. apply orb_true_r.
Qed.

(** C1. The compensating delete is sent but its answer is not looked at.
    From a store that satisfies its constraints and for a known user:
    when the membership insert is made to fail and the delete that follows
    is made to fail as well, [createWorkspace] returns the membership
    error and no workspace, and the workspace row it had inserted stays in
    the store with no membership row at all: a workspace without admin. *)
Theorem createWorkspace_leaves_orphan_when_delete_fails
        (s : Store) (name : string) (userId : uuid) (e e' : Err)
        (rest : list (option Err)) :
  store_ok s = true ->
  references_auth_user s (Some userId) = true ->
  let run := workspaceService.createWorkspace name userId
               {| db := s; faults := None :: Some e :: Some e' :: rest |} in
  fst run = {| workspaceService.WorkspaceResult.workspace := None;
               workspaceService.WorkspaceResult.error := Some e |}
  /\ In (new_workspace s name userId) (workspaces (db (snd run)))
  /\ ~ In (new_workspace s name userId) (workspaces s)
  /\ (forall uid, memberships (db (snd run)) (next_uuid s) uid = [])
  /\ (forall uid, is_workspace_admin (db (snd run)) (next_uuid s) uid = false)
  /\ ~ same_rows s (db (snd run)).
Proof.
  intros Hok Href run.
  assert (Hrun : run = ({| workspaceService.WorkspaceResult.workspace := None;
                           workspaceService.WorkspaceResult.error := Some e |},
                        {| db := after_workspace_insert s name userId; faults := rest |})).
  { subst run. unfold workspaceService.createWorkspace, bind, ret.
    rewrite request_run by reflexivity. cbn [db faults tl].
    unfold insert_workspace. rewrite Href. cbn [success Response.error Response.data].
    rewrite (request_faulted _ _ e (Some e' :: rest)) by reflexivity.
    cbn [failure Response.error db].
    rewrite (request_faulted _ _ e' rest) by reflexivity.
    reflexivity. }
  rewrite Hrun. cbn [fst snd db].
  assert (Hnew : ~ In (new_workspace s name userId) (workspaces s)).
  { intros Hin. pose proof (workspace_ids_drawn s Hok) as Hd.
    rewrite forallb_forall in Hd. specialize (Hd _ Hin).
    apply Nat.ltb_lt in Hd. cbn in Hd. lia. }
  split; [reflexivity|]. split.
  { cbn. apply in_or_app. right. left. reflexivity. }
  split; [exact Hnew|]. split.
  { intros uid. apply after_insert_no_membership. exact Hok. }
  split.
  { intros uid. unfold is_workspace_admin.
    rewrite (after_insert_no_membership s name userId uid Hok). reflexivity. }
  intros Hsame. unfold same_rows in Hsame.
  apply Hnew. rewrite <- Hsame at 2. cbn.
  apply in_or_app. right. left. reflexivity.
Qed.

Lemma createWorkspace_orphan_at_Acme :
  let run := workspaceService.createWorkspace "Branch" 2
               (Acme.backend [None; Some Acme.denied; Some Acme.denied]) in
  fst run = {| workspaceService.WorkspaceResult.workspace := None;
               workspaceService.WorkspaceResult.error := Some Acme.denied |}
  /\ map Workspace.name (workspaces (db (snd run))) = ["Acme"; "Branch"]%string
  /\ (forall uid, is_workspace_admin (db (snd run)) 20 uid = false).
Proof.
  pose proof (createWorkspace_leaves_orphan_when_delete_fails
                Acme.store "Branch" 2 Acme.denied Acme.denied [] eq_refl eq_refl) as H.
  split; [exact (proj1 H)|]. split; [reflexivity|].
  exact (proj1 (proj2 (proj2 (proj2 (proj2 H))))).
Defined.

(** C9 (as the code has it). [createWorkspace] does not look at the name:
    for every name, the empty one included, when the creator is a known
    user and neither insert is made to fail, it inserts a workspace row
    with that name and the creator's admin membership, and returns the
    workspace with no error. *)
Theorem createWorkspace_any_name_creates
        (s : Store) (name : string) (userId : uuid) (script : list (option Err)) :
  store_ok s = true ->
  references_auth_user s (Some userId) = true ->
  hd None script = None ->
  hd None (tl script) = None ->
  let run := workspaceService.createWorkspace name userId {| db := s; faults := script |} in
  fst run = {| workspaceService.WorkspaceResult.workspace := Some (new_workspace s name userId);
               workspaceService.WorkspaceResult.error := None |}
  /\ Workspace.name (new_workspace s name userId) = name
  /\ workspaces (db (snd run)) = workspaces s ++ [new_workspace s name userId]
  /\ workspace_members (db (snd run)) = workspace_members s ++ [admin_membership s userId].
Proof.
  intros Hok Href H1 H2 run. subst run.
  unfold workspaceService.createWorkspace, bind, ret.
  rewrite request_run by exact H1. cbn [db faults].
  unfold insert_workspace. rewrite Href.
  cbn [success Response.error Response.data Workspace.id].
  fold (new_workspace s name userId). fold (after_workspace_insert s name userId).
  rewrite request_run by exact H2. cbn [db faults].
  unfold insert_workspace_member.
  rewrite (after_insert_no_membership s name userId userId Hok).
  rewrite after_insert_has_workspace.
  change (references_auth_user (after_workspace_insert s name userId) (Some userId))
    with (references_auth_user s (Some userId)).
  rewrite Href. cbn. repeat split; reflexivity.
Qed.

Lemma createWorkspace_empty_name_at_Acme :
  fst (workspaceService.createWorkspace "" 1 (Acme.backend []))
  = {| workspaceService.WorkspaceResult.workspace := Some (new_workspace Acme.store "" 1);
       workspaceService.WorkspaceResult.error := None |}
  /\ Workspace.name (new_workspace Acme.store "" 1) = ""%string
  /\ workspaces (db (snd (workspaceService.createWorkspace "" 1 (Acme.backend []))))
     = workspaces Acme.store ++ [new_workspace Acme.store "" 1]
  /\ workspace_members (db (snd (workspaceService.createWorkspace "" 1 (Acme.backend []))))
     = workspace_members Acme.store ++ [admin_membership Acme.store 1].
Proof.
  exact (createWorkspace_any_name_creates Acme.store "" 1 [] eq_refl eq_refl eq_refl eq_refl).
Defined.

(** ** acceptInvitation *)

Lemma select_invitation_found (s s1 : Store) (invitationId : uuid)
      (invitation : WorkspaceInvitation.t) :
  select_invitation invitationId s = inr (invitation, s1) ->
  s1 = s
  /\ filter (fun i => Nat.eqb (WorkspaceInvitation.id i) invitationId)
            (workspace_invitations s) = [invitation].
Proof.
  unfold select_invitation, single.
  destruct (filter _ _) as [|i [|? ?]]; try discriminate.
  intros H. inversion H. auto.
Qed.

Lemma insert_member_accepted (s s2 : Store) (wid uid : uuid) (r : WorkspaceRole) (u : unit) :
  insert_workspace_member wid uid r s = inr (u, s2) ->
  s2 = after_member_insert s
         {| WorkspaceMember.id := next_uuid s;
            WorkspaceMember.workspace_id := wid;
            WorkspaceMember.user_id := uid;
            WorkspaceMember.role := r;
            WorkspaceMember.joined_at := now s |}.
Proof.
  unfold insert_workspace_member.
  destruct (memberships s wid uid); [|discriminate].
  destruct (_ && _); [|discriminate].
  intros H. inversion H. reflexivity.
Qed.

(** The three ways a call of [acceptInvitation] can go: the invitation is
    not fetched; it is fetched and the membership insert fails; the
    membership is inserted and the delete of the invitation is sent. *)
Lemma acceptInvitation_cases (b : Backend) (invitationId userId : uuid) :
  let run := workspaceService.acceptInvitation invitationId userId b in
  (exists e,
      fst run = {| workspaceService.ErrorResult.error := Some e |}
      /\ db (snd run) = db b
      /\ Response.error (fst (request (select_invitation invitationId) b)) = Some e)
  \/ (exists invitation e,
         filter (fun i => Nat.eqb (WorkspaceInvitation.id i) invitationId)
                (workspace_invitations (db b)) = [invitation]
         /\ fst run = {| workspaceService.ErrorResult.error := Some e |}
         /\ db (snd run) = db b)
  \/ (exists invitation,
         filter (fun i => Nat.eqb (WorkspaceInvitation.id i) invitationId)
                (workspace_invitations (db b)) = [invitation]
         /\ fst run = {| workspaceService.ErrorResult.error := None |}
         /\ db (snd run)
            = match nth 2 (faults b) None with
              | Some _ =>
                  after_member_insert (db b) (invited_membership (db b) invitation userId)
              | None =>
                  without_invitation invitationId
                    (after_member_insert (db b) (invited_membership (db b) invitation userId))
              end).
Proof.
  intros run. subst run.
  unfold workspaceService.acceptInvitation, bind, ret.
  destruct (request_cases (select_invitation invitationId) b)
    as [[e H]|[inv [s1 [Hstmt [_ H]]]]]; rewrite H; cbn [fst snd failure success
      Response.error Response.data].
  { left. exists e. repeat split; reflexivity. }
  apply select_invitation_found in Hstmt. destruct Hstmt as [Hs1 Hsel]. subst s1.
  right.
  set (b1 := {| db := db b; faults := tl (faults b) |}).
  destruct (request_cases
              (insert_workspace_member (WorkspaceInvitation.workspace_id inv) userId
                 (WorkspaceInvitation.role inv)) b1)
    as [[e H2]|[u [s2 [Hstmt2 [_ H2]]]]]; rewrite H2;
    cbn [fst snd failure success Response.error Response.data].
  - left. exists inv, e. split; [exact Hsel|split; reflexivity].
  - right. exists inv. split; [exact Hsel|].
    apply insert_member_accepted in Hstmt2. subst b1. cbn [db faults] in *. subst s2.
    fold (invited_membership (db b) inv userId).
    set (b2 := {| db := after_member_insert (db b) (invited_membership (db b) inv userId);
                  faults := tl (tl (faults b)) |}).
    assert (Hnth : hd None (faults b2) = nth 2 (faults b) None).
    { subst b2. cbn [faults]. destruct (faults b) as [|? [|? [|? ?]]]; reflexivity. }
    destruct (nth 2 (faults b) None) as [e3|] eqn:E3.
    + destruct (faults b2) as [|[e'|] rest] eqn:Ef; cbn in Hnth; try discriminate.
      rewrite (request_faulted _ b2 e' rest Ef). split; reflexivity.
    + rewrite (request_run _ b2 Hnth). split; reflexivity.
Qed.

Lemma selected_invitation_In (s : Store) (invitationId : uuid)
      (invitation : WorkspaceInvitation.t) :
  filter (fun i => Nat.eqb (WorkspaceInvitation.id i) invitationId)
         (workspace_invitations s) = [invitation] ->
  In invitation (workspace_invitations s)
  /\ WorkspaceInvitation.id invitation = invitationId.
Proof.
  intros H.
  assert (Hin : In invitation
                   (filter (fun i => Nat.eqb (WorkspaceInvitation.id i) invitationId)
                           (workspace_invitations s))).
  { rewrite H. left. reflexivity. }
  apply filter_In in Hin. destruct Hin as [Hin Hid].
  apply Nat.eqb_eq in Hid. auto.
Qed.

(** C10. [acceptInvitation(invitationId, userId)], under any script of
    forced failures. A run that returns no error has inserted the
    membership row of the user with the workspace and the role stored on
    the invitation of that id (the caller supplies the user only), and no
    run adds any other row. For the pending invitation of that id, a known
    user who is not yet a member of its workspace, and the fetch and the
    insert not made to fail, the run does return no error and inserts that
    row, and the delete that follows removes the invitation unless it is
    made to fail. The invitation table changes only in a run that returned
    no error and added the membership. Whenever the membership insert
    answers with an error, that error is returned, the store is as before
    and the invitation row is still there. *)
Theorem acceptInvitation_role_of_invitation_delete_after_insert
        (b : Backend) (invitationId userId : uuid)
        (r : workspaceService.ErrorResult.t) (b' : Backend) :
  workspaceService.acceptInvitation invitationId userId b = (r, b') ->
  (workspace_members (db b') = workspace_members (db b)
   \/ exists invitation m,
        In invitation (workspace_invitations (db b))
        /\ WorkspaceInvitation.id invitation = invitationId
        /\ workspace_members (db b') = workspace_members (db b) ++ [m]
        /\ WorkspaceMember.role m = WorkspaceInvitation.role invitation
        /\ WorkspaceMember.workspace_id m = WorkspaceInvitation.workspace_id invitation
        /\ WorkspaceMember.user_id m = userId)
  /\ (workspace_invitations (db b') <> workspace_invitations (db b) ->
      workspaceService.ErrorResult.error r = None
      /\ exists m, workspace_members (db b') = workspace_members (db b) ++ [m])
  /\ (forall invitation e,
         Response.data (fst (request (select_invitation invitationId) b)) = Some invitation ->
         Response.error
           (fst (request
                   (insert_workspace_member
                      (WorkspaceInvitation.workspace_id invitation) userId
                      (WorkspaceInvitation.role invitation))
                   (snd (request (select_invitation invitationId) b)))) = Some e ->
         r = {| workspaceService.ErrorResult.error := Some e |}
         /\ db b' = db b
         /\ In invitation (workspace_invitations (db b')))
  /\ (workspaceService.ErrorResult.error r = None ->
      exists invitation,
        In invitation (workspace_invitations (db b))
        /\ WorkspaceInvitation.id invitation = invitationId
        /\ workspace_members (db b')
           = workspace_members (db b) ++ [invited_membership (db b) invitation userId])
  /\ (forall invitation,
         filter (fun i => Nat.eqb (WorkspaceInvitation.id i) invitationId)
                (workspace_invitations (db b)) = [invitation] ->
         memberships (db b) (WorkspaceInvitation.workspace_id invitation) userId = [] ->
         has_workspace (db b) (WorkspaceInvitation.workspace_id invitation) = true ->
         references_auth_user (db b) (Some userId) = true ->
         hd None (faults b) = None ->
         hd None (tl (faults b)) = None ->
         r = {| workspaceService.ErrorResult.error := None |}
         /\ workspace_members (db b')
            = workspace_members (db b) ++ [invited_membership (db b) invitation userId]
         /\ WorkspaceMember.role (invited_membership (db b) invitation userId)
            = WorkspaceInvitation.role invitation
         /\ (hd None (tl (tl (faults b))) = None ->
             workspace_invitations (db b')
             = filter (fun i => negb (Nat.eqb (WorkspaceInvitation.id i) invitationId))
                      (workspace_invitations (db b)))
         /\ (hd None (tl (tl (faults b))) <> None ->
             workspace_invitations (db b') = workspace_invitations (db b))).
Proof.
  intros Hrun.
  pose proof (acceptInvitation_cases b invitationId userId) as Hc.
  cbv zeta in Hc. rewrite Hrun in Hc. cbn [fst snd] in Hc.
  split; [|split; [|split; [|split]]].
  4:{ intros Hnone.
      destruct Hc as [[e [Hr _]]|[[inv [e [_ [Hr _]]]]|[inv [Hsel [_ Hdb]]]]];
        try (rewrite Hr in Hnone; discriminate Hnone).
      exists inv. destruct (selected_invitation_In _ _ _ Hsel) as [Hin Hid].
      split; [exact Hin|]. split; [exact Hid|].
      rewrite Hdb. destruct (nth 2 (faults b) None); reflexivity. }
  4:{ intros inv Hsel Hmem Hws Href H1 H2. clear Hc.
      unfold workspaceService.acceptInvitation, bind, ret in Hrun.
      rewrite request_run in Hrun by exact H1.
      unfold select_invitation in Hrun. rewrite Hsel in Hrun.
      cbn [single success Response.error Response.data fst snd db faults] in Hrun.
      rewrite request_run in Hrun by exact H2.
      unfold insert_workspace_member in Hrun. cbn [db] in Hrun.
      rewrite Hmem, Hws, Href in Hrun.
      cbn [andb success Response.error Response.data fst snd db faults] in Hrun.
      fold (invited_membership (db b) inv userId) in Hrun.
      destruct (hd None (tl (tl (faults b)))) as [e3|] eqn:H3.
      - destruct (tl (tl (faults b))) as [|[e|] rest3] eqn:E3; cbn in H3;
          try discriminate H3.
        rewrite (request_faulted _ _ e rest3) in Hrun by reflexivity.
        inversion Hrun. cbn.
        split; [reflexivity|]. split; [reflexivity|]. split; [reflexivity|].
        split; [intros Hx; discriminate Hx|reflexivity].
      - rewrite request_run in Hrun by exact H3.
        unfold delete_invitation in Hrun. inversion Hrun. cbn.
        split; [reflexivity|]. split; [reflexivity|]. split; [reflexivity|].
        split; [reflexivity|]. intros Hx. contradiction Hx. reflexivity. }
  - destruct Hc as [[e [_ [Hdb _]]]|[[inv [e [_ [_ Hdb]]]]|[inv [Hsel [_ Hdb]]]]].
    + left. rewrite Hdb. reflexivity.
    + left. rewrite Hdb. reflexivity.
    + right. exists inv, (invited_membership (db b) inv userId).
      destruct (selected_invitation_In _ _ _ Hsel) as [Hin Hid].
      split; [exact Hin|]. split; [exact Hid|].
      split; [|repeat split].
      rewrite Hdb. destruct (nth 2 (faults b) None); reflexivity.
  - intros Hne.
    destruct Hc as [[e [_ [Hdb _]]]|[[inv [e [_ [_ Hdb]]]]|[inv [_ [Hr Hdb]]]]];
      try (exfalso; apply Hne; rewrite Hdb; reflexivity).
    split; [rewrite Hr; reflexivity|].
    exists (invited_membership (db b) inv userId).
    rewrite Hdb. destruct (nth 2 (faults b) None); reflexivity.
  - intros inv e Hdata Herr.
    apply request_data in Hdata. destruct Hdata as [s1 [Hstmt Hreq]].
    apply select_invitation_found in Hstmt. destruct Hstmt as [Hs1 Hsel]. subst s1.
    rewrite Hreq in Herr. cbn [snd] in Herr.
    apply request_error in Herr.
    unfold workspaceService.acceptInvitation, bind, ret in Hrun.
    rewrite Hreq in Hrun. cbn [success Response.error Response.data] in Hrun.
    rewrite Herr in Hrun. cbn [failure Response.error] in Hrun.
    inversion Hrun. cbn [db].
    split; [reflexivity|]. split; [reflexivity|].
    apply (selected_invitation_In _ _ _ Hsel).
Qed.

Lemma acceptInvitation_insert_denied_at_Acme :
  (fst (workspaceService.acceptInvitation 12 2 (Acme.backend [None; Some Acme.denied]))
   = {| workspaceService.ErrorResult.error := Some Acme.denied |}
   /\ db (snd (workspaceService.acceptInvitation 12 2
                 (Acme.backend [None; Some Acme.denied])))
      = db (Acme.backend [None; Some Acme.denied])
   /\ In Acme.invitation_row
         (workspace_invitations
            (db (snd (workspaceService.acceptInvitation 12 2
                        (Acme.backend [None; Some Acme.denied]))))))
  /\ (fst (workspaceService.acceptInvitation 12 2 (Acme.backend []))
      = {| workspaceService.ErrorResult.error := None |}
      /\ workspace_members (db (snd (workspaceService.acceptInvitation 12 2 (Acme.backend []))))
         = [Acme.admin_row; invited_membership Acme.store Acme.invitation_row 2]
      /\ WorkspaceMember.role (invited_membership Acme.store Acme.invitation_row 2)
         = WorkspaceInvitation.role Acme.invitation_row
      /\ workspace_invitations
           (db (snd (workspaceService.acceptInvitation 12 2 (Acme.backend [])))) = []).
Proof.
  split.
  - exact (proj1 (proj2 (proj2
             (acceptInvitation_role_of_invitation_delete_after_insert
                (Acme.backend [None; Some Acme.denied]) 12 2
                (fst (workspaceService.acceptInvitation 12 2
                        (Acme.backend [None; Some Acme.denied])))
                (snd (workspaceService.acceptInvitation 12 2
                        (Acme.backend [None; Some Acme.denied])))
                eq_refl)))
             Acme.invitation_row Acme.denied eq_refl eq_refl).
  - pose proof (proj2 (proj2 (proj2 (proj2
                  (acceptInvitation_role_of_invitation_delete_after_insert
                     (Acme.backend []) 12 2
                     (fst (workspaceService.acceptInvitation 12 2 (Acme.backend [])))
                     (snd (workspaceService.acceptInvitation 12 2 (Acme.backend [])))
                     eq_refl))))
                  Acme.invitation_row eq_refl eq_refl eq_refl eq_refl eq_refl eq_refl) as H.
    split; [exact (proj1 H)|]. split; [exact (proj1 (proj2 H))|].
    split; [exact (proj1 (proj2 (proj2 H)))|].
    exact (proj1 (proj2 (proj2 (proj2 H))) eq_refl).
Defined.

Lemma acceptInvitation_accepts_expired :
  WorkspaceInvitation.expires_at Acme.invitation_row < now Acme.store
  /\ workspaceService.ErrorResult.error
       (fst (workspaceService.acceptInvitation 12 2 (Acme.backend []))) = None
  /\ workspace_members (db (snd (workspaceService.acceptInvitation 12 2 (Acme.backend []))))
     = [ Acme.admin_row;
         {| WorkspaceMember.id := 20; WorkspaceMember.workspace_id := 10;
            WorkspaceMember.user_id := 2; WorkspaceMember.role := member;
            WorkspaceMember.joined_at := 1000 |} ]
  /\ ~ expired_invitation_refused (Acme.backend []) 12 2.
Proof.
  split; [reflexivity|]. split; [reflexivity|]. split; [reflexivity|].
  intros H.
  destruct (H Acme.invitation_row (or_introl eq_refl) eq_refl eq_refl) as [He _].
  discriminate He.
Qed.

(** C3 (as the code has it). [acceptInvitation] never reads [expires_at]
    or the clock. For the invitation with the given id, whatever its
    [expires_at] (earlier than the current time included), when the user
    is known, is not yet a member of the invitation's workspace, and none
    of the three calls is made to fail: the membership row with the
    invitation's role is inserted, the invitation is deleted, and no error
    is returned. *)
Theorem acceptInvitation_does_not_check_expiry
        (b : Backend) (invitationId userId : uuid) (invitation : WorkspaceInvitation.t) :
  filter (fun i => Nat.eqb (WorkspaceInvitation.id i) invitationId)
         (workspace_invitations (db b)) = [invitation] ->
  memberships (db b) (WorkspaceInvitation.workspace_id invitation) userId = [] ->
  has_workspace (db b) (WorkspaceInvitation.workspace_id invitation) = true ->
  references_auth_user (db b) (Some userId) = true ->
  hd None (faults b) = None ->
  hd None (tl (faults b)) = None ->
  hd None (tl (tl (faults b))) = None ->
  workspaceService.acceptInvitation invitationId userId b
  = ({| workspaceService.ErrorResult.error := None |},
     {| db := without_invitation invitationId
                (after_member_insert (db b) (invited_membership (db b) invitation userId));
        faults := tl (tl (tl (faults b))) |}).
Proof.
  intros Hsel Hmem Hws Href H1 H2 H3.
  unfold workspaceService.acceptInvitation, bind, ret.
  rewrite request_run by exact H1.
  unfold select_invitation. rewrite Hsel.
  cbn [single success Response.error Response.data].
  rewrite request_run by exact H2. cbn [db faults].
  unfold insert_workspace_member. rewrite Hmem, Hws, Href.
  cbn [andb success Response.error Response.data].
  rewrite request_run by exact H3. reflexivity.
Qed.

Lemma acceptInvitation_expired_at_Acme :
  workspaceService.acceptInvitation 12 2 (Acme.backend [])
  = ({| workspaceService.ErrorResult.error := None |},
     {| db := without_invitation 12
                (after_member_insert Acme.store
                   (invited_membership Acme.store Acme.invitation_row 2));
        faults := [] |}).
Proof.
  exact (acceptInvitation_does_not_check_expiry (Acme.backend []) 12 2 Acme.invitation_row
           eq_refl eq_refl eq_refl eq_refl eq_refl eq_refl eq_refl).
Defined.

(** ** Deleting a supplier *)

Lemma deleteSupplier_touches_updated_at :
  fst (supplierService.deleteSupplier 13 (Acme.backend [])) = Resolved tt
  /\ InventoryItem.updated_at Acme.widget = 100
  /\ map InventoryItem.updated_at
         (inventory_items (db (snd (supplierService.deleteSupplier 13 (Acme.backend [])))))
     = [1000]
  /\ ~ detached_otherwise_unchanged (Acme.backend []) 13.
Proof.
  split; [reflexivity|]. split; [reflexivity|]. split; [reflexivity|].
  intros H. specialize (H Acme.widget (or_introl eq_refl) eq_refl).
  cbn in H. destruct H as [H|[]]. discriminate H.
Qed.

Lemma set_supplier_null_is (t : timestamp) (i : InventoryItem.t) :
  InventoryItem.supplier_id (set_supplier_null t i) = None
  /\ InventoryItem.updated_at (set_supplier_null t i) = t
  /\ InventoryItem.id (set_supplier_null t i) = InventoryItem.id i
  /\ InventoryItem.workspace_id (set_supplier_null t i) = InventoryItem.workspace_id i
  /\ InventoryItem.name (set_supplier_null t i) = InventoryItem.name i
  /\ InventoryItem.sku (set_supplier_null t i) = InventoryItem.sku i
  /\ InventoryItem.description (set_supplier_null t i) = InventoryItem.description i
  /\ InventoryItem.quantity (set_supplier_null t i) = InventoryItem.quantity i
  /\ InventoryItem.min_quantity (set_supplier_null t i) = InventoryItem.min_quantity i
  /\ InventoryItem.unit_price (set_supplier_null t i) = InventoryItem.unit_price i
  /\ InventoryItem.created_at (set_supplier_null t i) = InventoryItem.created_at i.
Proof. repeat split. Qed.

Lemma deleted_supplier_gone (l : list Supplier.t) (sid : uuid) :
  existsb (fun x => Nat.eqb (Supplier.id x) sid)
          (filter (fun x => negb (Nat.eqb (Supplier.id x) sid)) l) = false.
Proof.
  apply existsb_none. apply forallb_forall. intros x Hx.
  apply filter_In in Hx. apply Hx.
Qed.

(** C6 (as the schema has it). Deleting a supplier that exists, the call
    not being made to fail. If no purchase order refers to it, the delete
    succeeds, the supplier row is gone, every inventory item that referred
    to it is still there with [supplier_id] null and, the detaching being
    an update of the row, [updated_at] set to the current time by the
    table's update trigger, every other field as it was; the other items
    are untouched. If a purchase order refers to it, the delete is
    rejected with the store's foreign-key violation, a conflict in the
    specification's taxonomy, and the store is as before: the supplier row
    remains and no item is detached. *)
Theorem deleteSupplier_detaches_items_or_is_blocked (b : Backend) (supplierId : uuid) :
  hd None (faults b) = None ->
  has_supplier (db b) supplierId = true ->
  let run := supplierService.deleteSupplier supplierId b in
  (supplier_in_use (db b) (Nat.eqb supplierId) = false ->
   fst run = Resolved tt
   /\ has_supplier (db (snd run)) supplierId = false
   /\ inventory_items (db (snd run))
      = map (fun item =>
               match InventoryItem.supplier_id item with
               | Some sid =>
                   if Nat.eqb supplierId sid
                   then set_supplier_null (now (db b)) item
                   else item
               | None => item
               end)
            (inventory_items (db b))
   /\ (forall item,
          In item (inventory_items (db b)) ->
          InventoryItem.supplier_id item = Some supplierId ->
          exists item',
            In item' (inventory_items (db (snd run)))
            /\ InventoryItem.supplier_id item' = None
            /\ InventoryItem.updated_at item' = now (db b)
            /\ InventoryItem.id item' = InventoryItem.id item
            /\ InventoryItem.workspace_id item' = InventoryItem.workspace_id item
            /\ InventoryItem.name item' = InventoryItem.name item
            /\ InventoryItem.sku item' = InventoryItem.sku item
            /\ InventoryItem.description item' = InventoryItem.description item
            /\ InventoryItem.quantity item' = InventoryItem.quantity item
            /\ InventoryItem.min_quantity item' = InventoryItem.min_quantity item
            /\ InventoryItem.unit_price item' = InventoryItem.unit_price item
            /\ InventoryItem.created_at item' = InventoryItem.created_at item)
   /\ (forall item,
          In item (inventory_items (db b)) ->
          InventoryItem.supplier_id item <> Some supplierId ->
          In item (inventory_items (db (snd run)))))
  /\ (supplier_in_use (db b) (Nat.eqb supplierId) = true ->
      fst run = Rejected (PostgrestError foreign_key_violation)
      /\ category (PostgrestError foreign_key_violation) = Some ConflictError
      /\ db (snd run) = db b
      /\ suppliers (db (snd run)) = suppliers (db b)).
Proof.
  intros Hscript Hsup run. subst run.
  unfold supplierService.deleteSupplier, bind, ret.
  rewrite request_run by exact Hscript.
  unfold delete_supplier. rewrite Hsup.
  split; intros Huse; rewrite Huse; cbn.
  - split; [reflexivity|]. split; [apply deleted_supplier_gone|].
    split; [reflexivity|]. split.
    + intros item Hin Hsid.
      exists (set_supplier_null (now (db b)) item). split.
      * apply in_map_iff. exists item. split; [|exact Hin].
        unfold on_supplier_delete. rewrite Hsid, Nat.eqb_refl. reflexivity.
      * apply set_supplier_null_is.
    + intros item Hin Hsid.
      apply in_map_iff. exists item. split; [|exact Hin].
      unfold on_supplier_delete.
      destruct (InventoryItem.supplier_id item) as [sid|]; [|reflexivity].
      destruct (Nat.eqb_spec supplierId sid); [subst; contradiction|reflexivity].
  - repeat split.
Qed.

(** ** createReorderPurchaseOrder *)

Lemma insert_item_accepted (s s1 : Store)
      (itemData : purchaseOrderService.CreatePurchaseOrderItemData)
      (row : PurchaseOrderItem.t) :
  purchaseOrderService.insert_purchase_order_item itemData s = inr (row, s1) ->
  s1 = with_next_uuid (S (next_uuid s))
         (with_purchase_order_items (purchase_order_items s ++ [row]) s)
  /\ PurchaseOrderItem.purchase_order_id row = purchaseOrderService.purchase_order_id itemData
  /\ PurchaseOrderItem.inventory_item_id row = purchaseOrderService.inventory_item_id itemData
  /\ PurchaseOrderItem.item_name row = purchaseOrderService.item_name itemData
  /\ PurchaseOrderItem.quantity row = purchaseOrderService.quantity itemData
  /\ decimal_10_2_opt (purchaseOrderService.unit_price itemData)
     = inr (PurchaseOrderItem.unit_price row).
Proof.
  unfold purchaseOrderService.insert_purchase_order_item,
    purchaseOrderService.purchase_order_item_row.
  destruct (int4 _); [|discriminate].
  destruct (decimal_10_2_opt _) as [e|price]; [discriminate|].
  destruct (_ && _); [|discriminate].
  intros H. inversion H. subst. cbn. repeat split.
Qed.

(** The loop adds the lines of a prefix of [items], in order, and stops at
    the first insert that fails. *)
Lemma add_items_prefix (o : PurchaseOrder.t) (items : list purchaseOrderService.ReorderItem) :
  forall b : Backend,
    let run := purchaseOrderService.add_items (Some o) items b in
    exists (k : nat) (added : list PurchaseOrderItem.t),
      (k <= List.length items)%nat
      /\ Forall2 (line_of o) (firstn k items) added
      /\ purchase_order_items (db (snd run)) = purchase_order_items (db b) ++ added
      /\ purchase_orders (db (snd run)) = purchase_orders (db b)
      /\ ((fst run = Resolved tt /\ k = List.length items)
          \/ (exists e, fst run = Rejected e /\ (k < List.length items)%nat)).
Proof.
  induction items as [|item rest IH]; intros b run; subst run.
  - exists 0%nat, []. cbn. rewrite app_nil_r.
    repeat split; [lia|constructor|]. left. split; reflexivity.
  - cbn [purchaseOrderService.add_items].
    unfold purchaseOrderService.addPurchaseOrderItem, bind, ret.
    match goal with
    | |- context [request ?stmt b] =>
        destruct (request_cases stmt b) as [[e H]|[row [s1 [Hstmt [_ H]]]]]; rewrite H
    end.
    + exists 0%nat, []. cbn. rewrite app_nil_r.
      repeat split; [lia|constructor|]. right. exists e. split; [reflexivity|lia].
    + apply insert_item_accepted in Hstmt.
      destruct Hstmt as [Hs1 [Hpo [Hinv [Hname [Hq Hprice]]]]]. subst s1.
      cbn [purchaseOrderService.throw_or_data success Response.error Response.data].
      match goal with
      | |- context [purchaseOrderService.add_items (Some o) rest ?b1] =>
          specialize (IH b1); cbv zeta in IH;
          destruct IH as [k [added [Hk [Hlines [Hitems [Horders Hres]]]]]]
      end.
      exists (S k), (row :: added).
      split; [cbn; lia|].
      split; [cbn; constructor; [repeat split; assumption|exact Hlines]|].
      split; [rewrite Hitems; cbn; rewrite <- app_assoc; reflexivity|].
      split; [rewrite Horders; reflexivity|].
      destruct Hres as [[Hr Hlen]|[e [Hr Hlen]]].
      * left. split; [exact Hr|cbn; lia].
      * right. exists e. split; [exact Hr|cbn; lia].
Qed.

Lemma insert_order_accepted (s s1 : Store)
      (orderData : purchaseOrderService.CreatePurchaseOrderData) (o : PurchaseOrder.t) :
  purchaseOrderService.insert_purchase_order orderData s = inr (o, s1) ->
  o = purchaseOrderService.purchase_order_row s orderData
  /\ s1 = with_next_uuid (S (next_uuid s))
            (with_purchase_orders (purchase_orders s ++ [o]) s).
Proof.
  unfold purchaseOrderService.insert_purchase_order.
  destruct (_ && _); [|discriminate].
  intros H. inversion H. split; reflexivity.
Qed.

Lemma insert_line_decided (o : PurchaseOrder.t) (s0 s : Store)
      (item : purchaseOrderService.ReorderItem) :
  has_purchase_order s (PurchaseOrder.id o) = true ->
  inventory_items s = inventory_items s0 ->
  let itemData :=
    {| purchaseOrderService.purchase_order_id := PurchaseOrder.id o;
       purchaseOrderService.inventory_item_id :=
         purchaseOrderService.reorder_inventory_item_id item;
       purchaseOrderService.item_name := purchaseOrderService.reorder_item_name item;
       purchaseOrderService.quantity := purchaseOrderService.reorder_quantity item;
       purchaseOrderService.unit_price := purchaseOrderService.reorder_unit_price item |} in
  if line_fits s0 item then
    exists row s1, purchaseOrderService.insert_purchase_order_item itemData s = inr (row, s1)
  else
    exists e, purchaseOrderService.insert_purchase_order_item itemData s = inl e.
Proof.
  intros Ho Hinv itemData. subst itemData.
  unfold line_fits, purchaseOrderService.insert_purchase_order_item,
    purchaseOrderService.purchase_order_item_row.
  cbn [purchaseOrderService.purchase_order_id purchaseOrderService.inventory_item_id
       purchaseOrderService.item_name purchaseOrderService.quantity
       purchaseOrderService.unit_price].
  rewrite Ho.
  destruct (int4 (purchaseOrderService.reorder_quantity item)); cbn [andb];
    [|eexists; reflexivity].
  destruct (decimal_10_2_opt (purchaseOrderService.reorder_unit_price item)) as [e|price];
    cbn [andb]; [eexists; reflexivity|].
  assert (Hsame : match purchaseOrderService.reorder_inventory_item_id item with
                  | Some iid => has_inventory_item s iid
                  | None => true
                  end
                  = match purchaseOrderService.reorder_inventory_item_id item with
                    | Some iid => has_inventory_item s0 iid
                    | None => true
                    end).
  { destruct (purchaseOrderService.reorder_inventory_item_id item); [|reflexivity].
    unfold has_inventory_item. rewrite Hinv. reflexivity. }
  rewrite Hsame.
  destruct (match purchaseOrderService.reorder_inventory_item_id item with
            | Some iid => has_inventory_item s0 iid
            | None => true
            end); [do 2 eexists|eexists]; reflexivity.
Qed.

(** The loop of [createReorderPurchaseOrder], exactly: the lines of the
    first [lines_added] elements are stored, in order, and the loop ended
    well when that is all of them. *)
Lemma add_items_counted (o : PurchaseOrder.t) (s0 : Store)
      (items : list purchaseOrderService.ReorderItem) :
  forall b : Backend,
    has_purchase_order (db b) (PurchaseOrder.id o) = true ->
    inventory_items (db b) = inventory_items s0 ->
    let run := purchaseOrderService.add_items (Some o) items b in
    let k := lines_added s0 (faults b) items in
    exists added : list PurchaseOrderItem.t,
      Forall2 (line_of o) (firstn k items) added
      /\ purchase_order_items (db (snd run)) = purchase_order_items (db b) ++ added
      /\ purchase_orders (db (snd run)) = purchase_orders (db b)
      /\ (k = List.length items -> fst run = Resolved tt)
      /\ ((k < List.length items)%nat -> exists e, fst run = Rejected e).
Proof.
  induction items as [|item rest IH]; intros b Ho Hinv run k; subst run k.
  - exists []. cbn. rewrite app_nil_r.
    split; [constructor|]. split; [reflexivity|]. split; [reflexivity|].
    split; [reflexivity|]. lia.
  - cbn [purchaseOrderService.add_items lines_added].
    unfold purchaseOrderService.addPurchaseOrderItem, bind, ret.
    pose proof (insert_line_decided o s0 (db b) item Ho Hinv) as Hline.
    cbv zeta in Hline.
    destruct (hd None (faults b)) as [e|] eqn:Ehd.
    { destruct (faults b) as [|[e0|] script] eqn:Ef; cbn in Ehd; try discriminate Ehd.
      rewrite (request_faulted _ _ e0 script Ef).
      exists []. cbn. rewrite app_nil_r.
      split; [constructor|]. split; [reflexivity|]. split; [reflexivity|].
      split; [discriminate|]. intros _. exists e0. reflexivity. }
    rewrite request_run by exact Ehd.
    destruct (line_fits s0 item).
    2:{ destruct Hline as [e He]. rewrite He.
        exists []. cbn. rewrite app_nil_r.
        split; [constructor|]. split; [reflexivity|]. split; [reflexivity|].
        split; [discriminate|]. intros _. exists e. reflexivity. }
    destruct Hline as [row [s1 Hrow]]. rewrite Hrow.
    cbn [purchaseOrderService.throw_or_data success Response.error Response.data].
    apply insert_item_accepted in Hrow.
    destruct Hrow as [Hs1 [Hpo [Hitem [Hname [Hq Hprice]]]]].
    destruct (IH {| db := s1; faults := tl (faults b) |})
      as [added [Hlines [Hitems [Horders [Hall Hpart]]]]].
    { subst s1. cbn. exact Ho. }
    { subst s1. cbn. exact Hinv. }
    cbn [faults tl db] in *.
    exists (row :: added).
    split; [cbn; constructor; [repeat split; assumption|exact Hlines]|].
    split; [rewrite Hitems; subst s1; cbn; rewrite <- app_assoc; reflexivity|].
    split; [rewrite Horders; subst s1; reflexivity|].
    split; [intros Hk; apply Hall; cbn in Hk; lia|].
    intros Hk. apply Hpart. cbn in Hk. lia.
Qed.

(** C4. [createReorderPurchaseOrder(workspaceId, supplierId, items,
    userId)], under any script of forced failures. When the order insert
    is made to fail or the store refuses it, the promise is rejected and
    the store is as before: no line is sent before the order exists. When
    the order insert goes through, an order row with status draft and
    [created_by = userId] is added first, then the lines of the first [k]
    elements of [items], one per element and in the order of the array,
    where [k] counts the elements up to the first line insert that is made
    to fail or refused. When no line insert fails, [k] is the length of
    [items]: every element has its line and the order is returned. When
    one fails partway, the promise is rejected while the order row and the
    [k] lines already inserted stay in the store: nothing is undone. *)
Theorem createReorderPurchaseOrder_appends_in_order_without_rollback
        (b : Backend) (workspaceId supplierId : uuid)
        (items : list purchaseOrderService.ReorderItem) (userId : option uuid) :
  let run := purchaseOrderService.createReorderPurchaseOrder
               workspaceId supplierId items userId b in
  let o := purchaseOrderService.purchase_order_row (db b)
             {| purchaseOrderService.workspace_id := workspaceId;
                purchaseOrderService.supplier_id := supplierId;
                purchaseOrderService.status := Some draft;
                purchaseOrderService.notes := None;
                purchaseOrderService.order_date := None;
                purchaseOrderService.expected_date := None;
                purchaseOrderService.created_by := userId |} in
  let k := lines_added (db b) (tl (faults b)) items in
  (hd None (faults b) <> None \/ order_accepted (db b) workspaceId supplierId userId = false ->
   (exists e, fst run = Rejected e) /\ db (snd run) = db b)
  /\ (hd None (faults b) = None ->
      order_accepted (db b) workspaceId supplierId userId = true ->
      PurchaseOrder.status o = draft
      /\ PurchaseOrder.created_by o = userId
      /\ PurchaseOrder.workspace_id o = workspaceId
      /\ PurchaseOrder.supplier_id o = supplierId
      /\ purchase_orders (db (snd run)) = purchase_orders (db b) ++ [o]
      /\ (exists added : list PurchaseOrderItem.t,
             Forall2 (line_of o) (firstn k items) added
             /\ purchase_order_items (db (snd run)) = purchase_order_items (db b) ++ added)
      /\ (k = List.length items -> fst run = Resolved (Some o))
      /\ ((k < List.length items)%nat -> exists e, fst run = Rejected e))
  /\ (k <= List.length items)%nat
  /\ (forallb (line_fits (db b)) items = true ->
      forallb (fun fault => match fault with Some _ => false | None => true end)
              (firstn (List.length items) (tl (faults b))) = true ->
      k = List.length items).
Proof.
  intros run o k.
  assert (Hle : forall s script l, (lines_added s script l <= List.length l)%nat).
  { intros s script l. revert script.
    induction l as [|x l IH]; intros script; cbn; [lia|].
    destruct (hd None script); [lia|]. destruct (line_fits s x); [|lia].
    specialize (IH (tl script)). lia. }
  assert (Hall : forall s l script,
             forallb (line_fits s) l = true ->
             forallb (fun fault => match fault with Some _ => false | None => true end)
                     (firstn (List.length l) script) = true ->
             lines_added s script l = List.length l).
  { intros s l. induction l as [|x l IH]; intros script Hfit Hscript; cbn in *; [reflexivity|].
    apply andb_true_iff in Hfit. destruct Hfit as [Hx Hl]. rewrite Hx.
    destruct script as [|[e|] script]; cbn in *.
    - rewrite (IH [] Hl); [reflexivity|]. destruct l; reflexivity.
    - discriminate Hscript.
    - rewrite (IH script Hl Hscript). reflexivity. }
  split; [|split; [|split; [apply Hle|apply Hall]]].
  - intros Hfail. subst run.
    unfold purchaseOrderService.createReorderPurchaseOrder,
      purchaseOrderService.createPurchaseOrder, bind, ret.
    match goal with
    | |- context [request ?stmt b] =>
        destruct (request_cases stmt b) as [[e H]|[o' [s1 [Hstmt [Hhd H]]]]]; rewrite H
    end.
    + cbn. split; [exists e; reflexivity|reflexivity].
    + exfalso. destruct Hfail as [Hforced|Hrefused]; [exact (Hforced Hhd)|].
      unfold purchaseOrderService.insert_purchase_order in Hstmt.
      unfold order_accepted in Hrefused.
      cbn [purchaseOrderService.workspace_id purchaseOrderService.supplier_id
           purchaseOrderService.created_by] in Hstmt.
      rewrite Hrefused in Hstmt. discriminate Hstmt.
  - intros Hhd Hacc. subst run.
    unfold purchaseOrderService.createReorderPurchaseOrder,
      purchaseOrderService.createPurchaseOrder, bind, ret.
    rewrite request_run by exact Hhd.
    unfold purchaseOrderService.insert_purchase_order.
    unfold order_accepted in Hacc.
    cbn [purchaseOrderService.workspace_id purchaseOrderService.supplier_id
         purchaseOrderService.created_by].
    rewrite Hacc. fold o.
    cbn [purchaseOrderService.throw_or_data success Response.error Response.data].
    match goal with
    | |- context [purchaseOrderService.add_items (Some o) items ?b1] =>
        destruct (add_items_counted o (db b) items b1)
          as [added [Hlines [Hitems [Horders [Hfull Hpart]]]]];
        [cbn; unfold has_purchase_order; cbn; rewrite existsb_app; cbn;
         rewrite Nat.eqb_refl; apply orb_true_r
        |reflexivity|];
        destruct (purchaseOrderService.add_items (Some o) items b1) as [added_result b2]
    end.
    cbn [fst snd db faults] in *. fold k in Hlines, Hfull, Hpart.
    split; [reflexivity|]. split; [reflexivity|]. split; [reflexivity|].
    split; [reflexivity|].
    assert (Hdb : forall (X : Type) (f : Store -> X),
               f (db (snd (match added_result with
                           | Resolved _ =>
                               (Resolved (Some o) : Promise (option PurchaseOrder.t), b2)
                           | Rejected e => (Rejected e, b2)
                           end))) = f (db b2))
      by (intros; destruct added_result; reflexivity).
    split.
    { destruct added_result; cbn [snd]; exact Horders. }
    split.
    { exists added. split; [exact Hlines|].
      destruct added_result; cbn [snd]; exact Hitems. }
    split.
    { intros Hk. rewrite (Hfull Hk). reflexivity. }
    intros Hk. destruct (Hpart Hk) as [e He]. rewrite He. exists e. reflexivity.
Qed.

(** ** The order total *)





(** ** Runs on the small store *)

Lemma getUserRole_of_stranger_at_Acme :
  workspaceService.RoleResult.role
    (fst (workspaceService.getUserRole 10 2 (Acme.backend []))) = None
  /\ WorkspaceContext.isAdmin
       (workspaceService.RoleResult.role
          (fst (workspaceService.getUserRole 10 2 (Acme.backend [])))) = false.
Proof.
  exact (conj (proj1 (getUserRole_absent_denies (Acme.backend []) 10 2 eq_refl))
              (proj1 (proj2 (getUserRole_absent_denies (Acme.backend []) 10 2 eq_refl)))).
Defined.

Example getUserRole_of_admin_at_Acme :
  workspaceService.RoleResult.role
    (fst (workspaceService.getUserRole 10 1 (Acme.backend []))) = Some admin.
Proof. reflexivity. Qed.

Lemma deleteSupplier_at_Acme :
  (fst (supplierService.deleteSupplier 13 (Acme.backend [])) = Resolved tt
   /\ has_supplier (db (snd (supplierService.deleteSupplier 13 (Acme.backend [])))) 13 = false
   /\ inventory_items (db (snd (supplierService.deleteSupplier 13 (Acme.backend []))))
      = [set_supplier_null 1000 Acme.widget])
  /\ (fst (supplierService.deleteSupplier 13 (Acme.reordered [])) = Rejected (PostgrestError foreign_key_violation)
      /\ category (PostgrestError foreign_key_violation) = Some ConflictError
      /\ db (snd (supplierService.deleteSupplier 13 (Acme.reordered []))) = db (Acme.reordered [])
      /\ suppliers (db (snd (supplierService.deleteSupplier 13 (Acme.reordered []))))
         = [Acme.supplier_row]).
Proof.
  split.
  - pose proof (proj1 (deleteSupplier_detaches_items_or_is_blocked
                         (Acme.backend []) 13 eq_refl eq_refl) eq_refl) as H.
    exact (conj (proj1 H) (conj (proj1 (proj2 H)) (proj1 (proj2 (proj2 H))))).
  - exact (proj2 (deleteSupplier_detaches_items_or_is_blocked
                    (Acme.reordered []) 13 eq_refl eq_refl) eq_refl).
Defined.

(** The specification's example: one line, 5 Widgets at 2.50. *)
Example createReorderPurchaseOrder_widget :
  fst (purchaseOrderService.createReorderPurchaseOrder 10 13 [Acme.five_widgets]
         (Some 1%nat) (Acme.backend []))
  = Resolved (Some Acme.draft_order)
  /\ PurchaseOrder.status Acme.draft_order = draft
  /\ map PurchaseOrderItem.quantity
         (purchase_order_items
            (db (snd (purchaseOrderService.createReorderPurchaseOrder 10 13
                        [Acme.five_widgets] (Some 1%nat) (Acme.backend [])))))
     = [5].
Proof. repeat split. Qed.

(** A second line whose quantity does not fit the column: the first line
    and the order stay, the third line is never sent. *)
Example createReorderPurchaseOrder_partial :
  fst (purchaseOrderService.createReorderPurchaseOrder 10 13
         [Acme.five_widgets; Acme.too_many_nuts; Acme.five_widgets]
         (Some 1%nat) (Acme.backend []))
  = Rejected (PostgrestError numeric_value_out_of_range)
  /\ purchase_orders
       (db (snd (purchaseOrderService.createReorderPurchaseOrder 10 13
                   [Acme.five_widgets; Acme.too_many_nuts; Acme.five_widgets]
                   (Some 1%nat) (Acme.backend []))))
     = [Acme.draft_order]
  /\ map PurchaseOrderItem.item_name
         (purchase_order_items
            (db (snd (purchaseOrderService.createReorderPurchaseOrder 10 13
                        [Acme.five_widgets; Acme.too_many_nuts; Acme.five_widgets]
                        (Some 1%nat) (Acme.backend [])))))
     = ["Widget"%string].
Proof. repeat split. Qed.

(** * Further properties *)

(** ** One membership row per workspace and user *)

Lemma request_keeps {A} (P : Store -> Prop) (stmt : Store -> Err + (A * Store)) :
  (forall s s' a, stmt s = inr (a, s') -> P s -> P s') ->
  forall b, P (db b) -> P (db (snd (request stmt b))).
Proof.
  intros Hstmt b Hb.
  destruct (request_cases stmt b) as [[e H]|[a [s [Hs [_ H]]]]]; rewrite H; cbn.
  - exact Hb.
  - exact (Hstmt _ _ _ Hs Hb).
Qed.

Lemma filter_filter_length {A} (f g : A -> bool) (l : list A) :
  (List.length (filter f (filter g l)) <= List.length (filter f l))%nat.
Proof.
  induction l as [|x l IH]; cbn; [lia|].
  destruct (g x); cbn; destruct (f x); cbn; lia.
Qed.

Lemma filter_map_same_key {A} (f : A -> bool) (h : A -> A) (l : list A) :
  (forall x, f (h x) = f x) -> filter f (map h l) = map h (filter f l).
Proof.
  intros H. induction l as [|x l IH]; cbn; [reflexivity|].
  rewrite H. destruct (f x); cbn; rewrite IH; reflexivity.
Qed.

Lemma members_unique_same (s s' : Store) :
  workspace_members s' = workspace_members s -> members_unique s -> members_unique s'.
Proof.
  intros H Hu wid uid. unfold memberships. rewrite H. apply Hu.
Qed.

Lemma insert_workspace_keeps_unique (name : string) (cb : option uuid) (s s' : Store)
      (w : Workspace.t) :
  insert_workspace name cb s = inr (w, s') -> members_unique s -> members_unique s'.
Proof.
  unfold insert_workspace. destruct (references_auth_user s cb); [|discriminate].
  intros H. inversion H. apply members_unique_same. reflexivity.
Qed.

Lemma insert_member_keeps_unique (wid uid : uuid) (r : WorkspaceRole) (s s' : Store)
      (u : unit) :
  insert_workspace_member wid uid r s = inr (u, s') -> members_unique s -> members_unique s'.
Proof.
  intros H Hu. pose proof (insert_member_accepted _ _ _ _ _ _ H) as Hs'.
  unfold insert_workspace_member in H.
  destruct (memberships s wid uid) eqn:Hnone; [|discriminate]. clear H.
  subst s'. intros wid' uid'. unfold memberships in *. cbn.
  rewrite filter_app, length_app. cbn.
  destruct (Nat.eqb_spec wid wid') as [->|Hw]; cbn.
  - destruct (Nat.eqb_spec uid uid') as [->|Hu']; cbn.
    + rewrite Hnone. cbn. lia.
    + specialize (Hu wid' uid'). unfold memberships in Hu. lia.
  - specialize (Hu wid' uid'). unfold memberships in Hu. lia.
Qed.

Lemma delete_workspace_keeps_unique (wid : uuid) (s s' : Store) (u : unit) :
  delete_workspace wid s = inr (u, s') -> members_unique s -> members_unique s'.
Proof.
  unfold delete_workspace.
  destruct (has_workspace s wid).
  - destruct (supplier_in_use _ _); [discriminate|].
    intros H Hu. inversion H. intros w' u'. unfold memberships. cbn.
    eapply Nat.le_trans; [apply filter_filter_length|apply Hu].
  - intros H Hu. inversion H. subst. exact Hu.
Qed.

Lemma select_invitation_keeps (P : Store -> Prop) (invitationId : uuid) (s s' : Store)
      (i : WorkspaceInvitation.t) :
  select_invitation invitationId s = inr (i, s') -> P s -> P s'.
Proof.
  intros H. apply select_invitation_found in H. destruct H as [-> _]. auto.
Qed.

Lemma delete_invitation_keeps_unique (invitationId : uuid) (s s' : Store) (u : unit) :
  delete_invitation invitationId s = inr (u, s') -> members_unique s -> members_unique s'.
Proof.
  unfold delete_invitation. intros H. inversion H. apply members_unique_same. reflexivity.
Qed.

Lemma with_role_key (wid uid : uuid) (r : WorkspaceRole) (x : WorkspaceMember.t) :
  is_membership wid uid (with_role r x) = is_membership wid uid x.
Proof. reflexivity. Qed.

Lemma update_member_role_keeps_unique (wid uid : uuid) (r : WorkspaceRole) (s s' : Store)
      (m : WorkspaceMember.t) :
  update_member_role wid uid r s = inr (m, s') -> members_unique s -> members_unique s'.
Proof.
  unfold update_member_role.
  destruct (memberships s wid uid) as [|m0 [|? ?]]; try discriminate.
  intros H Hu. inversion H. intros w' u'. unfold memberships. cbn.
  change (fun m1 => Nat.eqb (WorkspaceMember.workspace_id m1) w'
                    && Nat.eqb (WorkspaceMember.user_id m1) u')
    with (is_membership w' u').
  rewrite filter_map_same_key.
  - rewrite length_map. apply Hu.
  - intros x. destruct (is_membership wid uid x); reflexivity.
Qed.

Lemma delete_member_keeps_unique (wid uid : uuid) (s s' : Store) (u : unit) :
  delete_member wid uid s = inr (u, s') -> members_unique s -> members_unique s'.
Proof.
  unfold delete_member. intros H Hu. inversion H. intros w' u'. unfold memberships. cbn.
  eapply Nat.le_trans; [apply filter_filter_length|apply Hu].
Qed.

(** X1. The uniqueness of memberships is an invariant of the membership
    operations: from a store with at most one membership row per workspace
    and user, [createWorkspace], [acceptInvitation], [updateMemberRole] and
    [removeMember] lead to such a store again, whatever fails on the way. *)
Theorem membership_operations_keep_members_unique (b : Backend) :
  members_unique (db b) ->
  (forall name userId,
      members_unique (db (snd (workspaceService.createWorkspace name userId b))))
  /\ (forall invitationId userId,
         members_unique (db (snd (workspaceService.acceptInvitation invitationId userId b))))
  /\ (forall workspaceId userId role,
         members_unique (db (snd (workspaceAdmin.updateMemberRole workspaceId userId role b))))
  /\ (forall workspaceId userId,
         members_unique (db (snd (workspaceAdmin.removeMember workspaceId userId b)))).
Proof.
  intros Hu. split; [|split; [|split]].
  - intros name userId.
    unfold workspaceService.createWorkspace, bind, ret.
    pose proof (request_keeps members_unique _
                  (insert_workspace_keeps_unique name (Some userId)) b Hu) as H1.
    destruct (request (insert_workspace name (Some userId)) b) as [r1 b1]. cbn [snd] in H1.
    destruct (Response.error r1); [exact H1|].
    destruct (Response.data r1) as [w|]; [|exact H1].
    pose proof (request_keeps members_unique _
                  (insert_member_keeps_unique (Workspace.id w) userId admin) b1 H1) as H2.
    destruct (request (insert_workspace_member (Workspace.id w) userId admin) b1) as [r2 b2].
    cbn [snd] in H2.
    destruct (Response.error r2); [|exact H2].
    pose proof (request_keeps members_unique _
                  (delete_workspace_keeps_unique (Workspace.id w)) b2 H2) as H3.
    destruct (request (delete_workspace (Workspace.id w)) b2) as [r3 b3]. exact H3.
  - intros invitationId userId.
    unfold workspaceService.acceptInvitation, bind, ret.
    pose proof (request_keeps members_unique _
                  (select_invitation_keeps members_unique invitationId) b Hu) as H1.
    destruct (request (select_invitation invitationId) b) as [r1 b1]. cbn [snd] in H1.
    destruct (Response.error r1); [exact H1|].
    destruct (Response.data r1) as [i|]; [|exact H1].
    pose proof (request_keeps members_unique _
                  (insert_member_keeps_unique (WorkspaceInvitation.workspace_id i) userId
                     (WorkspaceInvitation.role i)) b1 H1) as H2.
    destruct (request (insert_workspace_member (WorkspaceInvitation.workspace_id i) userId
                         (WorkspaceInvitation.role i)) b1) as [r2 b2].
    cbn [snd] in H2.
    destruct (Response.error r2); [exact H2|].
    pose proof (request_keeps members_unique _
                  (delete_invitation_keeps_unique invitationId) b2 H2) as H3.
    destruct (request (delete_invitation invitationId) b2) as [r3 b3]. exact H3.
  - intros workspaceId userId role.
    unfold workspaceAdmin.updateMemberRole, bind, ret.
    pose proof (request_keeps members_unique _
                  (update_member_role_keeps_unique workspaceId userId role) b Hu) as H1.
    destruct (request (update_member_role workspaceId userId role) b) as [r1 b1]. exact H1.
  - intros workspaceId userId.
    unfold workspaceAdmin.removeMember, bind, ret.
    pose proof (request_keeps members_unique _
                  (delete_member_keeps_unique workspaceId userId) b Hu) as H1.
    destruct (request (delete_member workspaceId userId) b) as [r1 b1]. exact H1.
Qed.

Lemma Acme_members_unique : members_unique Acme.store.
Proof.
  intros wid uid. unfold memberships. cbn.
  destruct (_ && _); cbn; lia.
Qed.

Lemma members_unique_after_createWorkspace_at_Acme :
  members_unique (db (snd (workspaceService.createWorkspace "Branch" 2 (Acme.backend [])))).
Proof.
  exact (proj1 (membership_operations_keep_members_unique (Acme.backend [])
                  Acme_members_unique) "Branch"%string 2%nat).
Defined.

(** ** The role functions of the store and the client's view *)

Lemma existsb_admin_single (m : WorkspaceMember.t) :
  existsb (fun m => WorkspaceRole_eqb (WorkspaceMember.role m) admin) [m]
  = WorkspaceContext.isAdmin (Some (WorkspaceMember.role m)).
Proof. cbn. destruct (WorkspaceMember.role m); reflexivity. Qed.

(** X2. The store's three role functions and the client agree. An admin is
    a member, and a user is a member exactly when
    [get_user_workspace_role] finds a role. With at most one membership
    row per workspace and user, [is_workspace_admin] holds exactly when
    that role is admin, and the role [getUserRole] fetches, the call not
    being made to fail, is the one the store's function gives: the
    client's [isAdmin] is the store's [is_workspace_admin]. *)
Theorem role_functions_agree (b : Backend) (workspaceId userId : uuid) :
  (is_workspace_admin (db b) workspaceId userId = true ->
   is_workspace_member (db b) workspaceId userId = true)
  /\ (is_workspace_member (db b) workspaceId userId = true
      <-> get_user_workspace_role (db b) workspaceId userId <> None)
  /\ (members_unique (db b) ->
      (is_workspace_admin (db b) workspaceId userId = true
       <-> get_user_workspace_role (db b) workspaceId userId = Some admin)
      /\ (hd None (faults b) = None ->
          workspaceService.RoleResult.role
            (fst (workspaceService.getUserRole workspaceId userId b))
          = get_user_workspace_role (db b) workspaceId userId
          /\ WorkspaceContext.isAdmin
               (workspaceService.RoleResult.role
                  (fst (workspaceService.getUserRole workspaceId userId b)))
             = is_workspace_admin (db b) workspaceId userId)).
Proof.
  unfold is_workspace_admin, is_workspace_member, get_user_workspace_role.
  split; [|split].
  - destruct (memberships (db b) workspaceId userId); [discriminate|reflexivity].
  - destruct (memberships (db b) workspaceId userId); split;
      try discriminate; try congruence; auto.
  - intros Hu. specialize (Hu workspaceId userId).
    assert (Hget : hd None (faults b) = None ->
                   workspaceService.RoleResult.role
                     (fst (workspaceService.getUserRole workspaceId userId b))
                   = match memberships (db b) workspaceId userId with
                     | m :: _ => Some (WorkspaceMember.role m)
                     | [] => None
                     end).
    { intros Hhd. unfold workspaceService.getUserRole, bind, ret.
      rewrite request_run by exact Hhd. unfold select_member_role.
      destruct (memberships (db b) workspaceId userId) as [|m [|m' l]]; cbn in *;
        try reflexivity; lia. }
    destruct (memberships (db b) workspaceId userId) as [|m [|m' l]]; cbn in Hu; try lia.
    + split; [split; discriminate|].
      intros Hhd. rewrite (Hget Hhd). split; reflexivity.
    + rewrite existsb_admin_single. split.
      * destruct (WorkspaceMember.role m); cbn; split; congruence.
      * intros Hhd. rewrite (Hget Hhd). split; reflexivity.
Qed.

Lemma role_functions_agree_at_Acme :
  WorkspaceContext.isAdmin
    (workspaceService.RoleResult.role
       (fst (workspaceService.getUserRole 10 1 (Acme.backend []))))
  = is_workspace_admin (db (Acme.backend [])) 10 1.
Proof.
  exact (proj2 (proj2 (proj2 (proj2 (role_functions_agree (Acme.backend []) 10 1))
                        Acme_members_unique) eq_refl)).
Defined.

(** ** Creating, then using or deleting a workspace *)

Lemma createWorkspace_accepted (s : Store) (name : string) (userId : uuid)
      (script : list (option Err)) :
  store_ok s = true ->
  references_auth_user s (Some userId) = true ->
  hd None script = None ->
  hd None (tl script) = None ->
  workspaceService.createWorkspace name userId {| db := s; faults := script |}
  = ({| workspaceService.WorkspaceResult.workspace := Some (new_workspace s name userId);
        workspaceService.WorkspaceResult.error := None |},
     {| db := after_member_insert (after_workspace_insert s name userId)
                (admin_membership s userId);
        faults := tl (tl script) |}).
Proof.
  intros Hok Href H1 H2.
  unfold workspaceService.createWorkspace, bind, ret.
  rewrite request_run by exact H1. cbn [db faults].
  unfold insert_workspace. rewrite Href.
  cbn [success Response.error Response.data Workspace.id].
  fold (new_workspace s name userId). fold (after_workspace_insert s name userId).
  rewrite request_run by exact H2. cbn [db faults].
  unfold insert_workspace_member.
  rewrite (after_insert_no_membership s name userId userId Hok).
  rewrite after_insert_has_workspace.
  change (references_auth_user (after_workspace_insert s name userId) (Some userId))
    with (references_auth_user s (Some userId)).
  rewrite Href. reflexivity.
Qed.

Lemma memberships_of_created (s : Store) (name : string) (userId : uuid) :
  store_ok s = true ->
  memberships (after_member_insert (after_workspace_insert s name userId)
                 (admin_membership s userId)) (next_uuid s) userId
  = [admin_membership s userId].
Proof.
  intros Hok. unfold memberships. cbn. rewrite filter_app. cbn.
  rewrite !Nat.eqb_refl. cbn.
  rewrite filter_none; [reflexivity|].
  generalize (members_ok s Hok). apply forallb_impl.
  intros m Hm. apply negb_true_iff in Hm. rewrite Hm. reflexivity.
Qed.

Lemma createWorkspace_returned (s : Store) (name : string) (userId : uuid)
      (script : list (option Err)) (w : Workspace.t) :
  store_ok s = true ->
  workspaceService.WorkspaceResult.workspace
    (fst (workspaceService.createWorkspace name userId {| db := s; faults := script |}))
  = Some w ->
  w = new_workspace s name userId
  /\ snd (workspaceService.createWorkspace name userId {| db := s; faults := script |})
     = {| db := after_member_insert (after_workspace_insert s name userId)
                  (admin_membership s userId);
          faults := tl (tl script) |}.
Proof.
  intros Hok.
  unfold workspaceService.createWorkspace, bind, ret.
  destruct (request_cases (insert_workspace name (Some userId))
              {| db := s; faults := script |}) as [[e H]|[a [s1 [Hstmt [_ H]]]]];
    cbn [db faults] in *; rewrite H.
  { cbn. intros Hx. discriminate Hx. }
  cbn [success Response.error Response.data].
  apply insert_workspace_accepted in Hstmt. destruct Hstmt as [_ [-> ->]].
  change (Workspace.id (new_workspace s name userId)) with (next_uuid s).
  destruct (request_cases (insert_workspace_member (next_uuid s) userId admin)
              {| db := after_workspace_insert s name userId; faults := tl script |})
    as [[e H2]|[u [s2 [Hstmt2 [_ H2]]]]]; cbn [db faults] in *; rewrite H2.
  - cbn [failure Response.error].
    destruct (request (delete_workspace _) _) as [r3 b3].
    cbn. intros Hx. discriminate Hx.
  - cbn [success Response.error fst snd workspaceService.WorkspaceResult.workspace].
    intros Hw. inversion Hw. split; [reflexivity|].
    destruct u. apply (insert_admin_accepted s s2 name userId Hok) in Hstmt2.
    subst s2. reflexivity.
Qed.

(** X3. Whoever creates a workspace is its admin: when [createWorkspace],
    from a store that satisfies its constraints and under any script of
    forced failures, returns a workspace, the store's [is_workspace_admin]
    holds of the creator in it, and a following [getUserRole] that is not
    made to fail answers admin. *)
Theorem createWorkspace_creator_is_admin
        (s : Store) (name : string) (userId : uuid) (script : list (option Err))
        (w : Workspace.t) :
  store_ok s = true ->
  workspaceService.WorkspaceResult.workspace
    (fst (workspaceService.createWorkspace name userId {| db := s; faults := script |}))
  = Some w ->
  is_workspace_admin
    (db (snd (workspaceService.createWorkspace name userId {| db := s; faults := script |})))
    (Workspace.id w) userId = true
  /\ (hd None (tl (tl script)) = None ->
      workspaceService.RoleResult.role
        (fst (workspaceService.getUserRole (Workspace.id w) userId
                (snd (workspaceService.createWorkspace name userId
                        {| db := s; faults := script |}))))
      = Some admin).
Proof.
  intros Hok Hw.
  destruct (createWorkspace_returned s name userId script w Hok Hw) as [-> Hsnd].
  rewrite Hsnd. cbn [db Workspace.id new_workspace].
  pose proof (memberships_of_created s name userId Hok) as Hm.
  split.
  - unfold is_workspace_admin. rewrite Hm. reflexivity.
  - intros Hhd.
    unfold workspaceService.getUserRole, bind, ret.
    rewrite request_run by exact Hhd.
    unfold select_member_role. cbn [db]. rewrite Hm. reflexivity.
Qed.

Lemma createWorkspace_creator_is_admin_at_Acme :
  is_workspace_admin
    (db (snd (workspaceService.createWorkspace "Branch" 2 (Acme.backend []))))
    20 2 = true
  /\ (hd None (tl (tl (@nil (option Err)))) = None ->
      workspaceService.RoleResult.role
        (fst (workspaceService.getUserRole 20 2
                (snd (workspaceService.createWorkspace "Branch" 2 (Acme.backend [])))))
      = Some admin).
Proof.
  exact (createWorkspace_creator_is_admin Acme.store "Branch" 2 []
           (new_workspace Acme.store "Branch" 2) eq_refl eq_refl).
Defined.

Lemma delete_created_workspace (s : Store) (name : string) (userId : uuid) :
  store_ok s = true ->
  delete_workspace (next_uuid s)
    (after_member_insert (after_workspace_insert s name userId) (admin_membership s userId))
  = inr (tt, with_next_uuid (S (S (next_uuid s))) s).
Proof.
  intros Hok.
  unfold delete_workspace, has_workspace, supplier_in_use. cbn.
  rewrite existsb_app. cbn. rewrite Nat.eqb_refl, orb_true_r. cbn.
  assert (Hs : forall sid,
             existsb (fun x => Nat.eqb (Supplier.id x) sid
                               && Nat.eqb (Supplier.workspace_id x) (next_uuid s))
                     (suppliers s) = false).
  { intros sid. apply none_of_next_workspace, suppliers_ok, Hok. }
  assert (Hi : forall iid,
             existsb (fun i => Nat.eqb (InventoryItem.id i) iid
                               && Nat.eqb (InventoryItem.workspace_id i) (next_uuid s))
                     (inventory_items s) = false).
  { intros iid. apply none_of_next_workspace, inventory_items_ok, Hok. }
  assert (Ho : forall oid,
             existsb (fun o => Nat.eqb (PurchaseOrder.id o) oid
                               && Nat.eqb (PurchaseOrder.workspace_id o) (next_uuid s))
                     (purchase_orders s) = false).
  { intros oid. apply none_of_next_workspace, purchase_orders_ok, Hok. }
  rewrite existsb_none.
  2:{ apply forallb_forall. intros o _. rewrite Hs. reflexivity. }
  unfold with_next_uuid. cbn. do 2 f_equal.
  f_equal.
  - rewrite filter_app. cbn. rewrite Nat.eqb_refl. cbn.
    rewrite app_nil_r. apply filter_all.
    generalize (workspace_ids_drawn s Hok). apply forallb_impl.
    intros w Hw. apply Nat.ltb_lt in Hw. apply negb_true_iff, Nat.eqb_neq. lia.
  - rewrite filter_app. cbn. rewrite Nat.eqb_refl. cbn.
    rewrite app_nil_r. apply filter_all, members_ok, Hok.
  - apply filter_all, invitations_ok, Hok.
  - apply filter_all, suppliers_ok, Hok.
  - rewrite filter_all by (apply inventory_items_ok, Hok).
    apply map_same. intros i. apply on_supplier_delete_none, Hs.
  - apply filter_all, purchase_orders_ok, Hok.
  - rewrite filter_all.
    + apply map_same. intros li. apply on_inventory_item_delete_none, Hi.
    + apply forallb_forall. intros li _. rewrite Ho. reflexivity.
Qed.

(** X4. Creating a workspace and deleting it again is a round trip: from a
    store that satisfies its constraints, when [createWorkspace] returned a
    workspace and the following [deleteWorkspace] of it is not made to
    fail, the delete returns no error and the store has the rows it had
    before the workspace was created (the creator's membership went with
    the workspace). *)
Theorem createWorkspace_then_deleteWorkspace
        (s : Store) (name : string) (userId : uuid) (script : list (option Err))
        (w : Workspace.t) :
  store_ok s = true ->
  workspaceService.WorkspaceResult.workspace
    (fst (workspaceService.createWorkspace name userId {| db := s; faults := script |}))
  = Some w ->
  hd None (tl (tl script)) = None ->
  workspaceService.ErrorResult.error
    (fst (workspaceAdmin.deleteWorkspace (Workspace.id w)
            (snd (workspaceService.createWorkspace name userId
                    {| db := s; faults := script |})))) = None
  /\ same_rows s
       (db (snd (workspaceAdmin.deleteWorkspace (Workspace.id w)
                   (snd (workspaceService.createWorkspace name userId
                           {| db := s; faults := script |}))))).
Proof.
  intros Hok Hw Hhd.
  destruct (createWorkspace_returned s name userId script w Hok Hw) as [-> Hsnd].
  rewrite Hsnd. cbn [Workspace.id new_workspace].
  unfold workspaceAdmin.deleteWorkspace, bind, ret.
  rewrite request_run by exact Hhd. cbn [db faults].
  rewrite (delete_created_workspace s name userId Hok). cbn.
  split; [reflexivity|]. apply same_rows_next.
Qed.

Lemma createWorkspace_then_deleteWorkspace_at_Acme :
  workspaceService.ErrorResult.error
    (fst (workspaceAdmin.deleteWorkspace 20
            (snd (workspaceService.createWorkspace "Branch" 2 (Acme.backend []))))) = None
  /\ same_rows Acme.store
       (db (snd (workspaceAdmin.deleteWorkspace 20
                   (snd (workspaceService.createWorkspace "Branch" 2 (Acme.backend [])))))).
Proof.
  exact (createWorkspace_then_deleteWorkspace Acme.store "Branch" 2 []
           (new_workspace Acme.store "Branch" 2) eq_refl eq_refl eq_refl).
Defined.

(** ** Changing and removing members *)

Lemma is_membership_key (wid uid : uuid) (m : WorkspaceMember.t) :
  is_membership wid uid m = true
  <-> WorkspaceMember.workspace_id m = wid /\ WorkspaceMember.user_id m = uid.
Proof.
  unfold is_membership. rewrite andb_true_iff, !Nat.eqb_eq. reflexivity.
Qed.

Lemma other_key (wid uid wid' uid' : uuid) (m : WorkspaceMember.t) :
  wid' <> wid \/ uid' <> uid ->
  is_membership wid uid m = true -> is_membership wid' uid' m = false.
Proof.
  intros Hne H. apply is_membership_key in H. destruct H as [Hw Hu].
  destruct (is_membership wid' uid' m) eqn:E; [|reflexivity].
  apply is_membership_key in E. destruct E. subst. destruct Hne; congruence.
Qed.

Lemma memberships_after_update_other (wid uid wid' uid' : uuid) (r : WorkspaceRole)
      (l : list WorkspaceMember.t) :
  wid' <> wid \/ uid' <> uid ->
  filter (is_membership wid' uid')
         (map (fun x => if is_membership wid uid x then with_role r x else x) l)
  = filter (is_membership wid' uid') l.
Proof.
  intros Hne. induction l as [|x l IH]; cbn; [reflexivity|].
  destruct (is_membership wid uid x) eqn:E.
  - rewrite with_role_key, (other_key _ _ _ _ _ Hne E). exact IH.
  - rewrite IH. reflexivity.
Qed.

Lemma memberships_after_update_same (wid uid : uuid) (r : WorkspaceRole)
      (l : list WorkspaceMember.t) :
  filter (is_membership wid uid)
         (map (fun x => if is_membership wid uid x then with_role r x else x) l)
  = map (with_role r) (filter (is_membership wid uid) l).
Proof.
  induction l as [|x l IH]; cbn; [reflexivity|].
  destruct (is_membership wid uid x) eqn:E.
  - rewrite with_role_key, E. cbn. rewrite IH. reflexivity.
  - rewrite E. exact IH.
Qed.

Lemma memberships_after_delete_other (wid uid wid' uid' : uuid)
      (l : list WorkspaceMember.t) :
  wid' <> wid \/ uid' <> uid ->
  filter (is_membership wid' uid') (filter (fun m => negb (is_membership wid uid m)) l)
  = filter (is_membership wid' uid') l.
Proof.
  intros Hne. induction l as [|x l IH]; cbn; [reflexivity|].
  destruct (is_membership wid uid x) eqn:E; cbn.
  - rewrite (other_key _ _ _ _ _ Hne E). exact IH.
  - rewrite IH. reflexivity.
Qed.

Lemma memberships_after_delete_same (wid uid : uuid) (l : list WorkspaceMember.t) :
  filter (is_membership wid uid) (filter (fun m => negb (is_membership wid uid m)) l) = [].
Proof.
  induction l as [|x l IH]; cbn; [reflexivity|].
  destruct (is_membership wid uid x) eqn:E; cbn; [exact IH|].
  rewrite E. exact IH.
Qed.

Lemma with_own_role (m : WorkspaceMember.t) : with_role (WorkspaceMember.role m) m = m.
Proof. destruct m. reflexivity. Qed.

Lemma with_workspace_members_same (s : Store) :
  with_workspace_members (workspace_members s) s = s.
Proof. destruct s. reflexivity. Qed.

(** X5. [updateMemberRole(workspaceId, userId, role)]. For a user who has
    no membership row in the workspace it answers an error and no member,
    and the store is unchanged. For a member, the call not being made to
    fail, it returns the member with the new role, the store's role of
    that user in that workspace is the new role afterwards, the membership
    rows of every other workspace and user are as before, and setting the
    role the member already has leaves the store as it was. *)
Theorem updateMemberRole_sets_that_role
        (b : Backend) (workspaceId userId : uuid) (role : WorkspaceRole) :
  (memberships (db b) workspaceId userId = [] ->
   workspaceAdmin.MemberResult.member
     (fst (workspaceAdmin.updateMemberRole workspaceId userId role b)) = None
   /\ workspaceAdmin.MemberResult.error
        (fst (workspaceAdmin.updateMemberRole workspaceId userId role b)) <> None
   /\ db (snd (workspaceAdmin.updateMemberRole workspaceId userId role b)) = db b)
  /\ (forall m,
         memberships (db b) workspaceId userId = [m] ->
         hd None (faults b) = None ->
         fst (workspaceAdmin.updateMemberRole workspaceId userId role b)
         = {| workspaceAdmin.MemberResult.member := Some (with_role role m);
              workspaceAdmin.MemberResult.error := None |}
         /\ memberships (db (snd (workspaceAdmin.updateMemberRole workspaceId userId role b)))
                        workspaceId userId = [with_role role m]
         /\ get_user_workspace_role
              (db (snd (workspaceAdmin.updateMemberRole workspaceId userId role b)))
              workspaceId userId = Some role
         /\ (forall wid' uid',
                wid' <> workspaceId \/ uid' <> userId ->
                memberships (db (snd (workspaceAdmin.updateMemberRole workspaceId userId role b)))
                            wid' uid'
                = memberships (db b) wid' uid')
         /\ (WorkspaceMember.role m = role ->
             db (snd (workspaceAdmin.updateMemberRole workspaceId userId role b)) = db b)).
Proof.
  unfold workspaceAdmin.updateMemberRole, bind, ret. split.
  - intros Hnone.
    destruct (request_cases (update_member_role workspaceId userId role) b)
      as [[e H]|[a [s [Hstmt _]]]].
    + rewrite H. cbn. repeat split. discriminate.
    + unfold update_member_role in Hstmt. rewrite Hnone in Hstmt. discriminate.
  - intros m Hm Hhd.
    rewrite request_run by exact Hhd.
    unfold update_member_role. rewrite Hm.
    cbn [fst snd success db Response.data Response.error].
    assert (Hafter : memberships
                       (with_workspace_members
                          (map (fun x => if is_membership workspaceId userId x
                                         then with_role role x else x)
                               (workspace_members (db b))) (db b))
                       workspaceId userId = [with_role role m]).
    { unfold memberships in *. cbn.
      change (fun m0 => Nat.eqb (WorkspaceMember.workspace_id m0) workspaceId
                        && Nat.eqb (WorkspaceMember.user_id m0) userId)
        with (is_membership workspaceId userId) in *.
      rewrite memberships_after_update_same, Hm. reflexivity. }
    split; [reflexivity|]. split; [exact Hafter|].
    split; [unfold get_user_workspace_role; rewrite Hafter; reflexivity|].
    split.
    + intros wid' uid' Hne. unfold memberships. cbn.
      apply (memberships_after_update_other workspaceId userId wid' uid' role _ Hne).
    + intros Hrole.
      assert (Hmap : map (fun x => if is_membership workspaceId userId x
                                   then with_role role x else x)
                         (workspace_members (db b))
                     = workspace_members (db b)).
      { rewrite <- (map_id (workspace_members (db b))) at 2.
        apply map_ext_in. intros x Hx.
        destruct (is_membership workspaceId userId x) eqn:E; [|reflexivity].
        assert (Hin : In x (memberships (db b) workspaceId userId)).
        { unfold memberships. apply filter_In. split; [exact Hx|exact E]. }
        rewrite Hm in Hin. destruct Hin as [<-|[]].
        rewrite <- Hrole. apply with_own_role. }
      rewrite Hmap. apply with_workspace_members_same.
Qed.

Lemma updateMemberRole_at_Acme :
  fst (workspaceAdmin.updateMemberRole 10 1 member (Acme.backend []))
  = {| workspaceAdmin.MemberResult.member := Some (with_role member Acme.admin_row);
       workspaceAdmin.MemberResult.error := None |}
  /\ get_user_workspace_role
       (db (snd (workspaceAdmin.updateMemberRole 10 1 member (Acme.backend [])))) 10 1
     = Some member.
Proof.
  pose proof (proj2 (updateMemberRole_sets_that_role (Acme.backend []) 10 1 member)
                Acme.admin_row eq_refl eq_refl) as H.
  exact (conj (proj1 H) (proj1 (proj2 (proj2 H)))).
Defined.

(** X6. [removeMember(workspaceId, userId)], the call not being made to
    fail, returns no error, leaves no membership row of that user in that
    workspace, and keeps the membership rows of every other workspace and
    user; for a user who was not a member the store is unchanged (and the
    answer is still no error). *)
Theorem removeMember_removes_that_member (b : Backend) (workspaceId userId : uuid) :
  hd None (faults b) = None ->
  fst (workspaceAdmin.removeMember workspaceId userId b)
  = {| workspaceService.ErrorResult.error := None |}
  /\ memberships (db (snd (workspaceAdmin.removeMember workspaceId userId b)))
                 workspaceId userId = []
  /\ is_workspace_member (db (snd (workspaceAdmin.removeMember workspaceId userId b)))
                         workspaceId userId = false
  /\ (forall wid' uid',
         wid' <> workspaceId \/ uid' <> userId ->
         memberships (db (snd (workspaceAdmin.removeMember workspaceId userId b))) wid' uid'
         = memberships (db b) wid' uid')
  /\ (memberships (db b) workspaceId userId = [] ->
      db (snd (workspaceAdmin.removeMember workspaceId userId b)) = db b).
Proof.
  intros Hhd. unfold workspaceAdmin.removeMember, bind, ret.
  rewrite request_run by exact Hhd. unfold delete_member.
  cbn [fst snd success db Response.data Response.error].
  assert (Hafter : memberships
                     (with_workspace_members
                        (filter (fun m => negb (is_membership workspaceId userId m))
                                (workspace_members (db b))) (db b))
                     workspaceId userId = []).
  { unfold memberships. cbn. apply memberships_after_delete_same. }
  split; [reflexivity|]. split; [exact Hafter|].
  split; [unfold is_workspace_member; rewrite Hafter; reflexivity|].
  split.
  - intros wid' uid' Hne. unfold memberships. cbn.
    apply (memberships_after_delete_other workspaceId userId wid' uid' _ Hne).
  - intros Hnone.
    rewrite filter_all; [apply with_workspace_members_same|].
    apply forallb_forall. intros x Hx.
    destruct (is_membership workspaceId userId x) eqn:E; [|reflexivity].
    assert (Hin : In x (memberships (db b) workspaceId userId)).
    { unfold memberships. apply filter_In. split; [exact Hx|exact E]. }
    rewrite Hnone in Hin. destruct Hin.
Qed.

Lemma removeMember_at_Acme :
  fst (workspaceAdmin.removeMember 10 1 (Acme.backend []))
  = {| workspaceService.ErrorResult.error := None |}
  /\ memberships (db (snd (workspaceAdmin.removeMember 10 1 (Acme.backend [])))) 10 1 = [].
Proof.
  pose proof (removeMember_removes_that_member (Acme.backend []) 10 1 eq_refl) as H.
  exact (conj (proj1 H) (proj1 (proj2 H))).
Defined.

Lemma no_admin_after_delete (wid uid : uuid) (l : list WorkspaceMember.t) :
  (forall m, In m l ->
             WorkspaceMember.workspace_id m = wid ->
             WorkspaceMember.role m = admin ->
             WorkspaceMember.user_id m = uid) ->
  forall uid',
    existsb (fun m => WorkspaceRole_eqb (WorkspaceMember.role m) admin)
            (filter (is_membership wid uid')
                    (filter (fun m => negb (is_membership wid uid m)) l)) = false.
Proof.
  intros Hsole uid'. apply existsb_none. apply forallb_forall. intros x Hx.
  apply filter_In in Hx. destruct Hx as [Hx Hkey'].
  apply filter_In in Hx. destruct Hx as [Hin Hnot].
  apply is_membership_key in Hkey'. destruct Hkey' as [Hw Hu'].
  destruct (WorkspaceMember.role x) eqn:Hr; [|reflexivity].
  exfalso. apply negb_true_iff in Hnot.
  assert (Hk : is_membership wid uid x = true).
  { apply is_membership_key. split; [exact Hw|exact (Hsole x Hin Hw Hr)]. }
  congruence.
Qed.

Lemma no_admin_after_demote (wid uid : uuid) (l : list WorkspaceMember.t) :
  (forall m, In m l ->
             WorkspaceMember.workspace_id m = wid ->
             WorkspaceMember.role m = admin ->
             WorkspaceMember.user_id m = uid) ->
  forall uid',
    existsb (fun m => WorkspaceRole_eqb (WorkspaceMember.role m) admin)
            (filter (is_membership wid uid')
                    (map (fun x => if is_membership wid uid x then with_role member x else x)
                         l)) = false.
Proof.
  intros Hsole uid'. apply existsb_none. apply forallb_forall. intros x' Hx'.
  apply filter_In in Hx'. destruct Hx' as [Hx' Hkey'].
  apply in_map_iff in Hx'. destruct Hx' as [x [Hx Hin]].
  destruct (is_membership wid uid x) eqn:E.
  - subst x'. reflexivity.
  - subst x'. apply is_membership_key in Hkey'. destruct Hkey' as [Hw Hu'].
    destruct (WorkspaceMember.role x) eqn:Hr; [|reflexivity].
    exfalso.
    assert (Hk : is_membership wid uid x = true).
    { apply is_membership_key. split; [exact Hw|exact (Hsole x Hin Hw Hr)]. }
    congruence.
Qed.

(** X7. Nothing guards the last admin. If every admin row of a workspace
    is the given user's, then, the call not being made to fail,
    [removeMember] of that user returns no error and leaves the workspace
    with no admin at all ([is_workspace_admin] is false of every user), and
    so does [updateMemberRole] of that member to member. *)
Theorem last_admin_can_be_removed_or_demoted (b : Backend) (workspaceId userId : uuid) :
  hd None (faults b) = None ->
  (forall m, In m (workspace_members (db b)) ->
             WorkspaceMember.workspace_id m = workspaceId ->
             WorkspaceMember.role m = admin ->
             WorkspaceMember.user_id m = userId) ->
  (workspaceService.ErrorResult.error
     (fst (workspaceAdmin.removeMember workspaceId userId b)) = None
   /\ forall uid',
        is_workspace_admin (db (snd (workspaceAdmin.removeMember workspaceId userId b)))
                           workspaceId uid' = false)
  /\ (forall m,
         memberships (db b) workspaceId userId = [m] ->
         workspaceAdmin.MemberResult.error
           (fst (workspaceAdmin.updateMemberRole workspaceId userId member b)) = None
         /\ forall uid',
              is_workspace_admin
                (db (snd (workspaceAdmin.updateMemberRole workspaceId userId member b)))
                workspaceId uid' = false).
Proof.
  intros Hhd Hsole. split.
  - unfold workspaceAdmin.removeMember, bind, ret.
    rewrite request_run by exact Hhd. unfold delete_member.
    cbn [fst snd success db Response.data Response.error].
    split; [reflexivity|].
    intros uid'. unfold is_workspace_admin, memberships. cbn.
    apply (no_admin_after_delete workspaceId userId _ Hsole).
  - intros m Hm.
    unfold workspaceAdmin.updateMemberRole, bind, ret.
    rewrite request_run by exact Hhd. unfold update_member_role. rewrite Hm.
    cbn [fst snd success db Response.data Response.error].
    split; [reflexivity|].
    intros uid'. unfold is_workspace_admin, memberships. cbn.
    apply (no_admin_after_demote workspaceId userId _ Hsole).
Qed.

Lemma Acme_sole_admin :
  forall m, In m (workspace_members (db (Acme.backend []))) ->
            WorkspaceMember.workspace_id m = 10%nat ->
            WorkspaceMember.role m = admin ->
            WorkspaceMember.user_id m = 1%nat.
Proof. intros m [<-|[]] _ _. reflexivity. Qed.

Lemma last_admin_removed_at_Acme :
  workspaceService.ErrorResult.error
    (fst (workspaceAdmin.removeMember 10 1 (Acme.backend []))) = None
  /\ forall uid',
       is_workspace_admin (db (snd (workspaceAdmin.removeMember 10 1 (Acme.backend []))))
                          10 uid' = false.
Proof.
  exact (proj1 (last_admin_can_be_removed_or_demoted (Acme.backend []) 10 1
                  eq_refl Acme_sole_admin)).
Defined.

(** ** Invitations *)

Lemma insert_invitation_accepted (s s1 : Store) (wid : uuid) (email : string)
      (r : WorkspaceRole) (by_ : option uuid) (inv : WorkspaceInvitation.t) :
  insert_invitation wid email r by_ s = inr (inv, s1) ->
  invitations_for s wid email = []
  /\ has_workspace s wid = true
  /\ inv = {| WorkspaceInvitation.id := next_uuid s;
              WorkspaceInvitation.workspace_id := wid;
              WorkspaceInvitation.email := email;
              WorkspaceInvitation.role := r;
              WorkspaceInvitation.invited_by := by_;
              WorkspaceInvitation.created_at := now s;
              WorkspaceInvitation.expires_at := now s + seven_days |}
  /\ s1 = with_next_uuid (S (next_uuid s))
            (with_workspace_invitations (workspace_invitations s ++ [inv]) s).
Proof.
  unfold insert_invitation.
  destruct (invitations_for s wid email); [|discriminate].
  destruct (has_workspace s wid); [|discriminate].
  destruct (references_auth_user s by_); [|discriminate].
  cbn. intros H. inversion H. auto.
Qed.

Lemma createInvitation_result (b : Backend) (wid : uuid) (email : string)
      (r : WorkspaceRole) (by_ : uuid) (inv : WorkspaceInvitation.t) :
  workspaceAdmin.InvitationResult.invitation
    (fst (workspaceAdmin.createInvitation wid email r by_ b)) = Some inv ->
  insert_invitation wid email r (Some by_) (db b)
  = inr (inv, db (snd (workspaceAdmin.createInvitation wid email r by_ b)))
  /\ workspaceAdmin.createInvitation wid email r by_ b
     = ({| workspaceAdmin.InvitationResult.invitation := Some inv;
           workspaceAdmin.InvitationResult.error := None |},
        {| db := db (snd (workspaceAdmin.createInvitation wid email r by_ b));
           faults := tl (faults b) |}).
Proof.
  unfold workspaceAdmin.createInvitation, bind, ret. intros H.
  destruct (request_cases (insert_invitation wid email r (Some by_)) b)
    as [[e Hr]|[a [s [Hstmt [_ Hr]]]]]; rewrite Hr in H |- *; cbn in H |- *.
  - discriminate H.
  - inversion H. subst a. split; [exact Hstmt|reflexivity].
Qed.

(** X8. [createInvitation(workspaceId, email, role, invitedBy)]. While an
    invitation of that address to that workspace exists, the call answers
    an error (the unique violation, when it is not made to fail) and no
    invitation, and the store is unchanged. When it returns an invitation,
    there is no error, the invitation is a row of the store with the
    workspace, address, role and inviter given, it expires seven days
    after the current time, and a second invitation of the same address
    to the same workspace is refused, whatever its role and inviter. *)
Theorem createInvitation_one_per_workspace_and_email
        (b : Backend) (workspaceId : uuid) (email : string) (role : WorkspaceRole)
        (invitedBy : uuid) :
  (invitations_for (db b) workspaceId email <> [] ->
   workspaceAdmin.InvitationResult.invitation
     (fst (workspaceAdmin.createInvitation workspaceId email role invitedBy b)) = None
   /\ workspaceAdmin.InvitationResult.error
        (fst (workspaceAdmin.createInvitation workspaceId email role invitedBy b)) <> None
   /\ db (snd (workspaceAdmin.createInvitation workspaceId email role invitedBy b)) = db b
   /\ (hd None (faults b) = None ->
       workspaceAdmin.InvitationResult.error
         (fst (workspaceAdmin.createInvitation workspaceId email role invitedBy b))
       = Some (PostgrestError unique_violation)))
  /\ (forall inv,
         workspaceAdmin.InvitationResult.invitation
           (fst (workspaceAdmin.createInvitation workspaceId email role invitedBy b))
         = Some inv ->
         workspaceAdmin.InvitationResult.error
           (fst (workspaceAdmin.createInvitation workspaceId email role invitedBy b)) = None
         /\ In inv (workspace_invitations
                      (db (snd (workspaceAdmin.createInvitation
                                  workspaceId email role invitedBy b))))
         /\ WorkspaceInvitation.workspace_id inv = workspaceId
         /\ WorkspaceInvitation.email inv = email
         /\ WorkspaceInvitation.role inv = role
         /\ WorkspaceInvitation.invited_by inv = Some invitedBy
         /\ WorkspaceInvitation.created_at inv = now (db b)
         /\ WorkspaceInvitation.expires_at inv = now (db b) + 604800
         /\ forall role' invitedBy',
              workspaceAdmin.InvitationResult.invitation
                (fst (workspaceAdmin.createInvitation workspaceId email role' invitedBy'
                        (snd (workspaceAdmin.createInvitation
                                workspaceId email role invitedBy b)))) = None).
Proof.
  split.
  - intros Hdup.
    unfold workspaceAdmin.createInvitation, bind, ret.
    destruct (request_cases (insert_invitation workspaceId email role (Some invitedBy)) b)
      as [[e Hr]|[a [s [Hstmt [_ Hr]]]]].
    + rewrite Hr. cbn. split; [reflexivity|]. split; [discriminate|].
      split; [reflexivity|].
      intros Hhd. rewrite request_run in Hr by exact Hhd.
      unfold insert_invitation in Hr.
      destruct (invitations_for (db b) workspaceId email); [contradiction|].
      inversion Hr. reflexivity.
    + apply insert_invitation_accepted in Hstmt. destruct Hstmt as [Hnone _].
      contradiction.
  - intros inv Hinv.
    destruct (createInvitation_result _ _ _ _ _ _ Hinv) as [Hstmt Hrun].
    apply insert_invitation_accepted in Hstmt.
    destruct Hstmt as [_ [_ [Hrow Hdb]]].
    rewrite Hrun at 1. cbn [fst workspaceAdmin.InvitationResult.error].
    split; [reflexivity|].
    split; [rewrite Hdb; cbn; apply in_or_app; right; left; reflexivity|].
    split; [rewrite Hrow; reflexivity|]. split; [rewrite Hrow; reflexivity|].
    split; [rewrite Hrow; reflexivity|]. split; [rewrite Hrow; reflexivity|].
    split; [rewrite Hrow; reflexivity|]. split; [rewrite Hrow; reflexivity|].
    intros role' invitedBy'.
    set (b1 := snd (workspaceAdmin.createInvitation workspaceId email role invitedBy b)) in *.
    assert (Hdup : invitations_for (db b1) workspaceId email <> []).
    { rewrite Hdb. unfold invitations_for. cbn. rewrite filter_app.
      intros Habs. apply app_eq_nil in Habs. destruct Habs as [_ Habs].
      rewrite Hrow in Habs. cbn in Habs.
      rewrite Nat.eqb_refl, String.eqb_refl in Habs. discriminate Habs. }
    unfold workspaceAdmin.createInvitation, bind, ret.
    destruct (request_cases (insert_invitation workspaceId email role' (Some invitedBy')) b1)
      as [[e Hr]|[a [s [Hstmt [_ Hr]]]]].
    + rewrite Hr. reflexivity.
    + apply insert_invitation_accepted in Hstmt. destruct Hstmt as [Hnone _].
      contradiction.
Qed.

Lemma createInvitation_duplicate_at_Acme :
  workspaceAdmin.InvitationResult.invitation
    (fst (workspaceAdmin.createInvitation 10 "bo@example.com" admin 1 (Acme.backend []))) = None
  /\ workspaceAdmin.InvitationResult.error
       (fst (workspaceAdmin.createInvitation 10 "bo@example.com" admin 1 (Acme.backend [])))
     = Some (PostgrestError unique_violation).
Proof.
  pose proof (proj1 (createInvitation_one_per_workspace_and_email
                       (Acme.backend []) 10 "bo@example.com" admin 1)) as H.
  assert (Hdup : invitations_for (db (Acme.backend [])) 10 "bo@example.com" <> [])
    by (cbn; discriminate).
  exact (conj (proj1 (H Hdup)) (proj2 (proj2 (proj2 (H Hdup))) eq_refl)).
Defined.

Lemma drawn_invitation_not_next (s : Store) (invitationId : uuid) :
  invitation_ids_drawn s = true ->
  filter (fun i => Nat.eqb (WorkspaceInvitation.id i) (next_uuid s)) (workspace_invitations s)
  = [].
Proof.
  intros H. apply filter_none. revert H. apply forallb_impl.
  intros i Hi. apply Nat.ltb_lt in Hi. apply negb_true_iff, Nat.eqb_neq. lia.
Qed.

(** X9. An invitation, once accepted, gives the role it was created with.
    From a store whose invitation identifiers are drawn ones: when
    [createInvitation] returns an invitation, and [acceptInvitation] of it
    by a known user who is not a member of the workspace follows with none
    of its three calls made to fail, the acceptance returns no error, the
    store's role of that user in the workspace is the role the invitation
    was created with, and no invitation of that address to that workspace
    is left. *)
Theorem invitation_accepted_gives_invited_role
        (b : Backend) (workspaceId : uuid) (email : string) (role : WorkspaceRole)
        (invitedBy userId : uuid) (inv : WorkspaceInvitation.t) :
  invitation_ids_drawn (db b) = true ->
  workspaceAdmin.InvitationResult.invitation
    (fst (workspaceAdmin.createInvitation workspaceId email role invitedBy b)) = Some inv ->
  references_auth_user (db b) (Some userId) = true ->
  memberships (db b) workspaceId userId = [] ->
  hd None (tl (faults b)) = None ->
  hd None (tl (tl (faults b))) = None ->
  hd None (tl (tl (tl (faults b)))) = None ->
  workspaceService.ErrorResult.error
    (fst (workspaceService.acceptInvitation (WorkspaceInvitation.id inv) userId
            (snd (workspaceAdmin.createInvitation workspaceId email role invitedBy b))))
  = None
  /\ get_user_workspace_role
       (db (snd (workspaceService.acceptInvitation (WorkspaceInvitation.id inv) userId
                   (snd (workspaceAdmin.createInvitation workspaceId email role invitedBy b)))))
       workspaceId userId = Some role
  /\ invitations_for
       (db (snd (workspaceService.acceptInvitation (WorkspaceInvitation.id inv) userId
                   (snd (workspaceAdmin.createInvitation workspaceId email role invitedBy b)))))
       workspaceId email = [].
Proof.
  intros Hids Hinv Href Hmem H1 H2 H3.
  destruct (createInvitation_result _ _ _ _ _ _ Hinv) as [Hstmt Hrun].
  apply insert_invitation_accepted in Hstmt.
  destruct Hstmt as [Hnone [Hws [Hrow Hdb]]].
  rewrite Hrun. cbn [snd].
  set (s1 := db (snd (workspaceAdmin.createInvitation workspaceId email role invitedBy b)))
    in *.
  assert (Hid : WorkspaceInvitation.id inv = next_uuid (db b)) by (rewrite Hrow; reflexivity).
  assert (Hsel : filter (fun i => Nat.eqb (WorkspaceInvitation.id i) (WorkspaceInvitation.id inv))
                        (workspace_invitations s1) = [inv]).
  { rewrite Hdb. cbn. rewrite filter_app. cbn. rewrite Nat.eqb_refl.
    rewrite Hid, (drawn_invitation_not_next (db b) (next_uuid (db b)) Hids). reflexivity. }
  assert (Hinvws : WorkspaceInvitation.workspace_id inv = workspaceId)
    by (rewrite Hrow; reflexivity).
  assert (Hinvrole : WorkspaceInvitation.role inv = role) by (rewrite Hrow; reflexivity).
  assert (Hm1 : memberships s1 (WorkspaceInvitation.workspace_id inv) userId = []).
  { rewrite Hinvws, Hdb. exact Hmem. }
  assert (Hws1 : has_workspace s1 (WorkspaceInvitation.workspace_id inv) = true).
  { rewrite Hinvws, Hdb. exact Hws. }
  assert (Href1 : references_auth_user s1 (Some userId) = true).
  { rewrite Hdb. exact Href. }
  unfold workspaceService.acceptInvitation, bind, ret.
  rewrite request_run by exact H1. cbn [db faults].
  unfold select_invitation. rewrite Hsel.
  cbn [single success Response.error Response.data].
  rewrite request_run by exact H2. cbn [db faults].
  unfold insert_workspace_member. rewrite Hm1, Hws1, Href1.
  cbn [andb success Response.error Response.data].
  rewrite request_run by exact H3.
  cbn [fst snd db delete_invitation success workspaceService.ErrorResult.error].
  split; [reflexivity|]. split.
  - unfold get_user_workspace_role, memberships. cbn.
    rewrite filter_app. cbn. rewrite Hinvws, !Nat.eqb_refl. cbn.
    unfold memberships in Hmem. rewrite Hdb. cbn. rewrite Hmem. cbn.
    rewrite Hinvrole. reflexivity.
  - unfold invitations_for. cbn. rewrite Hdb. cbn.
    rewrite filter_app. cbn. rewrite Hid, Nat.eqb_refl. cbn. rewrite app_nil_r.
    apply filter_none. apply forallb_forall. intros i Hi.
    apply filter_In in Hi. destruct Hi as [Hi _].
    destruct (Nat.eqb (WorkspaceInvitation.workspace_id i) workspaceId
              && String.eqb (WorkspaceInvitation.email i) email) eqn:E; [|reflexivity].
    exfalso.
    assert (Hin : In i (invitations_for (db b) workspaceId email)).
    { unfold invitations_for. apply filter_In. split; assumption. }
    rewrite Hnone in Hin. destruct Hin.
Qed.

Lemma invitation_accepted_at_Acme :
  get_user_workspace_role
    (db (snd (workspaceService.acceptInvitation 20 2
                (snd (workspaceAdmin.createInvitation 10 "cy@example.com" admin 1
                        (Acme.backend []))))))
    10 2 = Some admin.
Proof.
  exact (proj1 (proj2
           (invitation_accepted_gives_invited_role
              (Acme.backend []) 10 "cy@example.com" admin 1 2
              {| WorkspaceInvitation.id := 20;
                 WorkspaceInvitation.workspace_id := 10;
                 WorkspaceInvitation.email := "cy@example.com";
                 WorkspaceInvitation.role := admin;
                 WorkspaceInvitation.invited_by := Some 1%nat;
                 WorkspaceInvitation.created_at := 1000;
                 WorkspaceInvitation.expires_at := 605800 |}
              eq_refl eq_refl eq_refl eq_refl eq_refl eq_refl eq_refl))).
Defined.

(** X10. What [acceptInvitation] refuses. With no invitation of the given
    id it answers an error (PGRST116 when the fetch is not made to fail)
    and the store is unchanged. For a user who is already a member of the
    invitation's workspace it answers an error (the unique violation when
    no call is made to fail), the store is unchanged and the invitation is
    still pending. *)
Theorem acceptInvitation_refusals (b : Backend) (invitationId userId : uuid) :
  (filter (fun i => Nat.eqb (WorkspaceInvitation.id i) invitationId)
          (workspace_invitations (db b)) = [] ->
   workspaceService.ErrorResult.error
     (fst (workspaceService.acceptInvitation invitationId userId b)) <> None
   /\ db (snd (workspaceService.acceptInvitation invitationId userId b)) = db b
   /\ (hd None (faults b) = None ->
       workspaceService.ErrorResult.error
         (fst (workspaceService.acceptInvitation invitationId userId b))
       = Some (PostgrestError PGRST116)))
  /\ (forall inv,
         filter (fun i => Nat.eqb (WorkspaceInvitation.id i) invitationId)
                (workspace_invitations (db b)) = [inv] ->
         memberships (db b) (WorkspaceInvitation.workspace_id inv) userId <> [] ->
         workspaceService.ErrorResult.error
           (fst (workspaceService.acceptInvitation invitationId userId b)) <> None
         /\ db (snd (workspaceService.acceptInvitation invitationId userId b)) = db b
         /\ In inv (workspace_invitations
                      (db (snd (workspaceService.acceptInvitation invitationId userId b))))
         /\ (hd None (faults b) = None ->
             hd None (tl (faults b)) = None ->
             workspaceService.ErrorResult.error
               (fst (workspaceService.acceptInvitation invitationId userId b))
             = Some (PostgrestError unique_violation))).
Proof.
  split.
  - intros Hnone.
    unfold workspaceService.acceptInvitation, bind, ret.
    destruct (request_cases (select_invitation invitationId) b)
      as [[e Hr]|[a [s [Hstmt [_ Hr]]]]].
    + rewrite Hr. cbn. split; [discriminate|]. split; [reflexivity|].
      intros Hhd. rewrite request_run in Hr by exact Hhd.
      unfold select_invitation in Hr. rewrite Hnone in Hr. cbn in Hr.
      inversion Hr. reflexivity.
    + apply select_invitation_found in Hstmt. destruct Hstmt as [_ Hsel].
      rewrite Hnone in Hsel. discriminate.
  - intros inv Hsel Hmem.
    assert (Hin : In inv (workspace_invitations (db b)))
      by (apply (selected_invitation_In _ _ _ Hsel)).
    unfold workspaceService.acceptInvitation, bind, ret.
    destruct (request_cases (select_invitation invitationId) b)
      as [[e Hr]|[a [s [Hstmt [Hhd1 Hr]]]]]; rewrite Hr;
      cbn [success failure Response.error Response.data].
    + cbn. split; [discriminate|]. split; [reflexivity|]. split; [exact Hin|].
      intros Hhd. rewrite request_run in Hr by exact Hhd.
      unfold select_invitation in Hr. rewrite Hsel in Hr. cbn in Hr. discriminate.
    + apply select_invitation_found in Hstmt. destruct Hstmt as [-> Hsel'].
      rewrite Hsel in Hsel'. inversion Hsel'. subst a.
      match goal with
      | |- context [request ?stmt ?b1] =>
          destruct (request_cases stmt b1) as [[e Hr2]|[u [s2 [Hstmt2 _]]]]
      end.
      * rewrite Hr2. cbn. split; [discriminate|]. split; [reflexivity|].
        split; [exact Hin|].
        intros _ Hhd2. rewrite request_run in Hr2 by exact Hhd2.
        cbn [db] in Hr2. unfold insert_workspace_member in Hr2.
        destruct (memberships (db b) (WorkspaceInvitation.workspace_id inv) userId);
          [contradiction|].
        inversion Hr2. reflexivity.
      * cbn [db] in Hstmt2. unfold insert_workspace_member in Hstmt2.
        destruct (memberships (db b) (WorkspaceInvitation.workspace_id inv) userId);
          [contradiction|discriminate].
Qed.

Lemma acceptInvitation_of_member_at_Acme :
  workspaceService.ErrorResult.error
    (fst (workspaceService.acceptInvitation 12 1 (Acme.backend [])))
  = Some (PostgrestError unique_violation)
  /\ In Acme.invitation_row
        (workspace_invitations
           (db (snd (workspaceService.acceptInvitation 12 1 (Acme.backend []))))).
Proof.
  assert (Hmem : memberships (db (Acme.backend [])) 
                   (WorkspaceInvitation.workspace_id Acme.invitation_row) 1 <> [])
    by (cbn; discriminate).
  pose proof (proj2 (acceptInvitation_refusals (Acme.backend []) 12 1)
                Acme.invitation_row eq_refl Hmem) as H.
  exact (conj (proj2 (proj2 (proj2 H)) eq_refl eq_refl) (proj1 (proj2 (proj2 H)))).
Defined.

(** ** Deleting a workspace *)

Lemma filter_negb_In {A} (p : A -> bool) (l : list A) (x : A) :
  In x (filter (fun y => negb (p y)) l) <-> In x l /\ p x = false.
Proof. rewrite filter_In, negb_true_iff. reflexivity. Qed.

Lemma existsb_filter {A} (f g : A -> bool) (l : list A) :
  existsb f (filter g l) = existsb (fun x => g x && f x) l.
Proof.
  induction l as [|x l IH]; cbn; [reflexivity|].
  destruct (g x); cbn; rewrite IH; reflexivity.
Qed.

Lemma blocked_by_foreign_order (s : Store) (wid : uuid) :
  supplier_in_use
    (with_purchase_orders
       (filter (fun o => negb (Nat.eqb (PurchaseOrder.workspace_id o) wid))
               (purchase_orders s)) s)
    (fun sid : nat =>
       existsb (fun x => Nat.eqb (Supplier.id x) sid && Nat.eqb (Supplier.workspace_id x) wid)
               (suppliers s))
  = existsb (foreign_order_of_supplier s wid) (purchase_orders s).
Proof.
  unfold supplier_in_use. cbn [purchase_orders with_purchase_orders].
  rewrite existsb_filter. reflexivity.
Qed.

(** X11. [deleteWorkspace(workspaceId)] of a workspace that exists, the
    call not being made to fail. When a purchase order of another
    workspace refers to one of its suppliers, the delete is refused with
    the store's foreign-key violation and the store is unchanged.
    Otherwise it returns no error, whatever orders the workspace itself
    has with its suppliers: the workspace is gone and so is every member,
    invitation, supplier, inventory item and purchase order of it, with
    the lines of those orders, while the members, invitations, suppliers
    and purchase orders of the other workspaces are all still there. *)
Theorem deleteWorkspace_cascades (b : Backend) (workspaceId : uuid) :
  hd None (faults b) = None ->
  has_workspace (db b) workspaceId = true ->
  let run := workspaceAdmin.deleteWorkspace workspaceId b in
  let after := db (snd run) in
  (existsb (foreign_order_of_supplier (db b) workspaceId) (purchase_orders (db b)) = true ->
   workspaceService.ErrorResult.error (fst run)
   = Some (PostgrestError foreign_key_violation)
   /\ after = db b)
  /\ (existsb (foreign_order_of_supplier (db b) workspaceId) (purchase_orders (db b)) = false ->
      workspaceService.ErrorResult.error (fst run) = None
      /\ has_workspace after workspaceId = false
      /\ (forall m, In m (workspace_members after)
                    <-> In m (workspace_members (db b))
                        /\ WorkspaceMember.workspace_id m <> workspaceId)
      /\ (forall i, In i (workspace_invitations after)
                    <-> In i (workspace_invitations (db b))
                        /\ WorkspaceInvitation.workspace_id i <> workspaceId)
      /\ (forall x, In x (suppliers after)
                    <-> In x (suppliers (db b)) /\ Supplier.workspace_id x <> workspaceId)
      /\ (forall o, In o (purchase_orders after)
                    <-> In o (purchase_orders (db b))
                        /\ PurchaseOrder.workspace_id o <> workspaceId)
      /\ (forall li, In li (purchase_order_items after) ->
                     forall o, In o (purchase_orders (db b)) ->
                               PurchaseOrder.id o = PurchaseOrderItem.purchase_order_id li ->
                               PurchaseOrder.workspace_id o <> workspaceId)
      /\ (forall i, In i (inventory_items after) ->
                    InventoryItem.workspace_id i <> workspaceId)
      /\ (forall w, In w (workspaces after)
                    <-> In w (workspaces (db b)) /\ Workspace.id w <> workspaceId)).
Proof.
  intros Hhd Hhas run after. subst after run.
  unfold workspaceAdmin.deleteWorkspace, bind, ret.
  rewrite request_run by exact Hhd.
  unfold delete_workspace. cbv beta zeta. rewrite Hhas.
  rewrite (blocked_by_foreign_order (db b) workspaceId).
  destruct (existsb (foreign_order_of_supplier (db b) workspaceId) (purchase_orders (db b))).
  { split; [intros _; split; reflexivity|intros H; discriminate H]. }
  split; [intros H; discriminate H|]. intros _.
  cbn [fst snd success db Response.data Response.error
         workspaceService.ErrorResult.error].
  split; [reflexivity|]. cbn.
  assert (Hneq : forall a, Nat.eqb a workspaceId = false <-> a <> workspaceId).
  { intros a. apply Nat.eqb_neq. }
  split.
  { unfold has_workspace. cbn. apply existsb_none. apply forallb_forall.
    intros w Hw. apply filter_In in Hw. apply Hw. }
  split; [intros m; rewrite filter_negb_In, Hneq; reflexivity|].
  split; [intros i; rewrite filter_negb_In, Hneq; reflexivity|].
  split; [intros x; rewrite filter_negb_In, Hneq; reflexivity|].
  split; [intros o; rewrite filter_negb_In, Hneq; reflexivity|].
  split.
  { intros li Hli o Ho Hid Hws.
    apply in_map_iff in Hli. destruct Hli as [li0 [Hli0 Hin]].
    apply filter_In in Hin. destruct Hin as [_ Hkept].
    apply negb_true_iff in Hkept.
    assert (Hsame : PurchaseOrderItem.purchase_order_id li
                    = PurchaseOrderItem.purchase_order_id li0).
    { subst li. unfold on_inventory_item_delete.
      destruct (PurchaseOrderItem.inventory_item_id li0); [|reflexivity].
      destruct (existsb _ (inventory_items (db b))); reflexivity. }
    rewrite Hsame in Hid.
    assert (Hgone : existsb (fun o0 => Nat.eqb (PurchaseOrder.id o0)
                                               (PurchaseOrderItem.purchase_order_id li0)
                                       && Nat.eqb (PurchaseOrder.workspace_id o0) workspaceId)
                            (purchase_orders (db b)) = true).
    { apply existsb_exists. exists o. split; [exact Ho|].
      rewrite Hid, Hws, !Nat.eqb_refl. reflexivity. }
    rewrite Hgone in Hkept. discriminate Hkept. }
  split; [|intros w; rewrite filter_negb_In, Hneq; reflexivity].
  intros i Hi. apply in_map_iff in Hi. destruct Hi as [i0 [Hi0 Hin]].
  apply filter_negb_In in Hin. destruct Hin as [_ Hws]. apply Hneq in Hws.
  subst i. unfold on_supplier_delete.
  destruct (InventoryItem.supplier_id i0); [|exact Hws].
  destruct (existsb _ _); exact Hws.
Qed.

Lemma deleteWorkspace_at_Acme :
  let run := workspaceAdmin.deleteWorkspace 10 (Acme.reordered []) in
  purchase_orders (db (Acme.reordered [])) = [Acme.draft_order]
  /\ workspaceService.ErrorResult.error (fst run) = None
  /\ has_workspace (db (snd run)) 10 = false.
Proof.
  split; [reflexivity|].
  pose proof (proj2 (deleteWorkspace_cascades (Acme.reordered []) 10 eq_refl eq_refl)
                eq_refl) as H.
  exact (conj (proj1 H) (proj1 (proj2 H))).
Defined.

(** ** Orders, once created *)

Lemma add_items_keeps (P : Store -> Prop) (o : PurchaseOrder.t) :
  (forall itemData s s' row,
      purchaseOrderService.insert_purchase_order_item itemData s = inr (row, s') ->
      P s -> P s') ->
  forall (items : list purchaseOrderService.ReorderItem) (b : Backend),
    P (db b) -> P (db (snd (purchaseOrderService.add_items (Some o) items b))).
Proof.
  intros Hstep. induction items as [|item rest IH]; intros b Hb; [exact Hb|].
  cbn [purchaseOrderService.add_items].
  unfold purchaseOrderService.addPurchaseOrderItem, bind, ret.
  match goal with
  | |- context [request ?stmt b] =>
      destruct (request_cases stmt b) as [[e H]|[row [s1 [Hstmt [_ H]]]]]; rewrite H
  end.
  - exact Hb.
  - cbn [purchaseOrderService.throw_or_data success Response.error Response.data].
    apply IH. cbn [db]. exact (Hstep _ _ _ _ Hstmt Hb).
Qed.

Lemma insert_item_keeps_suppliers (S0 : list Supplier.t)
      (itemData : purchaseOrderService.CreatePurchaseOrderItemData) (s s' : Store)
      (row : PurchaseOrderItem.t) :
  purchaseOrderService.insert_purchase_order_item itemData s = inr (row, s') ->
  suppliers s = S0 -> suppliers s' = S0.
Proof.
  intros H. apply insert_item_accepted in H. destruct H as [-> _]. auto.
Qed.

Lemma insert_item_keeps_outside (s0 : Store)
      (itemData : purchaseOrderService.CreatePurchaseOrderItemData) (s s' : Store)
      (row : PurchaseOrderItem.t) :
  purchaseOrderService.insert_purchase_order_item itemData s = inr (row, s') ->
  outside_procurement s = s0 -> outside_procurement s' = s0.
Proof.
  intros H. apply insert_item_accepted in H. destruct H as [-> _]. auto.
Qed.

Lemma insert_order_references (s s1 : Store)
      (orderData : purchaseOrderService.CreatePurchaseOrderData) (o : PurchaseOrder.t) :
  purchaseOrderService.insert_purchase_order orderData s = inr (o, s1) ->
  has_supplier s (purchaseOrderService.supplier_id orderData) = true.
Proof.
  unfold purchaseOrderService.insert_purchase_order.
  destruct (has_workspace s _); [|discriminate].
  destruct (has_supplier s _); [reflexivity|discriminate].
Qed.

(** What a run of [createReorderPurchaseOrder] that added an order leaves. *)
Lemma createReorderPurchaseOrder_added (b : Backend) (workspaceId supplierId : uuid)
      (items : list purchaseOrderService.ReorderItem) (userId : option uuid) :
  purchase_orders
    (db (snd (purchaseOrderService.createReorderPurchaseOrder
                workspaceId supplierId items userId b)))
  <> purchase_orders (db b) ->
  exists (o : PurchaseOrder.t) (added : list PurchaseOrderItem.t),
    PurchaseOrder.id o = next_uuid (db b)
    /\ PurchaseOrder.supplier_id o = supplierId
    /\ has_supplier (db b) supplierId = true
    /\ purchase_orders
         (db (snd (purchaseOrderService.createReorderPurchaseOrder
                     workspaceId supplierId items userId b)))
       = purchase_orders (db b) ++ [o]
    /\ purchase_order_items
         (db (snd (purchaseOrderService.createReorderPurchaseOrder
                     workspaceId supplierId items userId b)))
       = purchase_order_items (db b) ++ added
    /\ Forall (fun li => PurchaseOrderItem.purchase_order_id li = PurchaseOrder.id o) added
    /\ suppliers
         (db (snd (purchaseOrderService.createReorderPurchaseOrder
                     workspaceId supplierId items userId b)))
       = suppliers (db b)
    /\ outside_procurement
         (db (snd (purchaseOrderService.createReorderPurchaseOrder
                     workspaceId supplierId items userId b)))
       = outside_procurement (db b).
Proof.
  unfold purchaseOrderService.createReorderPurchaseOrder,
    purchaseOrderService.createPurchaseOrder, bind, ret.
  match goal with
  | |- context [request ?stmt b] =>
      destruct (request_cases stmt b) as [[e H]|[o [s1 [Hstmt [_ H]]]]]; rewrite H
  end.
  - cbn. intros Hne. contradiction Hne. reflexivity.
  - intros _.
    pose proof (insert_order_references _ _ _ _ Hstmt) as Hsup.
    apply insert_order_accepted in Hstmt. destruct Hstmt as [Ho Hs1].
    cbn [purchaseOrderService.throw_or_data success Response.error Response.data].
    match goal with
    | |- context [purchaseOrderService.add_items (Some o) items ?b1] =>
        destruct (add_items_prefix o items b1)
          as [k [added [_ [Hlines [Hitems [Horders _]]]]]];
        pose proof (add_items_keeps (fun s => suppliers s = suppliers (db b)) o
                      (insert_item_keeps_suppliers (suppliers (db b))) items b1) as Hks;
        pose proof (add_items_keeps
                      (fun s => outside_procurement s = outside_procurement (db b)) o
                      (insert_item_keeps_outside (outside_procurement (db b))) items b1)
          as Hko;
        destruct (purchaseOrderService.add_items (Some o) items b1) as [added_result b2]
    end.
    cbn [fst snd db] in *. subst s1.
    exists o, added.
    cbn [purchaseOrderService.supplier_id] in Hsup.
    assert (Hall : Forall (fun li => PurchaseOrderItem.purchase_order_id li
                                     = PurchaseOrder.id o) added).
    { clear - Hlines. revert Hlines. generalize (firstn k items).
      induction added as [|li added IH]; intros l Hl; [constructor|].
      inversion Hl as [|x y l1 l2 Hx Hrest]; subst.
      constructor; [apply Hx|eapply IH; eassumption]. }
    destruct added_result; cbn [fst snd db];
      (split; [rewrite Ho; reflexivity|]; split; [rewrite Ho; reflexivity|];
       split; [exact Hsup|]; split; [exact Horders|]; split; [exact Hitems|];
       split; [exact Hall|]; split; [apply Hks; reflexivity|apply Hko; reflexivity]).
Qed.

Lemma store_by_parts (s1 s2 : Store) :
  outside_procurement s1 = outside_procurement s2 ->
  purchase_orders s1 = purchase_orders s2 ->
  purchase_order_items s1 = purchase_order_items s2 ->
  same_rows s2 s1.
Proof.
  unfold same_rows. destruct s1, s2. cbn. intros H Ho Hi.
  inversion H. subst. reflexivity.
Qed.

Lemma filter_app_gone {A} (p : A -> bool) (l added : list A) :
  forallb p l = true -> forallb (fun x => negb (p x)) added = true ->
  filter p (l ++ added) = l.
Proof.
  intros Hl Ha. rewrite filter_app, (filter_all _ _ Hl), (filter_none p added).
  - apply app_nil_r.
  - exact Ha.
Qed.

(** X12. An order added by [createReorderPurchaseOrder] pins its supplier,
    also when the run was rejected partway through the lines: a
    [deleteSupplier] of that supplier afterwards is rejected whatever the
    script of forced failures, the store is left as it was, and when the
    call is not forced to fail the error is the store's foreign-key
    violation. *)
Theorem deleteSupplier_after_reorder_is_rejected (b : Backend)
        (workspaceId supplierId : uuid) (items : list purchaseOrderService.ReorderItem)
        (userId : option uuid) :
  let after := snd (purchaseOrderService.createReorderPurchaseOrder
                      workspaceId supplierId items userId b) in
  purchase_orders (db after) <> purchase_orders (db b) ->
  let del := supplierService.deleteSupplier supplierId after in
  db (snd del) = db after
  /\ (exists e, fst del = Rejected e)
  /\ (hd None (faults after) = None ->
      fst del = Rejected (PostgrestError foreign_key_violation)).
Proof.
  intros after Hadded del. subst del.
  destruct (createReorderPurchaseOrder_added _ _ _ _ _ Hadded)
    as [o [added [_ [Hsid [Hsup [Horders [_ [_ [Hsuppliers _]]]]]]]]].
  fold after in Horders, Hsuppliers.
  assert (Hstmt : delete_supplier supplierId (db after)
                  = inl (PostgrestError foreign_key_violation)).
  { unfold delete_supplier, has_supplier, supplier_in_use.
    rewrite Hsuppliers. unfold has_supplier in Hsup. rewrite Hsup.
    rewrite Horders, existsb_app. cbn. rewrite Hsid, Nat.eqb_refl, orb_true_r.
    reflexivity. }
  unfold supplierService.deleteSupplier, bind, ret.
  destruct (request_cases (delete_supplier supplierId) after)
    as [[e H]|[a [s [Hs _]]]].
  - rewrite H. cbn. split; [reflexivity|]. split; [exists e; reflexivity|].
    intros Hrun. rewrite (request_run _ _ Hrun), Hstmt in H.
    inversion H. reflexivity.
  - rewrite Hstmt in Hs. discriminate Hs.
Qed.

Lemma deleteSupplier_after_reorder_at_Acme :
  let b := Acme.backend [] in
  let after := snd (purchaseOrderService.createReorderPurchaseOrder
                      10 13 [Acme.five_widgets; Acme.too_many_nuts] (Some 1%nat) b) in
  purchase_orders (db after) <> purchase_orders (db b)
  /\ db (snd (supplierService.deleteSupplier 13 after)) = db after
  /\ (exists e, fst (supplierService.deleteSupplier 13 after) = Rejected e)
  /\ (hd None (faults after) = None ->
      fst (supplierService.deleteSupplier 13 after)
      = Rejected (PostgrestError foreign_key_violation)).
Proof.
  intros b after.
  assert (H : purchase_orders (db after) <> purchase_orders (db b))
    by (intros H; vm_compute in H; discriminate H).
  split; [exact H|].
  exact (deleteSupplier_after_reorder_is_rejected b 10 13
           [Acme.five_widgets; Acme.too_many_nuts] (Some 1%nat) H).
Defined.

(** X13. [deletePurchaseOrder] undoes [createReorderPurchaseOrder]: in a
    store whose order and supplier identifiers are drawn ones, deleting
    the order that a run added (a run rejected partway included), the call
    not being forced to fail, resolves and leaves exactly the rows there
    were before the run: the order and each line the run had added are
    gone, and no other row is touched. *)
Theorem deletePurchaseOrder_undoes_reorder (b : Backend)
        (workspaceId supplierId : uuid) (items : list purchaseOrderService.ReorderItem)
        (userId : option uuid) (o : PurchaseOrder.t) :
  let after := snd (purchaseOrderService.createReorderPurchaseOrder
                      workspaceId supplierId items userId b) in
  procurement_ids_drawn (db b) = true ->
  In o (purchase_orders (db after)) ->
  ~ In o (purchase_orders (db b)) ->
  hd None (faults after) = None ->
  let del := orderWrites.deletePurchaseOrder (PurchaseOrder.id o) after in
  fst del = Resolved tt /\ same_rows (db b) (db (snd del)).
Proof.
  intros after Hdrawn Hin Hnew Hrun del. subst del.
  assert (Hadded : purchase_orders (db after) <> purchase_orders (db b)).
  { intros E. apply Hnew. rewrite <- E. exact Hin. }
  destruct (createReorderPurchaseOrder_added _ _ _ _ _ Hadded)
    as [o' [added [Hid [_ [_ [Horders [Hitems [Hall [_ Hout]]]]]]]]].
  fold after in Horders, Hitems, Hout.
  assert (o = o').
  { rewrite Horders in Hin. apply in_app_or in Hin. destruct Hin as [Hin|[Hin|[]]].
    - contradiction.
    - symmetry. exact Hin. }
  subst o'.
  unfold procurement_ids_drawn in Hdrawn.
  apply andb_true_iff in Hdrawn. destruct Hdrawn as [Hdrawn Hlines].
  apply andb_true_iff in Hdrawn. destruct Hdrawn as [_ Hold].
  assert (Hhas : has_purchase_order (db after) (PurchaseOrder.id o) = true).
  { unfold has_purchase_order. rewrite Horders, existsb_app. cbn [existsb].
    rewrite Nat.eqb_refl. cbn [orb]. apply orb_true_r. }
  unfold orderWrites.deletePurchaseOrder, bind, ret.
  rewrite (request_run _ _ Hrun).
  unfold delete_purchase_order. rewrite Hhas. cbn.
  split; [reflexivity|].
  apply store_by_parts; cbn.
  - exact Hout.
  - rewrite Horders. apply filter_app_gone.
    + revert Hold. apply forallb_impl. intros x Hx.
      apply Nat.ltb_lt in Hx. apply negb_true_iff, Nat.eqb_neq. lia.
    + cbn. rewrite Nat.eqb_refl. reflexivity.
  - rewrite Hitems. apply filter_app_gone.
    + revert Hlines. apply forallb_impl. intros x Hx.
      apply Nat.ltb_lt in Hx. apply negb_true_iff, Nat.eqb_neq. lia.
    + apply forallb_forall. intros li Hli.
      rewrite Forall_forall in Hall. rewrite (Hall li Hli), Nat.eqb_refl. reflexivity.
Qed.

Lemma deletePurchaseOrder_undoes_reorder_at_Acme :
  let b := Acme.backend [] in
  let after := snd (purchaseOrderService.createReorderPurchaseOrder
                      10 13 [Acme.five_widgets; Acme.too_many_nuts] (Some 1%nat) b) in
  fst (orderWrites.deletePurchaseOrder 20 after) = Resolved tt
  /\ same_rows (db b) (db (snd (orderWrites.deletePurchaseOrder 20 after))).
Proof.
  intros b after.
  refine (deletePurchaseOrder_undoes_reorder b 10 13
            [Acme.five_widgets; Acme.too_many_nuts] (Some 1%nat) Acme.draft_order
            _ _ _ _).
  - reflexivity.
  - vm_compute. left. reflexivity.
  - vm_compute. intros H. exact H.
  - reflexivity.
Defined.

(** ** Inventory items and order lines *)

Lemma line_apart_after_delete (gone : uuid -> bool) (li : PurchaseOrderItem.t) :
  line_apart_from_item (on_inventory_item_delete gone li) = line_apart_from_item li.
Proof.
  unfold on_inventory_item_delete.
  destruct (PurchaseOrderItem.inventory_item_id li) as [iid|]; [|reflexivity].
  destruct (gone iid); reflexivity.
Qed.

Lemma no_reference_after_delete (itemId : uuid) (li : PurchaseOrderItem.t) :
  refers_to_item itemId (on_inventory_item_delete (Nat.eqb itemId) li) = false.
Proof.
  unfold on_inventory_item_delete, refers_to_item.
  destruct (PurchaseOrderItem.inventory_item_id li) as [iid|] eqn:E; [|rewrite E; reflexivity].
  destruct (Nat.eqb itemId iid) eqn:Eg; cbn.
  - reflexivity.
  - rewrite E, Nat.eqb_sym. exact Eg.
Qed.

Lemma unreferring_line_kept (itemId : uuid) (li : PurchaseOrderItem.t) :
  refers_to_item itemId li = false ->
  on_inventory_item_delete (Nat.eqb itemId) li = li.
Proof.
  unfold on_inventory_item_delete, refers_to_item.
  destruct (PurchaseOrderItem.inventory_item_id li) as [iid|]; [|reflexivity].
  intros H. rewrite Nat.eqb_sym, H. reflexivity.
Qed.

(** X14. [deleteInventoryItem(itemId)] of an item that exists, the call not
    being forced to fail: the promise resolves and the item is gone, but no
    order line is: the lines are the same ones in the same order with
    their order, name, quantity and price as before, only the lines that
    referred to the item now refer to none (a line that did not is
    unchanged), and the orders are untouched. *)
Theorem deleteInventoryItem_keeps_order_lines (b : Backend) (itemId : uuid) :
  hd None (faults b) = None ->
  has_inventory_item (db b) itemId = true ->
  let run := orderWrites.deleteInventoryItem itemId b in
  fst run = Resolved tt
  /\ has_inventory_item (db (snd run)) itemId = false
  /\ map line_apart_from_item (purchase_order_items (db (snd run)))
     = map line_apart_from_item (purchase_order_items (db b))
  /\ (forall li, In li (purchase_order_items (db (snd run))) ->
                 refers_to_item itemId li = false)
  /\ (forall li, In li (purchase_order_items (db b)) ->
                 refers_to_item itemId li = false ->
                 In li (purchase_order_items (db (snd run))))
  /\ purchase_orders (db (snd run)) = purchase_orders (db b).
Proof.
  intros Hrun Hhas run. subst run.
  unfold orderWrites.deleteInventoryItem, bind, ret.
  rewrite (request_run _ _ Hrun).
  unfold delete_inventory_item. rewrite Hhas. cbn.
  split; [reflexivity|]. split.
  { unfold has_inventory_item. cbn.
    apply existsb_none. apply forallb_forall. intros x Hx.
    apply filter_In in Hx. apply Hx. }
  split.
  { rewrite map_map. apply map_ext. intros li. apply line_apart_after_delete. }
  split.
  { intros li Hli. apply in_map_iff in Hli. destruct Hli as [li0 [<- _]].
    apply no_reference_after_delete. }
  split; [|reflexivity].
  intros li Hli Hno. apply in_map_iff. exists li.
  split; [apply unreferring_line_kept; exact Hno|exact Hli].
Qed.

Lemma deleteInventoryItem_at_Acme :
  let run := orderWrites.deleteInventoryItem 14 (Acme.reordered []) in
  fst run = Resolved tt
  /\ has_inventory_item (db (snd run)) 14 = false
  /\ map line_apart_from_item (purchase_order_items (db (snd run)))
     = map line_apart_from_item (purchase_order_items (db (Acme.reordered [])))
  /\ (forall li, In li (purchase_order_items (db (snd run))) ->
                 refers_to_item 14 li = false)
  /\ (forall li, In li (purchase_order_items (db (Acme.reordered []))) ->
                 refers_to_item 14 li = false ->
                 In li (purchase_order_items (db (snd run))))
  /\ purchase_orders (db (snd run)) = purchase_orders (db (Acme.reordered [])).
Proof.
  apply (deleteInventoryItem_keeps_order_lines (Acme.reordered []) 14); reflexivity.
Defined.

(** ** Suppliers *)

(** X15. [createSupplier] and [getSupplier]. In a store whose supplier
    identifiers are drawn ones, a supplier that [createSupplier] resolved
    with has the fields that were passed, and [getSupplier] of its id on
    the store left by the call (not forced to fail) resolves with that very
    row and leaves the store as it was. *)
Theorem createSupplier_then_getSupplier (b : Backend)
        (supplierData : supplierWrites.CreateSupplierData) (x : Supplier.t) :
  procurement_ids_drawn (db b) = true ->
  let created := supplierWrites.createSupplier supplierData b in
  fst created = Resolved (Some x) ->
  hd None (faults (snd created)) = None ->
  Supplier.workspace_id x = supplierWrites.workspace_id supplierData
  /\ Supplier.company_name x = supplierWrites.company_name supplierData
  /\ Supplier.email x = supplierWrites.email supplierData
  /\ fst (supplierWrites.getSupplier (Supplier.id x) (snd created)) = Resolved (Some x)
  /\ db (snd (supplierWrites.getSupplier (Supplier.id x) (snd created))) = db (snd created).
Proof.
  intros Hdrawn created. subst created.
  unfold supplierWrites.createSupplier, bind, ret.
  destruct (request_cases (supplierWrites.insert_supplier supplierData) b)
    as [[e H]|[row [s1 [Hstmt [_ H]]]]]; rewrite H; cbn [fst snd db faults].
  - cbn. intros Hx. discriminate Hx.
  - cbn [purchaseOrderService.throw_or_data success Response.error Response.data].
    intros Hx Hrun. inversion Hx. subst row. clear Hx.
    unfold supplierWrites.insert_supplier in Hstmt.
    destruct (has_workspace (db b) _); [|discriminate Hstmt].
    injection Hstmt as Hrow Hs1.
    assert (Hid : Supplier.id x = next_uuid (db b)) by (rewrite <- Hrow; reflexivity).
    assert (Hsel : filter (fun y => Nat.eqb (Supplier.id y) (Supplier.id x))
                          (suppliers (db b) ++ [x]) = [x]).
    { rewrite filter_app. cbn. rewrite Nat.eqb_refl.
      rewrite filter_none; [reflexivity|].
      unfold procurement_ids_drawn in Hdrawn.
      apply andb_true_iff in Hdrawn. destruct Hdrawn as [Hdrawn _].
      apply andb_true_iff in Hdrawn. destruct Hdrawn as [Hsup _].
      revert Hsup. apply forallb_impl. intros y Hy.
      apply Nat.ltb_lt in Hy. apply negb_true_iff, Nat.eqb_neq. lia. }
    split; [rewrite <- Hrow; reflexivity|].
    split; [rewrite <- Hrow; reflexivity|].
    split; [rewrite <- Hrow; reflexivity|].
    assert (Hget : request (select_supplier (Supplier.id x))
                           {| db := s1; faults := tl (faults b) |}
                   = (success x, {| db := s1; faults := tl (tl (faults b)) |})).
    { rewrite request_run by exact Hrun. cbn [db faults].
      unfold select_supplier. rewrite <- Hs1 at 1. cbn [suppliers with_next_uuid with_suppliers].
      rewrite Hrow, Hsel. reflexivity. }
    unfold supplierWrites.getSupplier, bind, ret.
    rewrite Hget. cbn.
    split; reflexivity.
Qed.

Lemma createSupplier_then_getSupplier_at_Acme :
  let supplierData :=
    {| supplierWrites.workspace_id := 10;
       supplierWrites.company_name := "Bolts and Co"%string;
       supplierWrites.email := None;
       supplierWrites.phone := None;
       supplierWrites.website := None;
       supplierWrites.address := None |} in
  let created := supplierWrites.createSupplier supplierData (Acme.backend []) in
  exists x : Supplier.t,
    fst created = Resolved (Some x)
    /\ Supplier.workspace_id x = 10%nat
    /\ Supplier.company_name x = "Bolts and Co"%string
    /\ Supplier.email x = None
    /\ fst (supplierWrites.getSupplier (Supplier.id x) (snd created)) = Resolved (Some x)
    /\ db (snd (supplierWrites.getSupplier (Supplier.id x) (snd created)))
       = db (snd created).
Proof.
  intros supplierData created.
  exists {| Supplier.id := 20; Supplier.workspace_id := 10;
            Supplier.company_name := "Bolts and Co"%string;
            Supplier.email := None; Supplier.phone := None;
            Supplier.website := None; Supplier.address := None;
            Supplier.created_at := 1000; Supplier.updated_at := 1000 |}.
  split; [reflexivity|].
  exact (createSupplier_then_getSupplier (Acme.backend []) supplierData _
           eq_refl eq_refl eq_refl).
Defined.

(** X16. [getSupplier(supplierId)] never resolves with null, although its
    type allows it, and never changes the store: under any script of
    forced failures it resolves with a supplier row or is rejected; for an
    id that no supplier has it is always rejected, with PGRST116 when the
    call is not forced to fail. *)
Theorem getSupplier_never_resolves_with_null (b : Backend) (supplierId : uuid) :
  let run := supplierWrites.getSupplier supplierId b in
  fst run <> Resolved None
  /\ db (snd run) = db b
  /\ (forall x, fst run = Resolved (Some x) ->
                In x (suppliers (db b)) /\ Supplier.id x = supplierId)
  /\ (has_supplier (db b) supplierId = false ->
      (exists e, fst run = Rejected e)
      /\ (hd None (faults b) = None -> fst run = Rejected (PostgrestError PGRST116))).
Proof.
  intros run. subst run.
  unfold supplierWrites.getSupplier, bind, ret.
  assert (Hnone : has_supplier (db b) supplierId = false ->
                  select_supplier supplierId (db b) = inl (PostgrestError PGRST116)).
  { intros Hnone. unfold select_supplier.
    rewrite filter_none; [reflexivity|].
    unfold has_supplier in Hnone.
    apply forallb_forall. intros y Hy. apply negb_true_iff.
    destruct (Nat.eqb (Supplier.id y) supplierId) eqn:E; [|reflexivity].
    rewrite <- Hnone. symmetry. apply existsb_exists. exists y. split; assumption. }
  destruct (request_cases (select_supplier supplierId) b)
    as [[e H]|[x [s1 [Hstmt [_ H]]]]].
  - rewrite H. cbn.
    split; [intros Hx; discriminate Hx|]. split; [reflexivity|].
    split; [intros x Hx; discriminate Hx|].
    intros Hno. split; [exists e; reflexivity|].
    intros Hrun. rewrite (request_run _ _ Hrun), (Hnone Hno) in H.
    inversion H. reflexivity.
  - rewrite H. cbn.
    unfold select_supplier in Hstmt.
    destruct (filter _ (suppliers (db b))) as [|y [|z rest]] eqn:Ef;
      cbn in Hstmt; try discriminate Hstmt.
    injection Hstmt as Hy Hs1. subst y s1.
    assert (Hin : In x (filter (fun y => Nat.eqb (Supplier.id y) supplierId)
                               (suppliers (db b))))
      by (rewrite Ef; left; reflexivity).
    apply filter_In in Hin. destruct Hin as [Hin Hid]. apply Nat.eqb_eq in Hid.
    split; [intros Hx; discriminate Hx|]. split; [reflexivity|].
    split.
    + intros x' Hx. inversion Hx. subst x'. split; assumption.
    + intros Hno. exfalso.
      unfold has_supplier in Hno.
      assert (Hex : existsb (fun y => Nat.eqb (Supplier.id y) supplierId)
                            (suppliers (db b)) = true).
      { apply existsb_exists. exists x. split; [exact Hin|].
        apply Nat.eqb_eq. exact Hid. }
      rewrite Hex in Hno. discriminate Hno.
Qed.

(** ** Order lines, one at a time *)

(** X17. [removePurchaseOrderItem] undoes [addPurchaseOrderItem]: in a
    store whose line identifiers are drawn ones, removing the line that
    [addPurchaseOrderItem] resolved with, the call not being forced to
    fail, resolves and leaves exactly the rows there were before the line
    was added. *)
Theorem removePurchaseOrderItem_undoes_add (b : Backend)
        (itemData : purchaseOrderService.CreatePurchaseOrderItemData)
        (row : PurchaseOrderItem.t) :
  line_ids_drawn (db b) = true ->
  let added := purchaseOrderService.addPurchaseOrderItem itemData b in
  fst added = Resolved (Some row) ->
  hd None (faults (snd added)) = None ->
  let removed := orderWrites.removePurchaseOrderItem (PurchaseOrderItem.id row) (snd added) in
  fst removed = Resolved tt /\ same_rows (db b) (db (snd removed)).
Proof.
  intros Hdrawn added. subst added.
  unfold purchaseOrderService.addPurchaseOrderItem, bind, ret.
  destruct (request_cases (purchaseOrderService.insert_purchase_order_item itemData) b)
    as [[e H]|[row' [s1 [Hstmt [_ H]]]]]; rewrite H; cbn [fst snd db faults].
  - cbn. intros Hx. discriminate Hx.
  - cbn [purchaseOrderService.throw_or_data success Response.error Response.data].
    intros Hx Hrun. injection Hx as Hx. subst row'.
    assert (Hid : PurchaseOrderItem.id row = next_uuid (db b)).
    { unfold purchaseOrderService.insert_purchase_order_item,
        purchaseOrderService.purchase_order_item_row in Hstmt.
      destruct (int4 _); [|discriminate Hstmt].
      destruct (decimal_10_2_opt _); [discriminate Hstmt|].
      destruct (_ && _); [|discriminate Hstmt].
      injection Hstmt as Hrow _. rewrite <- Hrow. reflexivity. }
    apply insert_item_accepted in Hstmt. destruct Hstmt as [Hs1 _].
    unfold orderWrites.removePurchaseOrderItem, bind, ret.
    rewrite request_run by exact Hrun.
    unfold delete_purchase_order_item. cbn.
    split; [reflexivity|].
    unfold same_rows. subst s1. cbn.
    rewrite filter_app_gone.
    + destruct (db b); reflexivity.
    + revert Hdrawn. unfold line_ids_drawn. apply forallb_impl. intros li Hli.
      apply Nat.ltb_lt in Hli. apply negb_true_iff, Nat.eqb_neq. lia.
    + cbn. rewrite Nat.eqb_refl. reflexivity.
Qed.

Lemma removePurchaseOrderItem_undoes_add_at_Acme :
  let itemData :=
    {| purchaseOrderService.purchase_order_id := 20;
       purchaseOrderService.inventory_item_id := None;
       purchaseOrderService.item_name := "Nut"%string;
       purchaseOrderService.quantity := 3;
       purchaseOrderService.unit_price := None |} in
  let b := Acme.reordered [] in
  let added := purchaseOrderService.addPurchaseOrderItem itemData b in
  exists row : PurchaseOrderItem.t,
    fst added = Resolved (Some row)
    /\ fst (orderWrites.removePurchaseOrderItem (PurchaseOrderItem.id row) (snd added))
       = Resolved tt
    /\ same_rows (db b)
         (db (snd (orderWrites.removePurchaseOrderItem (PurchaseOrderItem.id row)
                     (snd added)))).
Proof.
  intros itemData b added.
  exists {| PurchaseOrderItem.id := 22; PurchaseOrderItem.purchase_order_id := 20;
            PurchaseOrderItem.inventory_item_id := None;
            PurchaseOrderItem.item_name := "Nut"%string;
            PurchaseOrderItem.quantity := 3;
            PurchaseOrderItem.unit_price := None;
            PurchaseOrderItem.created_at := 1000 |}.
  split; [reflexivity|].
  exact (removePurchaseOrderItem_undoes_add b itemData _ eq_refl eq_refl eq_refl).
Defined.


(** ** Invitations withdrawn, workspaces read back *)

Lemma select_deleted_invitation (s : Store) (invitationId : uuid) :
  select_invitation invitationId
    (with_workspace_invitations
       (filter (fun i => negb (Nat.eqb (WorkspaceInvitation.id i) invitationId))
               (workspace_invitations s)) s)
  = inl (PostgrestError PGRST116).
Proof.
  unfold select_invitation. cbn.
  rewrite filter_none; [reflexivity|].
  apply forallb_forall. intros i Hi. apply filter_In in Hi. apply Hi.
Qed.

(** X19. [deleteInvitation] withdraws the invitation: once it has returned
    no error, [acceptInvitation] of that invitation by any user answers an
    error under every script of forced failures (PGRST116 when its fetch
    is not forced to fail) and leaves the store as it was, so no
    membership comes from a withdrawn invitation. The invitations with
    other ids are all kept by the delete. *)
Theorem deleteInvitation_withdraws (b : Backend) (invitationId userId : uuid) :
  let deleted := workspaceAdmin.deleteInvitation invitationId b in
  workspaceService.ErrorResult.error (fst deleted) = None ->
  let run := workspaceService.acceptInvitation invitationId userId (snd deleted) in
  workspaceService.ErrorResult.error (fst run) <> None
  /\ db (snd run) = db (snd deleted)
  /\ (hd None (faults (snd deleted)) = None ->
      workspaceService.ErrorResult.error (fst run) = Some (PostgrestError PGRST116))
  /\ (forall i, In i (workspace_invitations (db b)) ->
                WorkspaceInvitation.id i <> invitationId ->
                In i (workspace_invitations (db (snd deleted))))
  /\ workspace_members (db (snd deleted)) = workspace_members (db b).
Proof.
  intros deleted. subst deleted.
  unfold workspaceAdmin.deleteInvitation, bind, ret.
  destruct (request_cases (delete_invitation invitationId) b)
    as [[e H]|[u [s1 [Hstmt [_ H]]]]]; rewrite H; cbn [fst snd db faults].
  { cbn. intros Hx. discriminate Hx. }
  intros _. unfold delete_invitation in Hstmt. injection Hstmt as _ Hs1.
  pose proof (select_deleted_invitation (db b) invitationId) as Hsel.
  rewrite Hs1 in Hsel.
  set (b1 := {| db := s1; faults := tl (faults b) |}).
  assert (Hfetch : exists e,
             request (select_invitation invitationId) b1
             = (failure e, {| db := s1; faults := tl (faults b1) |})
             /\ (hd None (faults b1) = None -> e = PostgrestError PGRST116)).
  { destruct (request_cases (select_invitation invitationId) b1)
      as [[e He]|[a [s2 [Hs2 _]]]].
    - exists e. split; [exact He|].
      intros Hrun. rewrite (request_run _ _ Hrun) in He.
      cbn [db b1] in He. rewrite Hsel in He. inversion He. reflexivity.
    - cbn [db b1] in Hs2. rewrite Hsel in Hs2. discriminate Hs2. }
  destruct Hfetch as [e [He Hcode]].
  unfold workspaceService.acceptInvitation, bind, ret. rewrite He. cbn.
  split; [discriminate|]. split; [reflexivity|]. split.
  { intros Hrun. rewrite (Hcode Hrun). reflexivity. }
  subst s1. cbn. split; [|reflexivity].
  intros i Hi Hne. apply filter_In. split; [exact Hi|].
  apply negb_true_iff, Nat.eqb_neq. exact Hne.
Qed.

Lemma deleteInvitation_withdraws_at_Acme :
  let deleted := workspaceAdmin.deleteInvitation 12 (Acme.backend []) in
  let run := workspaceService.acceptInvitation 12 2 (snd deleted) in
  workspaceService.ErrorResult.error (fst run) <> None
  /\ db (snd run) = db (snd deleted)
  /\ (hd None (faults (snd deleted)) = None ->
      workspaceService.ErrorResult.error (fst run) = Some (PostgrestError PGRST116))
  /\ (forall i, In i (workspace_invitations (db (Acme.backend []))) ->
                WorkspaceInvitation.id i <> 12%nat ->
                In i (workspace_invitations (db (snd deleted))))
  /\ workspace_members (db (snd deleted)) = workspace_members (db (Acme.backend [])).
Proof.
  exact (deleteInvitation_withdraws (Acme.backend []) 12 2 eq_refl).
Defined.

(** X20. [deleteInvitation] undoes [createInvitation]: in a store whose
    invitation identifiers are drawn ones, deleting the invitation that
    [createInvitation] returned, the call not being forced to fail,
    returns no error and leaves exactly the rows there were before the
    invitation was created; the address can then be invited again. *)
Theorem deleteInvitation_undoes_createInvitation
        (b : Backend) (workspaceId : uuid) (email : string) (role : WorkspaceRole)
        (invitedBy : uuid) (inv : WorkspaceInvitation.t) :
  invitation_ids_drawn (db b) = true ->
  let created := workspaceAdmin.createInvitation workspaceId email role invitedBy b in
  workspaceAdmin.InvitationResult.invitation (fst created) = Some inv ->
  hd None (faults (snd created)) = None ->
  let deleted := workspaceAdmin.deleteInvitation (WorkspaceInvitation.id inv) (snd created) in
  workspaceService.ErrorResult.error (fst deleted) = None
  /\ same_rows (db b) (db (snd deleted))
  /\ invitations_for (db (snd deleted)) workspaceId email = [].
Proof.
  intros Hdrawn created Hinv. subst created.
  destruct (createInvitation_result _ _ _ _ _ _ Hinv) as [Hstmt Hrun].
  rewrite Hrun. cbn [snd faults db]. intros Hnext.
  apply insert_invitation_accepted in Hstmt.
  destruct Hstmt as [Hfree [_ [Hrow Hs1]]].
  assert (Hid : WorkspaceInvitation.id inv = next_uuid (db b))
    by (rewrite Hrow; reflexivity).
  unfold workspaceAdmin.deleteInvitation, bind, ret.
  rewrite request_run by exact Hnext. cbn [db faults].
  unfold delete_invitation. cbn [fst snd success Response.error db].
  rewrite Hs1. cbn [workspace_invitations with_next_uuid with_workspace_invitations].
  assert (Hkept : filter (fun i => negb (Nat.eqb (WorkspaceInvitation.id i)
                                                 (WorkspaceInvitation.id inv)))
                         (workspace_invitations (db b) ++ [inv])
                  = workspace_invitations (db b)).
  { apply filter_app_gone.
    - rewrite Hid. revert Hdrawn. unfold invitation_ids_drawn. apply forallb_impl.
      intros i Hi. apply Nat.ltb_lt in Hi. apply negb_true_iff, Nat.eqb_neq. lia.
    - cbn. rewrite Nat.eqb_refl. reflexivity. }
  split; [reflexivity|]. split.
  - unfold same_rows. cbn. rewrite Hkept. destruct (db b); reflexivity.
  - unfold invitations_for in *. cbn. rewrite Hkept. exact Hfree.
Qed.

Lemma deleteInvitation_undoes_createInvitation_at_Acme :
  let b := Acme.backend [] in
  let created := workspaceAdmin.createInvitation 10 "cy@example.com"%string member 1 b in
  exists inv : WorkspaceInvitation.t,
    workspaceAdmin.InvitationResult.invitation (fst created) = Some inv
    /\ workspaceService.ErrorResult.error
         (fst (workspaceAdmin.deleteInvitation (WorkspaceInvitation.id inv) (snd created)))
       = None
    /\ same_rows (db b)
         (db (snd (workspaceAdmin.deleteInvitation (WorkspaceInvitation.id inv)
                     (snd created))))
    /\ invitations_for
         (db (snd (workspaceAdmin.deleteInvitation (WorkspaceInvitation.id inv)
                     (snd created)))) 10 "cy@example.com"%string = [].
Proof.
  intros b created.
  exists {| WorkspaceInvitation.id := 20;
            WorkspaceInvitation.workspace_id := 10;
            WorkspaceInvitation.email := "cy@example.com"%string;
            WorkspaceInvitation.role := member;
            WorkspaceInvitation.invited_by := Some 1%nat;
            WorkspaceInvitation.created_at := 1000;
            WorkspaceInvitation.expires_at := 1000 + seven_days |}.
  split; [reflexivity|].
  exact (deleteInvitation_undoes_createInvitation b 10 "cy@example.com"%string member 1 _
           eq_refl eq_refl eq_refl).
Defined.

(** X21. [getWorkspace] reads back what [createWorkspace] returned: from a
    store that satisfies its constraints, when [createWorkspace] returns a
    workspace, [getWorkspace] of its id (not forced to fail) returns that
    very row and no error, and leaves the store as it was. *)
Theorem createWorkspace_then_getWorkspace (s : Store) (script : list (option Err))
        (name : string) (userId : uuid) (w : Workspace.t) :
  store_ok s = true ->
  let created := workspaceService.createWorkspace name userId {| db := s; faults := script |} in
  workspaceService.WorkspaceResult.workspace (fst created) = Some w ->
  hd None (faults (snd created)) = None ->
  fst (workspaceAdmin.getWorkspace (Workspace.id w) (snd created))
  = {| workspaceService.WorkspaceResult.workspace := Some w;
       workspaceService.WorkspaceResult.error := None |}
  /\ db (snd (workspaceAdmin.getWorkspace (Workspace.id w) (snd created)))
     = db (snd created).
Proof.
  intros Hok created Hw. subst created.
  destruct (createWorkspace_returned s name userId script w Hok Hw) as [-> Hsnd].
  rewrite Hsnd. cbn [faults]. intros Hrun.
  unfold workspaceAdmin.getWorkspace, bind, ret.
  rewrite request_run by exact Hrun. cbn [db].
  unfold select_workspace. cbn.
  rewrite filter_app. cbn. rewrite Nat.eqb_refl.
  rewrite filter_none; [split; reflexivity|].
  generalize (workspace_ids_drawn s Hok). apply forallb_impl.
  intros x Hx. apply Nat.ltb_lt in Hx. apply negb_true_iff, Nat.eqb_neq. lia.
Qed.

Lemma createWorkspace_then_getWorkspace_at_Acme :
  let created := workspaceService.createWorkspace "Depot"%string 1 (Acme.backend []) in
  workspaceService.WorkspaceResult.workspace (fst created)
  = Some (new_workspace Acme.store "Depot"%string 1)
  /\ fst (workspaceAdmin.getWorkspace 20 (snd created))
     = {| workspaceService.WorkspaceResult.workspace
            := Some (new_workspace Acme.store "Depot"%string 1);
          workspaceService.WorkspaceResult.error := None |}
  /\ db (snd (workspaceAdmin.getWorkspace 20 (snd created))) = db (snd created).
Proof.
  intros created. split; [reflexivity|].
  exact (createWorkspace_then_getWorkspace Acme.store [] "Depot"%string 1
           (new_workspace Acme.store "Depot"%string 1) eq_refl eq_refl eq_refl).
Defined.

(** ** Pages and forms *)

Lemma update_member_role_of_member (s : Store) (wid uid : uuid) (r : WorkspaceRole)
      (m : WorkspaceMember.t) :
  memberships s wid uid = [m] ->
  exists s',
    update_member_role wid uid r s = inr (with_role r m, s')
    /\ memberships s' wid uid = [with_role r m]
    /\ workspace_members s'
       = map (fun x => if is_membership wid uid x then with_role r x else x)
             (workspace_members s)
    /\ with_workspace_members (workspace_members s) s' = s.
Proof.
  intros Hm. unfold update_member_role. rewrite Hm. eexists.
  split; [reflexivity|]. split; [|split].
  - unfold memberships in *. cbn.
    change (fun m0 => Nat.eqb (WorkspaceMember.workspace_id m0) wid
                      && Nat.eqb (WorkspaceMember.user_id m0) uid)
      with (is_membership wid uid) in *.
    rewrite memberships_after_update_same, Hm. reflexivity.
  - reflexivity.
  - destruct s. reflexivity.
Qed.

Lemma menuRole_twice (m : WorkspaceMember.t) :
  Team.menuRole (with_role (Team.menuRole m) m) = WorkspaceMember.role m.
Proof. unfold Team.menuRole. cbn. destruct (WorkspaceMember.role m); reflexivity. Qed.

Lemma menuRole_other (m : WorkspaceMember.t) : Team.menuRole m <> WorkspaceMember.role m.
Proof. unfold Team.menuRole. destruct (WorkspaceMember.role m); cbn; discriminate. Qed.

(** X22. The role entry of the team page's member menu is a toggle. For a
    member, [updateMemberRole] with the role the menu passes (the other
    one) returns the member with the role changed; done a second time on
    the member as then listed, it returns the member as it was at first
    and the store is again the store there was, neither call being forced
    to fail. *)
Theorem role_changed_twice_is_restored (b : Backend) (workspaceId userId : uuid)
        (m : WorkspaceMember.t) :
  memberships (db b) workspaceId userId = [m] ->
  hd None (faults b) = None ->
  hd None (tl (faults b)) = None ->
  let once := workspaceAdmin.updateMemberRole workspaceId userId (Team.menuRole m) b in
  exists m1,
    workspaceAdmin.MemberResult.member (fst once) = Some m1
    /\ WorkspaceMember.role m1 <> WorkspaceMember.role m
    /\ get_user_workspace_role (db (snd once)) workspaceId userId
       = Some (WorkspaceMember.role m1)
    /\ workspaceAdmin.MemberResult.member
         (fst (workspaceAdmin.updateMemberRole workspaceId userId (Team.menuRole m1)
                 (snd once))) = Some m
    /\ db (snd (workspaceAdmin.updateMemberRole workspaceId userId (Team.menuRole m1)
                  (snd once))) = db b.
Proof.
  intros Hm H1 H2 once. subst once.
  destruct (update_member_role_of_member (db b) workspaceId userId (Team.menuRole m) m Hm)
    as [s1 [Hstmt1 [Hm1 [Hrows1 Hrest1]]]].
  set (m1 := with_role (Team.menuRole m) m) in *.
  destruct (update_member_role_of_member s1 workspaceId userId (Team.menuRole m1) m1 Hm1)
    as [s2 [Hstmt2 [_ [Hrows2 Hrest2]]]].
  exists m1.
  unfold workspaceAdmin.updateMemberRole, bind, ret.
  rewrite request_run by exact H1. rewrite Hstmt1.
  cbn [fst snd success db faults Response.data Response.error
       workspaceAdmin.MemberResult.member].
  rewrite request_run by exact H2. cbn [db]. rewrite Hstmt2.
  cbn [fst snd success db faults Response.data Response.error
       workspaceAdmin.MemberResult.member].
  split; [reflexivity|]. split; [apply menuRole_other|].
  split; [unfold get_user_workspace_role; rewrite Hm1; reflexivity|].
  split.
  - unfold m1. rewrite menuRole_twice.
    destruct m. reflexivity.
  - assert (Hback : workspace_members s2 = workspace_members (db b)).
    { rewrite Hrows2, Hrows1, map_map.
      rewrite <- (map_id (workspace_members (db b))) at 2.
      apply map_ext_in. intros x Hx.
      destruct (is_membership workspaceId userId x) eqn:E.
      - rewrite with_role_key, E.
        assert (Hin : In x (memberships (db b) workspaceId userId)).
        { unfold memberships. apply filter_In. split; [exact Hx|exact E]. }
        rewrite Hm in Hin. destruct Hin as [<-|[]].
        unfold m1. rewrite menuRole_twice. destruct m. reflexivity.
      - rewrite E. reflexivity. }
    rewrite <- Hrest1, <- Hrest2 at 1.
    rewrite <- Hback. destruct s2. reflexivity.
Qed.

Lemma role_changed_twice_at_Acme :
  let once := workspaceAdmin.updateMemberRole 10 1 member (Acme.backend []) in
  exists m1,
    workspaceAdmin.MemberResult.member (fst once) = Some m1
    /\ WorkspaceMember.role m1 <> admin
    /\ get_user_workspace_role (db (snd once)) 10 1 = Some (WorkspaceMember.role m1)
    /\ workspaceAdmin.MemberResult.member
         (fst (workspaceAdmin.updateMemberRole 10 1 (Team.menuRole m1) (snd once)))
       = Some Acme.admin_row
    /\ db (snd (workspaceAdmin.updateMemberRole 10 1 (Team.menuRole m1) (snd once)))
       = Acme.store.
Proof.
  exact (role_changed_twice_is_restored (Acme.backend []) 10 1 Acme.admin_row
           eq_refl eq_refl eq_refl).
Defined.

Lemma filter_index_keeps_all {A} (keep : A -> nat -> bool) (l : list A) :
  forall k,
    (forall x i, (k <= i)%nat -> keep x i = true) ->
    OrderLines.filter_index keep k l = l.
Proof.
  induction l as [|x l IH]; intros k Hk; cbn; [reflexivity|].
  rewrite (Hk x k (le_n k)), IH; [reflexivity|].
  intros y i Hi. apply Hk. lia.
Qed.

Lemma filter_index_drops_one {A} (l : list A) :
  forall k index,
    OrderLines.filter_index (fun _ i => negb (Nat.eqb i (k + index))) k l
    = firstn index l ++ skipn (S index) l.
Proof.
  induction l as [|x l IH]; intros k index; cbn.
  - destruct index; reflexivity.
  - destruct index as [|j].
    + rewrite Nat.add_0_r, Nat.eqb_refl. cbn.
      apply filter_index_keeps_all. intros y i Hi.
      apply negb_true_iff, Nat.eqb_neq. lia.
    + replace (Nat.eqb k (k + S j)) with false
        by (symmetry; apply Nat.eqb_neq; lia).
      cbn. f_equal.
      replace (k + S j)%nat with (S k + j)%nat by lia.
      apply IH.
Qed.

Lemma nth_error_parts {A} (l : list A) :
  forall index x, nth_error l index = Some x ->
                  l = firstn index l ++ x :: skipn (S index) l.
Proof.
  induction l as [|y l IH]; intros [|j] x H; cbn in *; try discriminate.
  - inversion H. reflexivity.
  - f_equal. apply IH. exact H.
Qed.

Lemma removeItem_parts (orderItems : list PurchaseOrderModal.OrderItem) (index : nat) :
  OrderLines.removeItem orderItems index
  = firstn index orderItems ++ skipn (S index) orderItems.
Proof.
  unfold OrderLines.removeItem. exact (filter_index_drops_one orderItems 0 index).
Qed.

(** X23. [removeItem(index)] of the order form removes the line at that
    index and no other: the lines before and after it stay, in order, and
    the form is one line shorter. With no line at the index nothing
    changes. Removing the line that was added last gives back the lines,
    and so the total, there were before it was added. *)
Theorem removeItem_removes_that_line
        (orderItems : list PurchaseOrderModal.OrderItem) (index : nat) :
  OrderLines.removeItem orderItems index
  = firstn index orderItems ++ skipn (S index) orderItems
  /\ (forall line,
         nth_error orderItems index = Some line ->
         orderItems = firstn index orderItems ++ line :: skipn (S index) orderItems
         /\ S (List.length (OrderLines.removeItem orderItems index)) = List.length orderItems)
  /\ (nth_error orderItems index = None ->
      OrderLines.removeItem orderItems index = orderItems)
  /\ (forall line,
         OrderLines.removeItem (orderItems ++ [line]) (List.length orderItems) = orderItems
         /\ PurchaseOrderModal.totalAmount
              (OrderLines.removeItem (orderItems ++ [line]) (List.length orderItems))
            = PurchaseOrderModal.totalAmount orderItems).
Proof.
  pose proof (removeItem_parts orderItems index) as Hparts.
  split; [exact Hparts|]. split; [|split].
  - intros line Hline. rewrite Hparts.
    pose proof (nth_error_parts orderItems index line Hline) as Hsplit.
    split; [exact Hsplit|].
    rewrite Hsplit at 3. rewrite !length_app. cbn. lia.
  - intros Hnone. rewrite Hparts.
    apply nth_error_None in Hnone.
    rewrite firstn_all2 by exact Hnone.
    rewrite skipn_all2 by lia. apply app_nil_r.
  - intros line.
    assert (Hlast : OrderLines.removeItem (orderItems ++ [line]) (List.length orderItems)
                    = orderItems).
    { rewrite removeItem_parts.
      rewrite firstn_app, Nat.sub_diag, firstn_all. cbn [firstn]. rewrite app_nil_r.
      rewrite skipn_all2 by (rewrite length_app; cbn; lia). apply app_nil_r. }
    split; [exact Hlast|]. rewrite Hlast. reflexivity.
Qed.

Lemma Forall_without_one {A} (P : A -> Prop) (l : list A) :
  forall index, Forall P l -> Forall P (firstn index l ++ skipn (S index) l).
Proof.
  induction l as [|x l IH]; intros index Hall.
  - destruct index; constructor.
  - inversion Hall as [|y l' Hx Hrest]; subst.
    destruct index as [|j]; cbn.
    + exact Hrest.
    + constructor; [exact Hx|]. apply IH. exact Hrest.
Qed.

Lemma updateItemQty_keeps_at_least_one (orderItems : list PurchaseOrderModal.OrderItem) :
  forall index qty updated,
    quantities_at_least_one orderItems ->
    PurchaseOrderModal.updateItemQty orderItems index qty = Some updated ->
    quantities_at_least_one updated.
Proof.
  unfold quantities_at_least_one.
  induction orderItems as [|item rest IH]; intros index qty updated Hall H; cbn in H.
  - discriminate H.
  - inversion Hall as [|x l Hx Hrest]; subst.
    destruct index as [|i].
    + inversion H. constructor; [cbn; lia|exact Hrest].
    + destruct (PurchaseOrderModal.updateItemQty rest i qty) as [rest'|] eqn:E;
        [|discriminate H].
      inversion H. constructor; [exact Hx|].
      exact (IH i qty rest' Hrest E).
Qed.

(** X24. Quantities in the order form. The line the form opens with asks
    for at least one unit, and [updateItemQty] and [removeItem] keep every
    line at one unit or more. [addItem] does not: the quantity field keeps
    what was typed unless it is 0 or not a number ([parseInt(..) || 1]), a
    negative number included, and [addItem] appends the line with that
    quantity as it is, so with a name that is not blank the lines stay at
    one unit or more exactly when the quantity typed is. A blank name adds
    nothing. *)
Theorem order_form_quantities (trim : string -> string) :
  (forall preselectedItem,
      quantities_at_least_one (PurchaseOrderModal.prefill preselectedItem))
  /\ (forall orderItems index qty updated,
         quantities_at_least_one orderItems ->
         PurchaseOrderModal.updateItemQty orderItems index qty = Some updated ->
         quantities_at_least_one updated)
  /\ (forall orderItems index,
         quantities_at_least_one orderItems ->
         quantities_at_least_one (OrderLines.removeItem orderItems index))
  /\ (forall n, n <> 0 -> OrderLines.enteredQty (Some n) = n)
  /\ (forall orderItems name qty price,
         String.eqb (trim name) EmptyString = true ->
         OrderLines.addItem trim orderItems name qty price = orderItems)
  /\ (forall orderItems name qty price,
         String.eqb (trim name) EmptyString = false ->
         quantities_at_least_one orderItems ->
         (quantities_at_least_one (OrderLines.addItem trim orderItems name qty price)
          <-> 1 <= qty)).
Proof.
  split; [|split; [|split; [|split; [|split]]]].
  - intros item. unfold quantities_at_least_one, PurchaseOrderModal.prefill.
    constructor; [cbn; lia|constructor].
  - intros orderItems index qty updated. apply updateItemQty_keeps_at_least_one.
  - intros orderItems index Hall. unfold quantities_at_least_one in *.
    rewrite removeItem_parts. apply Forall_without_one. exact Hall.
  - intros n Hn. unfold OrderLines.enteredQty.
    destruct (n =? 0) eqn:E; [|reflexivity]. apply Z.eqb_eq in E. contradiction.
  - intros orderItems name qty price Hblank. unfold OrderLines.addItem.
    rewrite Hblank. reflexivity.
  - intros orderItems name qty price Hname Hall. unfold OrderLines.addItem.
    rewrite Hname. unfold quantities_at_least_one in *. split.
    + intros H. apply Forall_app in H. destruct H as [_ H].
      inversion H as [|x l Hx _]; subst. exact Hx.
    + intros Hq. apply Forall_app. split; [exact Hall|].
      constructor; [exact Hq|constructor].
Qed.

(** ** Dashboard and inventory page *)

(** X25. The low-stock card of the dashboard and its counter. The list
    shows the first five low-stock items (all of them when there are at
    most five), so its length is the smaller of 5 and the counter; every
    item it shows is an item that is low on stock; it reads "All stocked
    up!" exactly when no item is low on stock, which is exactly when the
    counter's card is not marked urgent. *)
Theorem low_stock_card_agrees_with_counter (items : list InventoryItem.t) :
  List.length (Dashboard.lowStockItems items) = Nat.min 5 (Dashboard.lowStockCount items)
  /\ ((Dashboard.lowStockCount items <= 5)%nat ->
      Dashboard.lowStockItems items = Dashboard.lowStock items)
  /\ (forall item, In item (Dashboard.lowStockItems items) ->
                   In item items /\ isLowStock item = true)
  /\ (DashboardCards.allStockedUp items = true
      <-> forall item, In item items -> isLowStock item = false)
  /\ DashboardCards.allStockedUp items = negb (DashboardCards.urgent items).
Proof.
  unfold DashboardCards.allStockedUp, DashboardCards.urgent, Dashboard.lowStockItems,
    Dashboard.lowStockCount, Dashboard.lowStock.
  split; [apply length_firstn|].
  split; [intros H; apply firstn_all2; exact H|].
  split.
  { intros item Hin.
    assert (Hin' : In item (filter isLowStock items)).
    { rewrite <- (firstn_skipn 5 (filter isLowStock items)).
      apply in_or_app. left. exact Hin. }
    apply filter_In in Hin'. exact Hin'. }
  split.
  - rewrite length_firstn, Nat.eqb_eq. split.
    + intros H item Hin. destruct (isLowStock item) eqn:E; [|reflexivity].
      assert (Hin' : In item (filter isLowStock items))
        by (apply filter_In; split; assumption).
      destruct (filter isLowStock items); [destruct Hin'|cbn in H; lia].
    + intros H. rewrite filter_none; [reflexivity|].
      apply forallb_forall. intros item Hin. rewrite (H item Hin). reflexivity.
  - rewrite length_firstn.
    destruct (filter isLowStock items) as [|x l]; [reflexivity|].
    cbn [List.length]. destruct (List.length l) as [|[|[|[|n]]]]; reflexivity.
Qed.

Lemma Qle_bool_cases (p q : Q) :
  (Qle_bool p q = true /\ (p <= q)%Q) \/ (Qle_bool p q = false /\ (q < p)%Q).
Proof.
  destruct (Qle_bool p q) eqn:E.
  - left. split; [reflexivity|]. apply Qle_bool_iff. exact E.
  - right. split; [reflexivity|]. apply Qnot_le_lt. intros H.
    apply Qle_bool_iff in H. rewrite H in E. discriminate E.
Qed.

Lemma clamped (x : Number.t) :
  x <> Number.NaN ->
  exists p,
    Number.max (Number.Finite 0) (Number.min (Number.Finite 100) x)
    = Number.Finite p
    /\ (0 <= p)%Q /\ (p <= 100)%Q.
Proof.
  intros Hx. destruct x as [|[|]|q].
  - exfalso. apply Hx. reflexivity.
  - exists 100%Q. split; [reflexivity|]. split; discriminate.
  - exists 0%Q. split; [reflexivity|]. split; discriminate.
  - unfold Number.max, Number.min.
    destruct (Qle_bool_cases 100 q) as [[E H]|[E H]]; rewrite E.
    + exists 100%Q. split; [reflexivity|]. split; discriminate.
    + destruct (Qle_bool_cases 0 q) as [[E0 H0]|[E0 H0]]; rewrite E0.
      * exists q. split; [reflexivity|]. split; [exact H0|].
        apply Qlt_le_weak. exact H.
      * exists 0%Q. split; [reflexivity|]. split; discriminate.
Qed.

Lemma times_hundred_is_a_number (x : Number.t) :
  x <> Number.NaN -> Number.mul x (Number.Finite 100) <> Number.NaN.
Proof.
  intros Hx. destruct x as [|s|q].
  - exfalso. apply Hx. reflexivity.
  - destruct s; discriminate.
  - apply round_not_NaN.
Qed.

Lemma int4_exact (n : Z) :
  int4 n = true -> Number.of_Z n = Number.Finite (inject_Z n).
Proof.
  intros H. apply of_Z_exact. unfold int4 in H.
  apply andb_true_iff in H. destruct H as [Hlo Hhi].
  apply Z.leb_le in Hlo. apply Z.leb_le in Hhi.
  assert (H53 : 2 ^ 31 < 2 ^ 53) by reflexivity. lia.
Qed.

(** X26. The progress bar of a low-stock item,
    [Math.max(0, Math.min(100, quantity / min_quantity * 100))], in the
    double-precision arithmetic of the client, for an item whose
    quantities are 32-bit integers as the columns hold them. It is not a
    number exactly for an item with quantity 0 and minimum quantity 0
    (which counts as low on stock): 0/0 passes through both clamps. In
    every other case, a minimum of 0 included, it is a finite value from 0
    to 100; it is 100 for a quantity equal to a minimum other than 0, and
    for a positive quantity with minimum 0. The quotient is rounded: 1 of
    3 gives 33.33333333333333, which is not a third of 100. *)
Theorem stockPercentage_is_clamped_or_not_a_number (item : InventoryItem.t) :
  let quantity := InventoryItem.quantity item in
  let min_quantity := InventoryItem.min_quantity item in
  int4 quantity = true ->
  int4 min_quantity = true ->
  (DashboardCards.stockPercentage item = Number.NaN <-> quantity = 0 /\ min_quantity = 0)
  /\ (quantity = 0 /\ min_quantity = 0 -> isLowStock item = true)
  /\ (forall s, DashboardCards.stockPercentage item <> Number.Infinity s)
  /\ (forall p, DashboardCards.stockPercentage item = Number.Finite p ->
                (0 <= p)%Q /\ (p <= 100)%Q)
  /\ (min_quantity <> 0 -> quantity = min_quantity ->
      DashboardCards.stockPercentage item = Number.Finite 100)
  /\ (min_quantity = 0 -> 0 < quantity ->
      DashboardCards.stockPercentage item = Number.Finite 100)
  /\ (quantity = 1 -> min_quantity = 3 ->
      DashboardCards.stockPercentage item
      = Number.Finite (2345624805922133 # 70368744177664)
      /\ ~ (2345624805922133 # 70368744177664 == (1 # 3) * 100)%Q).
Proof.
  intros quantity min_quantity Hq Hm.
  unfold DashboardCards.stockPercentage, isLowStock.
  fold quantity min_quantity.
  rewrite (int4_exact _ Hq), (int4_exact _ Hm).
  clear Hq Hm. generalize quantity min_quantity. clear.
  intros quantity min_quantity.
  assert (Hnumber :
    min_quantity <> 0 ->
    Number.mul (Number.div (Number.Finite (inject_Z quantity))
                           (Number.Finite (inject_Z min_quantity)))
               (Number.Finite 100) <> Number.NaN).
  { intros Hm. apply times_hundred_is_a_number.
    destruct min_quantity as [|m|m]; [contradiction Hm; reflexivity| |];
      apply round_not_NaN. }
  destruct (Z.eq_dec min_quantity 0) as [Em|Em].
  - subst min_quantity. destruct quantity as [|q|q].
    + split; [split; [intros _; split; reflexivity|reflexivity]|].
      split; [reflexivity|].
      split; [intros s H; discriminate H|].
      split; [intros p H; discriminate H|].
      split; [intros H; contradiction H; reflexivity|].
      split; [intros _ H; discriminate H|]. intros H; discriminate H.
    + split; [split; [intros H; discriminate H|intros [H _]; discriminate H]|].
      split; [intros [H _]; discriminate H|].
      split; [intros s H; discriminate H|].
      split; [intros p H; inversion H; split; discriminate|].
      split; [intros H; contradiction H; reflexivity|].
      split; [reflexivity|]. intros _ H; discriminate H.
    + split; [split; [intros H; discriminate H|intros [H _]; discriminate H]|].
      split; [intros [H _]; discriminate H|].
      split; [intros s H; discriminate H|].
      split; [intros p H; inversion H; split; discriminate|].
      split; [intros H; contradiction H; reflexivity|].
      split; [intros _ H; discriminate H|]. intros _ H; discriminate H.
  - destruct (clamped _ (Hnumber Em)) as [p [Hp [H0 H100]]].
    split; [rewrite Hp; split; [intros H; discriminate H|intros [_ H]; contradiction]|].
    split; [intros [_ H]; contradiction|].
    split; [rewrite Hp; intros s H; discriminate H|].
    split; [rewrite Hp; intros p' H; inversion H; subst p'; split; assumption|].
    split; [|split; [intros H; contradiction|]].
    + intros _ Heq. subst quantity.
      assert (Hone : Number.div (Number.Finite (inject_Z min_quantity))
                                (Number.Finite (inject_Z min_quantity))
                     = Number.Finite 1).
      { destruct min_quantity as [|m|m]; [contradiction Em; reflexivity| |].
        - change (Number.round (inject_Z (Z.pos m) / inject_Z (Z.pos m))
                  = Number.round 1).
          apply round_Qeq. apply Qmult_inv_r. discriminate.
        - change (Number.round (inject_Z (Z.neg m) / inject_Z (Z.neg m))
                  = Number.round 1).
          apply round_Qeq. apply Qmult_inv_r. discriminate. }
      rewrite Hone. vm_compute. reflexivity.
    + intros Hq3 Hm3. subst quantity min_quantity.
      split; [vm_compute; reflexivity|]. intros H. vm_compute in H. discriminate H.
Qed.

Lemma stockPercentage_at_Acme :
  DashboardCards.stockPercentage Acme.widget = Number.Finite 40
  /\ (0 <= 40)%Q /\ (40 <= 100)%Q.
Proof.
  assert (E : DashboardCards.stockPercentage Acme.widget = Number.Finite 40)
    by (vm_compute; reflexivity).
  split; [exact E|].
  exact (proj1 (proj2 (proj2 (proj2
           (stockPercentage_is_clamped_or_not_a_number Acme.widget
              eq_refl eq_refl)))) 40%Q E).
Defined.

(** X27. The list of the inventory page and its low-stock counter,
    whatever the text searched for. With the low-stock switch on, every
    item listed is low on stock and the list is no longer than the
    counter says; it is exactly the low-stock items of the list shown
    with the switch off. When the search matches every item (as the empty
    search does), the list with the switch off is all the items and with
    the switch on it has as many items as the counter says. The items
    listed keep the order they were loaded in. *)
Theorem inventory_list_agrees_with_low_stock_count
        (matchesSearch : InventoryItem.t -> bool) (items : list InventoryItem.t) :
  (forall item, In item (Inventory.filteredItems matchesSearch true items) ->
                In item items /\ isLowStock item = true /\ matchesSearch item = true)
  /\ (List.length (Inventory.filteredItems matchesSearch true items)
      <= Inventory.lowStockCount items)%nat
  /\ Inventory.filteredItems matchesSearch true items
     = filter isLowStock (Inventory.filteredItems matchesSearch false items)
  /\ ((forall item, In item items -> matchesSearch item = true) ->
      Inventory.filteredItems matchesSearch false items = items
      /\ List.length (Inventory.filteredItems matchesSearch true items)
         = Inventory.lowStockCount items)
  /\ (forall showLowStock,
         kept_in_order (Inventory.filteredItems matchesSearch showLowStock items) items).
Proof.
  unfold Inventory.filteredItems, Inventory.lowStockCount. cbn zeta.
  assert (Hcomm : filter (fun item => matchesSearch item && isLowStock item) items
                  = filter isLowStock (filter (fun item => matchesSearch item && true) items)).
  { induction items as [|x l IH]; cbn; [reflexivity|].
    destruct (matchesSearch x); cbn; [|exact IH].
    destruct (isLowStock x); rewrite IH; reflexivity. }
  split.
  { intros item Hin. apply filter_In in Hin. destruct Hin as [Hin H].
    apply andb_true_iff in H. destruct H as [Hs Hl]. auto. }
  split.
  { rewrite Hcomm. clear Hcomm. induction items as [|x l IH]; cbn; [lia|].
    destruct (matchesSearch x); cbn; destruct (isLowStock x); cbn; lia. }
  split; [exact Hcomm|].
  split.
  - intros Hall.
    assert (Hsame : filter (fun item => matchesSearch item && true) items = items).
    { apply filter_all. apply forallb_forall. intros x Hx.
      rewrite (Hall x Hx). reflexivity. }
    split; [exact Hsame|]. rewrite Hcomm, Hsame. reflexivity.
  - intros showLowStock. apply filter_kept_in_order.
Qed.

(** ** The current workspace *)

(** X28. After [refreshWorkspaces] the current workspace is one of the
    workspaces listed, and there is none exactly when none is listed
    (nobody signed in, or nothing fetched). When the saved id is the id
    of a fetched workspace the current one has that id; otherwise it is
    the first workspace fetched. *)
Theorem current_workspace_is_a_listed_one (user : option uuid)
        (fetchedWorkspaces : option (list Workspace.t)) (savedWorkspaceId : option uuid) :
  let state := WorkspaceProvider.refreshWorkspaces user fetchedWorkspaces savedWorkspaceId in
  (WorkspaceProvider.currentWorkspace state = None
   <-> WorkspaceProvider.workspaces state = [])
  /\ (forall w, WorkspaceProvider.currentWorkspace state = Some w ->
                In w (WorkspaceProvider.workspaces state))
  /\ (forall l, user <> None -> fetchedWorkspaces = Some l ->
                WorkspaceProvider.workspaces state = l)
  /\ (user = None -> WorkspaceProvider.workspaces state = [])
  /\ (forall id w',
         savedWorkspaceId = Some id ->
         In w' (WorkspaceProvider.workspaces state) -> Workspace.id w' = id ->
         exists w, WorkspaceProvider.currentWorkspace state = Some w /\ Workspace.id w = id)
  /\ ((forall w', In w' (WorkspaceProvider.workspaces state) ->
                  Some (Workspace.id w') <> savedWorkspaceId) ->
      WorkspaceProvider.currentWorkspace state
      = hd_error (WorkspaceProvider.workspaces state)).
Proof.
  intros state. subst state. unfold WorkspaceProvider.refreshWorkspaces.
  destruct user as [u|].
  2:{ cbn. split; [split; reflexivity|]. split; [intros w H; discriminate H|].
      split; [intros l H; contradiction H; reflexivity|].
      split; [reflexivity|]. split; [intros id w' _ []|reflexivity]. }
  destruct fetchedWorkspaces as [[|first rest]|].
  1,3: cbn; (split; [split; reflexivity|]); (split; [intros w H; discriminate H|]);
       (split; [intros l _ H; inversion H; reflexivity|]);
       (split; [intros H; discriminate H|]);
       (split; [intros id w' _ []|reflexivity]).
  cbn [WorkspaceProvider.workspaces WorkspaceProvider.currentWorkspace].
  set (saved := fun w => match savedWorkspaceId with
                         | Some id => Nat.eqb (Workspace.id w) id
                         | None => false
                         end).
  destruct (find saved (first :: rest)) as [w|] eqn:Ef.
  - apply find_some in Ef. destruct Ef as [Hin Hsaved].
    split; [split; intros H; discriminate H|].
    split; [intros w0 H; inversion H; subst w0; exact Hin|].
    split; [intros l _ H; inversion H; reflexivity|].
    split; [intros H; discriminate H|].
    split.
    + intros id w' Hid _ _. exists w. split; [reflexivity|].
      unfold saved in Hsaved. rewrite Hid in Hsaved. apply Nat.eqb_eq. exact Hsaved.
    + intros Hnone. exfalso. unfold saved in Hsaved.
      destruct savedWorkspaceId as [id|]; [|discriminate Hsaved].
      apply Nat.eqb_eq in Hsaved. apply (Hnone w Hin). rewrite Hsaved. reflexivity.
  - split; [split; intros H; discriminate H|].
    split; [intros w0 H; inversion H; left; reflexivity|].
    split; [intros l _ H; inversion H; reflexivity|].
    split; [intros H; discriminate H|].
    split; [|reflexivity].
    intros id w' Hid Hin Hw'. exfalso.
    pose proof (find_none saved (first :: rest) Ef w' Hin) as Hno.
    unfold saved in Hno. rewrite Hid, <- Hw', Nat.eqb_refl in Hno. discriminate Hno.
Qed.

(** ** The reorder-email function *)

Lemma ok_range (st : Z) : generateReorderEmail.ok st = true <-> 200 <= st <= 299.
Proof.
  unfold generateReorderEmail.ok. rewrite andb_true_iff, !Z.leb_le. reflexivity.
Qed.

Lemma relay_cases (gatewayStatus : Z) (data : option generateReorderEmail.Json) :
  let r := generateReorderEmail.relay gatewayStatus data in
  generateReorderEmail.fetched r = true
  /\ In (generateReorderEmail.status r) [200; 402; 429; 500]
  /\ (forall content,
        generateReorderEmail.body r = generateReorderEmail.Email content
        <-> generateReorderEmail.truthy (Some content) = true
            /\ generateReorderEmail.ok gatewayStatus = true
            /\ exists parsed,
                data = Some parsed
                /\ generateReorderEmail.emailContent parsed = Some (Some content))
  /\ (forall code, code = 429 \/ code = 402 ->
        (generateReorderEmail.status r = code <-> gatewayStatus = code))
  /\ (generateReorderEmail.status r = 200
      <-> exists content, generateReorderEmail.body r = generateReorderEmail.Email content)
  /\ (generateReorderEmail.status r = 500
      <-> generateReorderEmail.body r = generateReorderEmail.Caught)
  /\ generateReorderEmail.body r <> generateReorderEmail.NoBody.
Proof.
  intros r. subst r. unfold generateReorderEmail.relay, generateReorderEmail.caught.
  destruct (generateReorderEmail.ok gatewayStatus) eqn:Eok; cbn [negb].
  - pose proof (proj1 (ok_range gatewayStatus) Eok) as Hrange.
    assert (Hcaught :
      (forall content,
          ~ (generateReorderEmail.truthy (Some content) = true
             /\ true = true
             /\ exists parsed,
                 data = Some parsed
                 /\ generateReorderEmail.emailContent parsed = Some (Some content))) ->
      let r := {| generateReorderEmail.status := 500;
                  generateReorderEmail.body := generateReorderEmail.Caught;
                  generateReorderEmail.fetched := true |} in
      generateReorderEmail.fetched r = true
      /\ In (generateReorderEmail.status r) [200; 402; 429; 500]
      /\ (forall content,
            generateReorderEmail.body r = generateReorderEmail.Email content
            <-> generateReorderEmail.truthy (Some content) = true
                /\ true = true
                /\ exists parsed,
                    data = Some parsed
                    /\ generateReorderEmail.emailContent parsed = Some (Some content))
      /\ (forall code, code = 429 \/ code = 402 ->
            (generateReorderEmail.status r = code <-> gatewayStatus = code))
      /\ (generateReorderEmail.status r = 200
          <-> exists content,
              generateReorderEmail.body r = generateReorderEmail.Email content)
      /\ (generateReorderEmail.status r = 500
          <-> generateReorderEmail.body r = generateReorderEmail.Caught)
      /\ generateReorderEmail.body r <> generateReorderEmail.NoBody).
    { intros Hno r. subst r. cbn.
      split; [reflexivity|]. split; [auto 6|].
      split; [intros content; split; [intros H; discriminate H|intros H; destruct (Hno _ H)]|].
      split; [intros code Hcode; split; intros H; lia|].
      split; [split; [intros H; discriminate H|intros [c H]; discriminate H]|].
      split; [split; reflexivity|]. discriminate. }
    destruct data as [parsed|].
    + destruct (generateReorderEmail.emailContent parsed) as [[value|]|] eqn:Econtent.
      * destruct (generateReorderEmail.truthy (Some value)) eqn:Etruthy.
        -- cbn. split; [reflexivity|]. split; [auto|].
           split.
           { intros content. split.
             - intros H. injection H as H. subst content.
               split; [exact Etruthy|]. split; [reflexivity|].
               exists parsed. split; [reflexivity|exact Econtent].
             - intros [_ [_ [parsed' [Hp Hc]]]]. injection Hp as Hp. subst parsed'.
               rewrite Econtent in Hc. injection Hc as Hc. subst content. reflexivity. }
           split; [intros code Hcode; split; intros H; lia|].
           split; [split; [intros _; exists value; reflexivity|reflexivity]|].
           split; [split; intros H; discriminate H|]. discriminate.
        -- apply Hcaught. intros content [Ht [_ [parsed' [Hp Hc]]]].
           injection Hp as Hp. subst parsed'.
           rewrite Econtent in Hc. injection Hc as Hc. subst content.
           rewrite Ht in Etruthy. discriminate Etruthy.
      * cbn [generateReorderEmail.truthy]. apply Hcaught.
        intros content [_ [_ [parsed' [Hp Hc]]]]. injection Hp as Hp. subst parsed'.
        rewrite Econtent in Hc. discriminate Hc.
      * apply Hcaught.
        intros content [_ [_ [parsed' [Hp Hc]]]]. injection Hp as Hp. subst parsed'.
        rewrite Econtent in Hc. discriminate Hc.
    + apply Hcaught. intros content [_ [_ [parsed' [Hp _]]]]. discriminate Hp.
  - assert (Hnot : ~ (200 <= gatewayStatus <= 299)).
    { intros H. apply ok_range in H. rewrite H in Eok. discriminate Eok. }
    destruct (gatewayStatus =? 429) eqn:E429; [|destruct (gatewayStatus =? 402) eqn:E402].
    + apply Z.eqb_eq in E429. subst gatewayStatus. cbn.
      split; [reflexivity|]. split; [auto 6|].
      split; [intros content; split; [intros H; discriminate H|intros [_ [H _]]; discriminate H]|].
      split; [intros code Hcode; split; intros H; lia|].
      split; [split; [intros H; discriminate H|intros [c H]; discriminate H]|].
      split; [split; intros H; discriminate H|]. discriminate.
    + apply Z.eqb_eq in E402. subst gatewayStatus. cbn.
      split; [reflexivity|]. split; [auto 6|].
      split; [intros content; split; [intros H; discriminate H|intros [_ [H _]]; discriminate H]|].
      split; [intros code Hcode; split; intros H; lia|].
      split; [split; [intros H; discriminate H|intros [c H]; discriminate H]|].
      split; [split; intros H; discriminate H|]. discriminate.
    + apply Z.eqb_neq in E429. apply Z.eqb_neq in E402. cbn.
      split; [reflexivity|]. split; [auto 6|].
      split; [intros content; split; [intros H; discriminate H|intros [_ [H _]]; discriminate H]|].
      split; [intros code Hcode; split; intros H; lia|].
      split; [split; [intros H; discriminate H|intros [c H]; discriminate H]|].
      split; [split; reflexivity|]. discriminate.
Qed.

Lemma destructure_unitPrice (body : generateReorderEmail.Json)
      (request : generateReorderEmail.ReorderEmailRequest) :
  generateReorderEmail.destructure body = Some request ->
  generateReorderEmail.unitPrice request = generateReorderEmail.member "unitPrice" body.
Proof.
  intros H. destruct body; cbn in H; try discriminate H;
    injection H as H; subst request; reflexivity.
Qed.

Lemma toFixed_of_no_number (request : generateReorderEmail.ReorderEmailRequest)
      (price : generateReorderEmail.Json) :
  generateReorderEmail.unitPrice request = Some price ->
  generateReorderEmail.truthy (Some price) = true ->
  generateReorderEmail.is_number price = false ->
  generateReorderEmail.userPrompt_throws request = true.
Proof.
  intros Hprice Htruthy Hnumber. unfold generateReorderEmail.userPrompt_throws.
  rewrite Hprice, Htruthy, Hnumber. cbn [negb orb andb].
  rewrite ?orb_true_r. reflexivity.
Qed.

(** X29. The responses of [generate-reorder-email]. The status is always
    one of 200, 402, 429 and 500; it is 500 exactly when the body is the
    error that was caught, and a response has no body exactly for a
    preflight. The gateway is called exactly when the request is not a
    preflight, the key is configured, the request body is JSON other than
    [null], and building the prompt does not throw; so it is not called
    for a body that is missing, not JSON or [null], nor for a [unitPrice]
    that is truthy and not a number ([toFixed] is missing). A response
    carries an email exactly when the gateway was called and answered with
    a success status and a body whose [choices[0].message.content] is
    truthy; the email is that value and the status is 200. The statuses
    429 and 402 are given exactly when the gateway was called and answered
    with them. *)
Theorem generate_reorder_email_responses (LOVABLE_API_KEY : option string)
        (req : generateReorderEmail.Request) (gateway : generateReorderEmail.Gateway) :
  let response := generateReorderEmail.serve LOVABLE_API_KEY req gateway in
  let asked := String.eqb (generateReorderEmail.method req) "OPTIONS" = false
               /\ generateReorderEmail.falsy LOVABLE_API_KEY = false
               /\ exists body request,
                   generateReorderEmail.json req = Some body
                   /\ generateReorderEmail.destructure body = Some request
                   /\ generateReorderEmail.userPrompt_throws request = false in
  In (generateReorderEmail.status response) [200; 402; 429; 500]
  /\ (generateReorderEmail.status response = 500
      <-> generateReorderEmail.body response = generateReorderEmail.Caught)
  /\ (generateReorderEmail.body response = generateReorderEmail.NoBody
      <-> String.eqb (generateReorderEmail.method req) "OPTIONS" = true)
  /\ (generateReorderEmail.fetched response = true <-> asked)
  /\ (generateReorderEmail.json req = None
      \/ generateReorderEmail.json req = Some generateReorderEmail.JNull ->
      generateReorderEmail.fetched response = false)
  /\ (forall body price,
         generateReorderEmail.json req = Some body ->
         generateReorderEmail.member "unitPrice" body = Some price ->
         generateReorderEmail.truthy (Some price) = true ->
         generateReorderEmail.is_number price = false ->
         generateReorderEmail.fetched response = false)
  /\ (forall content,
         generateReorderEmail.body response = generateReorderEmail.Email content
         <-> asked
             /\ generateReorderEmail.truthy (Some content) = true
             /\ exists gatewayStatus parsed,
                 generateReorderEmail.ok gatewayStatus = true
                 /\ gateway = generateReorderEmail.Answers gatewayStatus (Some parsed)
                 /\ generateReorderEmail.emailContent parsed = Some (Some content))
  /\ (forall content,
         generateReorderEmail.body response = generateReorderEmail.Email content ->
         generateReorderEmail.status response = 200)
  /\ (forall code, code = 429 \/ code = 402 ->
         (generateReorderEmail.status response = code
          <-> asked /\ exists data, gateway = generateReorderEmail.Answers code data)).
Proof.
  intros response asked.
  assert (Hcases :
    (asked
     /\ response = match gateway with
                   | generateReorderEmail.Rejects => generateReorderEmail.caught true
                   | generateReorderEmail.Answers gatewayStatus data =>
                       generateReorderEmail.relay gatewayStatus data
                   end)
    \/ (~ asked
        /\ ((String.eqb (generateReorderEmail.method req) "OPTIONS" = true
             /\ response = {| generateReorderEmail.status := 200;
                              generateReorderEmail.body := generateReorderEmail.NoBody;
                              generateReorderEmail.fetched := false |})
            \/ (String.eqb (generateReorderEmail.method req) "OPTIONS" = false
                /\ response = generateReorderEmail.caught false)))).
  { subst response asked. unfold generateReorderEmail.serve.
    destruct (String.eqb (generateReorderEmail.method req) "OPTIONS").
    { right. split; [intros [H _]; discriminate H|]. left. split; reflexivity. }
    destruct (generateReorderEmail.falsy LOVABLE_API_KEY).
    { right. split; [intros [_ [H _]]; discriminate H|]. right. split; reflexivity. }
    destruct (generateReorderEmail.json req) as [body|].
    2:{ right. split; [intros [_ [_ [b [r [H _]]]]]; discriminate H|].
        right. split; reflexivity. }
    destruct (generateReorderEmail.destructure body) as [request|] eqn:Ebody.
    2:{ right. split.
        - intros [_ [_ [b [r [Hb [Hr _]]]]]]. injection Hb as Hb. subst b.
          rewrite Ebody in Hr. discriminate Hr.
        - right. split; reflexivity. }
    destruct (generateReorderEmail.userPrompt_throws request) eqn:Eprompt.
    { right. split.
      - intros [_ [_ [b [r [Hb [Hr Hp]]]]]]. injection Hb as Hb. subst b.
        rewrite Ebody in Hr. injection Hr as Hr. subst r.
        rewrite Eprompt in Hp. discriminate Hp.
      - right. split; reflexivity. }
    left. split; [|reflexivity].
    split; [reflexivity|]. split; [reflexivity|].
    exists body, request. split; [reflexivity|]. split; [exact Ebody|exact Eprompt]. }
  assert (Hnull : generateReorderEmail.json req = None
                  \/ generateReorderEmail.json req = Some generateReorderEmail.JNull ->
                  ~ asked).
  { intros Hjson [_ [_ [b [r [Hb [Hr _]]]]]].
    destruct Hjson as [Hjson|Hjson]; rewrite Hjson in Hb; [discriminate Hb|].
    injection Hb as Hb. subst b. discriminate Hr. }
  assert (Hprice : forall body price,
             generateReorderEmail.json req = Some body ->
             generateReorderEmail.member "unitPrice" body = Some price ->
             generateReorderEmail.truthy (Some price) = true ->
             generateReorderEmail.is_number price = false ->
             ~ asked).
  { intros body price Hjson Hmember Htruthy Hnumber [_ [_ [b [r [Hb [Hr Hp]]]]]].
    rewrite Hjson in Hb. injection Hb as Hb. subst b.
    pose proof (destructure_unitPrice _ _ Hr) as Hunit. rewrite Hmember in Hunit.
    rewrite (toFixed_of_no_number r price Hunit Htruthy Hnumber) in Hp.
    discriminate Hp. }
  destruct Hcases as [[Hasked Hresponse]|[Hnot Hresponse]].
  - assert (Hmethod : String.eqb (generateReorderEmail.method req) "OPTIONS" = false)
      by exact (proj1 Hasked).
    destruct gateway as [|gatewayStatus data].
    + rewrite Hresponse. cbn.
      split; [auto 6|]. split; [split; reflexivity|].
      split; [split; [intros H; discriminate H|rewrite Hmethod; intros H; discriminate H]|].
      split; [split; [intros _; exact Hasked|reflexivity]|].
      split; [intros H; destruct (Hnull H Hasked)|].
      split; [intros b p H1 H2 H3 H4; destruct (Hprice b p H1 H2 H3 H4 Hasked)|].
      split.
      { intros content. split; [intros H; discriminate H|].
        intros [_ [_ [st [parsed [_ [H _]]]]]]. discriminate H. }
      split; [intros content H; discriminate H|].
      intros code [->| ->]; (split; [intros H; discriminate H|intros [_ [d H]]; discriminate H]).
    + destruct (relay_cases gatewayStatus data)
        as [Hfetched [Hstatus [Hemail [Hcodes [H200 [H500 Hbody]]]]]].
      rewrite Hresponse.
      split; [exact Hstatus|]. split; [exact H500|].
      split; [split; [intros H; destruct (Hbody H)|rewrite Hmethod; intros H; discriminate H]|].
      split; [split; [intros _; exact Hasked|intros _; exact Hfetched]|].
      split; [intros H; destruct (Hnull H Hasked)|].
      split; [intros b p H1 H2 H3 H4; destruct (Hprice b p H1 H2 H3 H4 Hasked)|].
      split.
      { intros content. rewrite Hemail. split.
        - intros [Htruthy [Hok [parsed [Hdata Hcontent]]]].
          split; [exact Hasked|]. split; [exact Htruthy|].
          exists gatewayStatus, parsed. subst data.
          split; [exact Hok|]. split; [reflexivity|exact Hcontent].
        - intros [_ [Htruthy [st [parsed [Hok [Hgateway Hcontent]]]]]].
          injection Hgateway as Hst Hdata. subst st data.
          split; [exact Htruthy|]. split; [exact Hok|].
          exists parsed. split; [reflexivity|exact Hcontent]. }
      split; [intros content H; apply H200; exists content; exact H|].
      intros code Hcode. rewrite (Hcodes code Hcode). split.
      * intros H. subst code. split; [exact Hasked|]. exists data. reflexivity.
      * intros [_ [d H]]. injection H as H _. exact H.
  - assert (Hfetched : generateReorderEmail.fetched response = false)
      by (destruct Hresponse as [[_ H]|[_ H]]; rewrite H; reflexivity).
    assert (Hno_email : forall content,
               generateReorderEmail.body response <> generateReorderEmail.Email content)
      by (intros content; destruct Hresponse as [[_ H]|[_ H]]; rewrite H; discriminate).
    split; [destruct Hresponse as [[_ H]|[_ H]]; rewrite H; cbn; auto 6|].
    split.
    { destruct Hresponse as [[_ H]|[_ H]]; rewrite H; cbn;
        split; intros H'; try discriminate H'; reflexivity. }
    split.
    { destruct Hresponse as [[Hm H]|[Hm H]]; rewrite H, Hm; cbn;
        split; intros H'; try discriminate H'; reflexivity. }
    split; [rewrite Hfetched; split; [intros H; discriminate H|intros H; destruct (Hnot H)]|].
    split; [intros _; exact Hfetched|].
    split; [intros; exact Hfetched|].
    split.
    { intros content. split; [intros H; destruct (Hno_email _ H)|].
      intros [H _]. destruct (Hnot H). }
    split; [intros content H; destruct (Hno_email _ H)|].
    intros code Hcode. split; [|intros [H _]; destruct (Hnot H)].
    intros H. exfalso.
    destruct Hresponse as [[_ Hr]|[_ Hr]]; rewrite Hr in H; cbn in H; lia.
Qed.

(** A request for five widgets, answered by the gateway with an email; the
    same request with the unit price as a text, and with a body that is
    [null]. *)
Example generate_reorder_email_for_widgets :
  let answer :=
    generateReorderEmail.Answers 200
      (Some (generateReorderEmail.JObject
               [("choices"%string,
                 generateReorderEmail.JArray
                   [generateReorderEmail.JObject
                      [("message"%string,
                        generateReorderEmail.JObject
                          [("content"%string,
                            generateReorderEmail.JString "Subject: Reorder")])]])])) in
  let order price :=
    {| generateReorderEmail.method := "POST";
       generateReorderEmail.json :=
         Some (generateReorderEmail.JObject
                 [("itemName"%string, generateReorderEmail.JString "Widget");
                  ("reorderQuantity"%string,
                   generateReorderEmail.JNumber (Number.of_Z 5));
                  ("unitPrice"%string, price)]) |} in
  generateReorderEmail.serve (Some "key"%string)
    (order (generateReorderEmail.JNumber (Number.of_decimal (250 # 100)))) answer
  = {| generateReorderEmail.status := 200;
       generateReorderEmail.body :=
         generateReorderEmail.Email (generateReorderEmail.JString "Subject: Reorder");
       generateReorderEmail.fetched := true |}
  /\ generateReorderEmail.serve (Some "key"%string)
       (order (generateReorderEmail.JString "2.50")) answer
     = generateReorderEmail.caught false
  /\ generateReorderEmail.serve (Some "key"%string)
       {| generateReorderEmail.method := "POST";
          generateReorderEmail.json := Some generateReorderEmail.JNull |} answer
     = generateReorderEmail.caught false.
Proof. repeat split; vm_compute; reflexivity. Qed.
